(** * copy-photo: a shallow embedding of [copy-photo.py]

    The script imports photographs from a camera card: it resolves the
    mount point of the card, discovers the photo directories, derives a
    date from the earliest photo, creates the destination, copies the
    files flat into it and compares counts and byte totals.

    Modelling choices.
    - Python's [str] is [string]; [int] is [Z]; a list or tuple of
      strings is [list string]; a [dict] with string keys is a
      [gmap string _].  File names and extensions are strings of ASCII
      characters: the case mapping of other letters is not modelled.
    - The part of the file system that is walked, read and written is a
      tree of regular files and directories ([node]).  The entries of a
      directory are kept as a list whose order is the order in which
      [os.scandir] reports them.  Symbolic links, permissions and
      devices are not modelled.  A path into the tree is the list of its
      components from the root, so [os.path.join root file] is
      [root ++ [file]].
    - What the script asks the live system through path strings it built
      by formatting or globbing ([os.path.ismount], [glob.glob],
      [os.path.isdir] on a glob result), the time zone behind
      [datetime.fromtimestamp] (which raises on a timestamp it cannot
      turn into a date), [str.format] and the [json] codec are
      parameters of the sections that use them.
    - An exception is a value of [exn]; a call that may raise returns a
      [result].  What a function prints is returned as a list of
      [line]s. *)

From Stdlib Require Import String Ascii ZArith List Bool Lia DecimalString.
From stdpp Require Import base strings list gmap fin_maps.
Import ListNotations.
Set Warnings "-register-all".

Local Open Scope Z_scope.

Abbreviation path := (list string).

(** ** Python strings *)

Module Py.

(** [str.lower] on strings of ASCII characters: the letters A to Z are
    lowered, every other character is left as it is. *)
Definition lower_char (c : ascii) : ascii :=
  let n := nat_of_ascii c in
  if ((65 <=? n)%nat && (n <=? 90)%nat)%bool then ascii_of_nat (n + 32) else c.

Fixpoint lower (s : string) : string :=
  match s with
  | EmptyString => EmptyString
  | String c s' => String (lower_char c) (lower s')
  end.

(** [s.endswith(suffix)]: some tail of [s] is [suffix]. *)
Fixpoint endswith (s suffix : string) : bool :=
  String.eqb s suffix
  || match s with
     | EmptyString => false
     | String _ s' => endswith s' suffix
     end.

(** [s.endswith(suffixes)] with a tuple of suffixes. *)
Definition endswith_tuple (s : string) (suffixes : list string) : bool :=
  existsb (endswith s) suffixes.

(** [a.startswith(b)]. *)
Fixpoint startswith (s pre : string) : bool :=
  match pre, s with
  | EmptyString, _ => true
  | String c pre', String d s' => Ascii.eqb c d && startswith s' pre'
  | String _ _, EmptyString => false
  end.

(** [sub in s] for two strings. *)
Fixpoint contains (s sub : string) : bool :=
  startswith s sub
  || match s with
     | EmptyString => false
     | String _ s' => contains s' sub
     end.

(** [posixpath.join a b] on path strings. *)
Definition os_path_join (a b : string) : string :=
  if startswith b "/" then b
  else if String.eqb a "" || endswith a "/" then String.append a b
  else String.append a (String.append "/" b).

End Py.

(** ** Exceptions and results *)

(** The text of the [FileNotFoundError]s the script raises itself, and of
    the one the system raises for a missing path. *)
Inductive message : Type :=
| NoDisk (label : string) (mount_patterns : list string)
| NoPhotoDirs (source_patterns : list string)
| NoPhotos (extensions : list string)
| NoSuchFile.

Inductive exn : Type :=
| FileNotFoundError (m : message)
| IsADirectoryError
| NotADirectoryError
| FileExistsError
| SameFileError
| JSONDecodeError
| TypeError
| KeyError (k : string)
| ValueError
| IndexError.

Inductive result (A : Type) : Type :=
| Ok (a : A)
| Raise (e : exn).
Arguments Ok {A} a.
Arguments Raise {A} e.

Definition bind {A B : Type} (m : result A) (k : A -> result B) : result B :=
  match m with
  | Ok a => k a
  | Raise e => Raise e
  end.

Notation "'let*' x ':=' m 'in' k" := (bind m (fun x => k))
  (at level 10, x pattern, m at level 100, k at level 200).

(** A [for] loop whose body may raise: the accumulator is threaded through
    the elements in order and the first exception leaves the loop. *)
Fixpoint foldM {A S : Type} (body : S -> A -> result S) (l : list A) (s : S) : result S :=
  match l with
  | [] => Ok s
  | x :: l' => let* s' := body s x in foldM body l' s'
  end.

(** ** The file system *)

Inductive node : Type :=
| File (data : string) (mtime : Z)
| Dir (entries : list (string * node)).

Definition is_dir (n : node) : bool :=
  match n with
  | Dir _ => true
  | File _ _ => false
  end.

(** The entry called [c] of a directory listing. *)
Fixpoint entry (c : string) (es : list (string * node)) : option node :=
  match es with
  | [] => None
  | (c', n) :: es' => if String.eqb c c' then Some n else entry c es'
  end.

(** The listing with the entry called [c] replaced, in place. *)
Fixpoint replace_entry (c : string) (new : node) (es : list (string * node))
  : list (string * node) :=
  match es with
  | [] => []
  | (c', n) :: es' =>
      if String.eqb c c' then (c', new) :: es' else (c', n) :: replace_entry c new es'
  end.

(** Path resolution from a node. *)
Fixpoint lookup (n : node) (p : path) : option node :=
  match p with
  | [] => Some n
  | c :: p' =>
      match n with
      | Dir es => match entry c es with
                  | Some ch => lookup ch p'
                  | None => None
                  end
      | File _ _ => None
      end
  end.

(** The invariant of a real directory tree: no two entries of a directory
    share a name. *)
Fixpoint wf (n : node) : bool :=
  match n with
  | File _ _ => true
  | Dir es =>
      bool_decide (NoDup (map fst es)) && forallb (fun e => wf (snd e)) es
  end.

Definition os_path_exists (fs : node) (p : path) : bool :=
  match lookup fs p with
  | Some _ => true
  | None => false
  end.

Definition os_path_isdir (fs : node) (p : path) : bool :=
  match lookup fs p with
  | Some (Dir _) => true
  | _ => false
  end.

Definition os_path_join (root : path) (file : string) : path := root ++ [file].

Definition os_path_basename (p : path) : string := List.last p EmptyString.

(** [os.path.getsize] and [os.path.getmtime].  The script calls them on
    files reported by [os.walk] only; the size and time of a directory
    are not part of the model and asking for them is an error here. *)
Definition os_path_getsize (fs : node) (p : path) : result Z :=
  match lookup fs p with
  | Some (File data _) => Ok (Z.of_nat (String.length data))
  | Some (Dir _) => Raise IsADirectoryError
  | None => Raise (FileNotFoundError NoSuchFile)
  end.

Definition os_path_getmtime (fs : node) (p : path) : result Z :=
  match lookup fs p with
  | Some (File _ mtime) => Ok mtime
  | Some (Dir _) => Raise IsADirectoryError
  | None => Raise (FileNotFoundError NoSuchFile)
  end.

(** [open(p).read()]. *)
Definition read_file (fs : node) (p : path) : result string :=
  match lookup fs p with
  | Some (File data _) => Ok data
  | Some (Dir _) => Raise IsADirectoryError
  | None => Raise (FileNotFoundError NoSuchFile)
  end.

(** Creating or truncating the file at [p] and leaving [data] in it, with
    modification time [mtime]: the directory holding it must exist and
    [p] must not be a directory. *)
Fixpoint write_file (n : node) (p : path) (data : string) (mtime : Z) : result node :=
  match n, p with
  | File _ _, [] => Ok (File data mtime)
  | Dir _, [] => Raise IsADirectoryError
  | File _ _, _ :: _ => Raise NotADirectoryError
  | Dir es, c :: p' =>
      match entry c es with
      | Some ch =>
          let* ch' := write_file ch p' data mtime in
          Ok (Dir (replace_entry c ch' es))
      | None =>
          match p' with
          | [] => Ok (Dir (es ++ [(c, File data mtime)]))
          | _ :: _ => Raise (FileNotFoundError NoSuchFile)
          end
      end
  end.

(** A chain of fresh, nested directories. *)
Fixpoint fresh_dirs (p : path) : node :=
  match p with
  | [] => Dir []
  | c :: p' => Dir [(c, fresh_dirs p')]
  end.

(** [os.makedirs(p, exist_ok=True)]: missing directories are created
    along [p]; an existing directory at [p] is accepted, a regular file
    at [p] or on the way to it is an error. *)
Fixpoint os_makedirs (n : node) (p : path) : result node :=
  match n, p with
  | Dir _, [] => Ok n
  | File _ _, [] => Raise FileExistsError
  | File _ _, _ :: _ => Raise NotADirectoryError
  | Dir es, c :: p' =>
      match entry c es with
      | Some ch =>
          let* ch' := os_makedirs ch p' in
          Ok (Dir (replace_entry c ch' es))
      | None => Ok (Dir (es ++ [(c, fresh_dirs p')]))
      end
  end.

Definition dirnames (es : list (string * node)) : list string :=
  map fst (List.filter (fun e => is_dir (snd e)) es).

Definition filenames (es : list (string * node)) : list string :=
  map fst (List.filter (fun e => negb (is_dir (snd e))) es).

(** [os.walk], top down: a directory yields its own triple
    [(root, dirs, files)] first and then the triples of its
    subdirectories, in listing order. *)
Fixpoint walk_node (root : path) (n : node) : list (path * list string * list string) :=
  match n with
  | File _ _ => []
  | Dir es =>
      (root, dirnames es, filenames es)
        :: flat_map (fun e => walk_node (os_path_join root (fst e)) (snd e)) es
  end.

(** [os.walk top]; a missing [top] or a regular file yields nothing. *)
Definition os_walk (fs : node) (top : path) : list (path * list string * list string) :=
  match lookup fs top with
  | Some n => walk_node top n
  | None => []
  end.

(** [shutil.copy2 src dst]: into the directory [dst] under the name of
    [src] when [dst] is a directory, onto [dst] otherwise; contents and
    modification time are carried over. *)
Definition shutil_copy2 (fs : node) (src dst : path) : result node :=
  let dst := if os_path_isdir fs dst then os_path_join dst (os_path_basename src) else dst in
  if bool_decide (src = dst) && os_path_exists fs src then Raise SameFileError
  else
    match lookup fs src with
    | Some (File data mtime) => write_file fs dst data mtime
    | Some (Dir _) => Raise IsADirectoryError
    | None => Raise (FileNotFoundError NoSuchFile)
    end.

(** ** What the script prints *)

Inductive line : Type :=
| ConfigCreated (config_path : path)
| FoundDir (dir_path : string)
| VerifyHeader
| VerifyCounts (src_count dst_count : Z)
| VerifySizes (src_size dst_size : Z)
| WarnCount (src_count dst_count : Z)
| WarnSize (src_size dst_size : Z)
| VerifyPassed
| NoFilesToCopy
| CopyFailed (file : path) (e : exn).

(** ** Configuration *)

(** What [json.load] can return. *)
Inductive value : Type :=
| VNone
| VBool (b : bool)
| VInt (n : Z)
| VFloat (repr : string)
| VStr (s : string)
| VList (l : list value)
| VDict (d : gmap string value).

Definition strs (l : list string) : value := VList (map VStr l).

(** The literal [DEFAULT_CONFIG], in the order it is written, and the
    dictionary it denotes. *)
Definition DEFAULT_CONFIG_items : list (string * value) :=
  [ ("mount_patterns", strs ["/media/{user}/{label}"; "/run/media/{user}/{label}"]);
    ("source_patterns", strs ["DCIM/*"]);
    ("photo_extensions", strs [".jpg"; ".jpeg"; ".cr2"; ".raw"]);
    ("destination_template", VStr "{date}-canon600d-{name}");
    ("subfolders", strs ["selected"; "selected/exported"]) ].

Definition DEFAULT_CONFIG : gmap string value := list_to_map DEFAULT_CONFIG_items.

(** [key in config] *)
Definition py_in (key : string) (config : value) : result bool :=
  match config with
  | VDict d => Ok (bool_decide (is_Some (d !! key)))
  | VList l =>
      Ok (existsb (fun v => match v with VStr s => String.eqb s key | _ => false end) l)
  | VStr s => Ok (Py.contains s key)
  | VNone | VBool _ | VInt _ | VFloat _ => Raise TypeError
  end.

(** [config[key] = v] for a string [key] *)
Definition py_setitem (config : value) (key : string) (v : value) : result value :=
  match config with
  | VDict d => Ok (VDict (<[key := v]> d))
  | _ => Raise TypeError
  end.

Section ConfigLoader.

(** [json.dump(_, f, indent=4)] and [json.load]; [None] stands for a
    decoding error. *)
Variable json_dump : value -> string.
Variable json_load : string -> option value.

(** [now] is the clock reading that stamps a newly written file. *)
Definition load_config (fs : node) (now : Z) (config_path : path)
  : node * list line * result value :=
  if negb (os_path_exists fs config_path) then
    match write_file fs config_path (json_dump (VDict DEFAULT_CONFIG)) now with
    | Ok fs' => (fs', [ConfigCreated config_path], Ok (VDict DEFAULT_CONFIG))
    | Raise e => (fs, [ConfigCreated config_path], Raise e)
    end
  else
    (fs, [],
     let* text := read_file fs config_path in
     let* config := match json_load text with
                    | Some v => Ok v
                    | None => Raise JSONDecodeError
                    end in
     foldM (fun config '(key, default) =>
              let* present := py_in key config in
              if negb present then py_setitem config key default else Ok config)
           DEFAULT_CONFIG_items config).

End ConfigLoader.

(** The configuration as the pipeline reads it. *)
Record config : Type := {
  mount_patterns : list string;
  source_patterns : list string;
  photo_extensions : list string;
  destination_template : string;
  subfolders : list path
}.

(** ** Mount resolver *)

Section MountResolver.

(** [pattern.format(user=user, label=label)] and [os.path.ismount]. *)
Variable str_format : string -> string -> string -> result string.
Variable os_path_ismount : string -> bool.

Fixpoint find_mount_loop (cfg : config) (label user : string) (patterns : list string)
  : result string :=
  match patterns with
  | [] => Raise (FileNotFoundError (NoDisk label (mount_patterns cfg)))
  | pattern :: rest =>
      let* mount_point := str_format pattern user label in
      if os_path_ismount mount_point then Ok mount_point
      else find_mount_loop cfg label user rest
  end.

Definition find_mount_point (cfg : config) (label user : string) : result string :=
  find_mount_loop cfg label user (mount_patterns cfg).

End MountResolver.

(** ** Source discovery *)

Section SourceDiscovery.

(** [glob.glob] and [os.path.isdir] on the strings it returns. *)
Variable glob_glob : string -> list string.
Variable isdir : string -> bool.

Definition find_photo_directories (mount_point : string) (source_patterns : list string)
  : list line * result (list string) :=
  let photo_dirs :=
    fold_left
      (fun photo_dirs pattern =>
         let full_pattern := Py.os_path_join mount_point pattern in
         let matched_dirs := glob_glob full_pattern in
         fold_left
           (fun photo_dirs dir_path =>
              if isdir dir_path then photo_dirs ++ [dir_path] else photo_dirs)
           matched_dirs photo_dirs)
      source_patterns [] in
  (map FoundDir photo_dirs,
   match photo_dirs with
   | [] => Raise (FileNotFoundError (NoPhotoDirs source_patterns))
   | _ :: _ => Ok photo_dirs
   end).

End SourceDiscovery.

(** ** Dates *)

(** A naive [datetime]. *)
Record datetime : Type := {
  year : Z; month : Z; day : Z;
  hour : Z; minute : Z; second : Z; microsecond : Z
}.

Definition datetime_fields (d : datetime) : list Z :=
  [year d; month d; day d; hour d; minute d; second d; microsecond d].

(** Python's ordering of tuples of integers. *)
Fixpoint tuple_ltb (a b : list Z) : bool :=
  match a, b with
  | x :: a', y :: b' => (x <? y) || ((x =? y) && tuple_ltb a' b')
  | [], _ :: _ => true
  | _, [] => false
  end.

(** [d1 < d2] on naive datetimes: field by field, most significant first. *)
Definition datetime_ltb (d1 d2 : datetime) : bool :=
  tuple_ltb (datetime_fields d1) (datetime_fields d2).

Definition digit (n : Z) : ascii := ascii_of_nat (48 + Z.to_nat (n mod 10)).

Definition zfill2 (n : Z) : string :=
  String (digit (n / 10)) (String (digit n) EmptyString).

Definition zfill4 (n : Z) : string :=
  String (digit (n / 1000)) (String (digit (n / 100)) (zfill2 n)).

(** [d.strftime("%Y%m%d")] as the C library behind it prints a date:
    the year in decimal and not padded, the month and the day with two
    digits each. *)
Definition strftime_Ymd (d : datetime) : string :=
  NilZero.string_of_int (Z.to_int (year d)) +:+ zfill2 (month d) +:+ zfill2 (day d).

(** ** The photo filter and the files it selects *)

(** [file.lower().endswith(tuple(ext.lower() for ext in extensions))] *)
Definition selected (extensions : list string) (file : string) : bool :=
  Py.endswith_tuple (Py.lower file) (map Py.lower extensions).

(** The paths of the selected files below [directories], in the order the
    three nested loops of the script meet them. *)
Definition photo_paths (fs : node) (directories : list path) (extensions : list string)
  : list path :=
  flat_map
    (fun directory =>
       flat_map
         (fun '(root, _, files) =>
            map (os_path_join root) (List.filter (selected extensions) files))
         (os_walk fs directory))
    directories.

(** ** Date deriver *)

Section DateDeriver.

(** [datetime.fromtimestamp]: the local time of a timestamp, given here
    in microseconds, or the exception it raises when the timestamp is
    out of its range. *)
Variable fromtimestamp : Z -> result datetime.

Definition get_earliest_photo_date (fs : node) (photo_dirs : list path)
  (extensions : list string) : result string :=
  let extensions := map Py.lower extensions in
  let* earliest_date :=
    foldM
      (fun earliest_date photo_dir =>
         foldM
           (fun earliest_date '(root, _, files) =>
              foldM
                (fun earliest_date file =>
                   if Py.endswith_tuple (Py.lower file) extensions then
                     let file_path := os_path_join root file in
                     let* mtime := os_path_getmtime fs file_path in
                     let* file_date := fromtimestamp mtime in
                     match earliest_date with
                     | None => Ok (Some file_date)
                     | Some earliest =>
                         if datetime_ltb file_date earliest then Ok (Some file_date)
                         else Ok (Some earliest)
                     end
                   else Ok earliest_date)
                files earliest_date)
           (os_walk fs photo_dir) earliest_date)
      photo_dirs None in
  match earliest_date with
  | None => Raise (FileNotFoundError (NoPhotos extensions))
  | Some earliest => Ok (strftime_Ymd earliest)
  end.

End DateDeriver.

(** ** File inventory, verifier, copy engine, destination builder *)

Definition get_files_info (fs : node) (directories : list path) (extensions : list string)
  : result (Z * Z) :=
  let extensions := map Py.lower extensions in
  foldM
    (fun acc directory =>
       foldM
         (fun acc '(root, _, files) =>
            foldM
              (fun acc file =>
                 if Py.endswith_tuple (Py.lower file) extensions then
                   let file_path := os_path_join root file in
                   let '(file_count, total_size) := acc in
                   let* size := os_path_getsize fs file_path in
                   Ok (file_count + 1, total_size + size)
                 else Ok acc)
              files acc)
         (os_walk fs directory) acc)
    directories (0, 0).

Definition verify_copy (fs : node) (source_dirs : list path) (dest_dir : path)
  (extensions : list string) : result (list line * bool) :=
  let* (src_count, src_size) := get_files_info fs source_dirs extensions in
  let* (dst_count, dst_size) := get_files_info fs [dest_dir] extensions in
  let out := [VerifyHeader; VerifyCounts src_count dst_count; VerifySizes src_size dst_size] in
  if negb (src_count =? dst_count) then
    Ok (out ++ [WarnCount src_count dst_count], false)
  else if negb (src_size =? dst_size) then
    Ok (out ++ [WarnSize src_size dst_size], false)
  else
    Ok (out ++ [VerifyPassed], true).

(** The list [all_files] that [copy_with_progress] builds first. *)
Definition all_files (fs : node) (source_dirs : list path) (extensions : list string)
  : list path :=
  let extensions := map Py.lower extensions in
  fold_left
    (fun all_files source_dir =>
       fold_left
         (fun all_files '(root, _, files) =>
            fold_left
              (fun all_files file =>
                 if Py.endswith_tuple (Py.lower file) extensions
                 then all_files ++ [os_path_join root file]
                 else all_files)
              files all_files)
         (os_walk fs source_dir) all_files)
    source_dirs [].

(** The copy loop: a failing copy leaves the file system as it was, adds
    a line and goes on to the next file. *)
Fixpoint copy_loop (fs : node) (files : list path) (dest_dir : path) : node * list line :=
  match files with
  | [] => (fs, [])
  | file :: rest =>
      match shutil_copy2 fs file dest_dir with
      | Ok fs' => copy_loop fs' rest dest_dir
      | Raise e =>
          let '(fs', out) := copy_loop fs rest dest_dir in
          (fs', CopyFailed file e :: out)
      end
  end.

Definition copy_with_progress (fs : node) (source_dirs : list path) (dest_dir : path)
  (extensions : list string) : node * list line * bool :=
  match all_files fs source_dirs extensions with
  | [] => (fs, [NoFilesToCopy], false)
  | (_ :: _) as files =>
      let '(fs', out) := copy_loop fs files dest_dir in
      (fs', out, true)
  end.

(** A subfolder is given relative to the destination, by its components. *)
Fixpoint makedirs_each (fs : node) (dest_path : path) (folders : list path)
  : node * option exn :=
  match folders with
  | [] => (fs, None)
  | folder :: rest =>
      match os_makedirs fs (dest_path ++ folder) with
      | Ok fs' => makedirs_each fs' dest_path rest
      | Raise e => (fs, Some e)
      end
  end.

(** The file system it leaves, and the exception that ended it, if any. *)
Definition setup_destination (fs : node) (dest_path : path) (subfolders : list path)
  : node * option exn :=
  match os_makedirs fs dest_path with
  | Ok fs' => makedirs_each fs' dest_path subfolders
  | Raise e => (fs, Some e)
  end.

(** ** Instances of the parameters, for running the model *)

(** A [str.format] for templates whose only braces are the fields
    [{user}] and [{label}]; [skip] counts the characters of a field still
    to be passed over. *)
Fixpoint fill_fields (s : string) (skip : nat) (user label : string) : string :=
  match s with
  | EmptyString => EmptyString
  | String c s' =>
      match skip with
      | S k => fill_fields s' k user label
      | O =>
          if Py.startswith s "{user}" then user +:+ fill_fields s' 5 user label
          else if Py.startswith s "{label}" then label +:+ fill_fields s' 6 user label
          else String c (fill_fields s' 0 user label)
      end
  end.

Definition format_user_label (pattern user label : string) : result string :=
  Ok (fill_fields pattern 0 user label).

(** The civil date of a day number counted from 1970-01-01. *)
Definition civil_from_days (days : Z) : Z * Z * Z :=
  let z := days + 719468 in
  let era := z / 146097 in
  let doe := z - era * 146097 in
  let yoe := (doe - doe / 1460 + doe / 36524 - doe / 146096) / 365 in
  let doy := doe - (365 * yoe + yoe / 4 - yoe / 100) in
  let mp := (5 * doy + 2) / 153 in
  let d := doy - (153 * mp + 2) / 5 + 1 in
  let m := if mp <? 10 then mp + 3 else mp - 9 in
  let y := yoe + era * 400 + (if m <=? 2 then 1 else 0) in
  (y, m, d).

(** The date and time of a timestamp at a fixed offset from UTC, both in
    microseconds. *)
Definition civil_at (offset t : Z) : datetime :=
  let secs := (t + offset) / 1000000 in
  let sod := secs mod 86400 in
  let '(y, m, d) := civil_from_days (secs / 86400) in
  {| year := y; month := m; day := d;
     hour := sod / 3600; minute := sod mod 3600 / 60; second := sod mod 60;
     microsecond := t mod 1000000 |}.

(** A [datetime] has a year from 1 to 9999; [datetime.fromtimestamp]
    raises [ValueError] for a time outside these years. *)
Definition in_datetime_range (d : datetime) : result datetime :=
  if (1 <=? year d) && (year d <=? 9999) then Ok d else Raise ValueError.

(** [datetime.fromtimestamp] in a zone that keeps UTC all year. *)
Definition fromtimestamp_utc (t : Z) : result datetime :=
  in_datetime_range (civil_at 0 t).

(** [datetime.fromtimestamp] in the zone [Antarctica/Casey] around
    2010-03-04 15:00 UTC, when the station went from eleven hours ahead
    of UTC to eight: the clocks that read 02:00 on the 5th were set to
    23:00 on the 4th. *)
Definition fromtimestamp_casey (t : Z) : result datetime :=
  in_datetime_range
    (if t <? 1267714800000000 then civil_at 39600000000 t else civil_at 28800000000 t).

(** ** Normal forms used in the proofs *)

(** A file of the inventory adds one to the count and its size to the
    total. *)
Definition add_file (fs : node) (acc : Z * Z) (file_path : path) : result (Z * Z) :=
  let '(file_count, total_size) := acc in
  let* size := os_path_getsize fs file_path in
  Ok (file_count + 1, total_size + size).

(** The size of the regular file at a path, and the bytes of a list of
    paths. *)
Definition file_size (fs : node) (p : path) : Z :=
  match lookup fs p with
  | Some (File data _) => Z.of_nat (String.length data)
  | _ => 0
  end.

Definition total_bytes (fs : node) (ps : list path) : Z :=
  fold_right (fun p total => file_size fs p + total) 0 ps.

Definition is_file_at (fs : node) (p : path) : Prop :=
  exists data mtime, lookup fs p = Some (File data mtime).

(** No file below [directories] passes the filter. *)
Definition no_photo (fs : node) (directories : list path) (extensions : list string) : Prop :=
  forall directory root ds files file,
    In directory directories -> In (root, ds, files) (os_walk fs directory) ->
    In file files -> selected extensions file = false.

(** The three lines [verify_copy] always prints. *)
Definition verify_head (src_count src_size dst_count dst_size : Z) : list line :=
  [VerifyHeader; VerifyCounts src_count dst_count; VerifySizes src_size dst_size].

(** The template formats to a path that is not a mount point. *)
Definition rejected (str_format : string -> string -> string -> result string)
  (os_path_ismount : string -> bool) (label user pattern : string) : Prop :=
  exists candidate,
    str_format pattern user label = Ok candidate /\ os_path_ismount candidate = false.

(** The directories among the matches of every pattern, in pattern order
    and then in match order. *)
Definition found (glob_glob : string -> list string) (isdir : string -> bool)
  (mount_point : string) (source_patterns : list string) : list string :=
  flat_map
    (fun pattern => List.filter isdir (glob_glob (Py.os_path_join mount_point pattern)))
    source_patterns.

(** One more photo for the date deriver. *)
Definition keep_earliest (fromtimestamp : Z -> result datetime) (fs : node)
  (earliest_date : option datetime) (file_path : path) : result (option datetime) :=
  let* mtime := os_path_getmtime fs file_path in
  let* file_date := fromtimestamp mtime in
  match earliest_date with
  | None => Ok (Some file_date)
  | Some earliest =>
      if datetime_ltb file_date earliest then Ok (Some file_date) else Ok (Some earliest)
  end.

(** The same running minimum over dates already read. *)
Definition earliest_of (dates : list datetime) (earliest_date : option datetime)
  : option datetime :=
  fold_left
    (fun earliest_date file_date =>
       match earliest_date with
       | None => Some file_date
       | Some earliest =>
           if datetime_ltb file_date earliest then Some file_date else Some earliest
       end)
    dates earliest_date.

(** The modification time of the regular file at a path. *)
Definition file_mtime (fs : node) (p : path) : Z :=
  match lookup fs p with
  | Some (File _ mtime) => mtime
  | _ => 0
  end.

Definition is_dir_at (fs : node) (p : path) : Prop :=
  exists es, lookup fs p = Some (Dir es).

(** The listing after a file called [c] was written into it. *)
Definition put_entry (c : string) (new : node) (es : list (string * node))
  : list (string * node) :=
  match entry c es with
  | Some _ => replace_entry c new es
  | None => es ++ [(c, new)]
  end.

(** One step of the loop that backfills the defaults. *)
Definition backfill (config : value) (item : string * value) : result value :=
  let '(key, default) := item in
  let* present := py_in key config in
  if negb present then py_setitem config key default else Ok config.

(** [m] is among [dates] and none of them is before it. *)
Definition is_earliest (m : datetime) (dates : list datetime) : Prop :=
  In m dates /\ forall d, In d dates -> datetime_ltb d m = false.

(** The node at a path, and the listing of a flat destination into which
    the files at [ps] were copied, one after the other. *)
Definition file_at (fs : node) (p : path) : node :=
  match lookup fs p with
  | Some n => n
  | None => File EmptyString 0
  end.

Definition copies (fs : node) (ps : list path) : list (string * node) :=
  map (fun p => (os_path_basename p, file_at fs p)) ps.

(** Neither path leads to the other. *)
Definition apart (p q : path) : Prop := ~ p `prefix_of` q /\ ~ q `prefix_of` p.

(** ** Sample file systems *)

(** A card with one photo and a destination that holds two. *)
Definition mismatch_fs : node :=
  Dir [("card", Dir [("a.jpg", File "x" 0)]);
       ("out", Dir [("a.jpg", File "xx" 0); ("b.jpg", File "yyy" 0)])].

(** A destination in which a directory already has the name of a photo. *)
Definition blocked_fs : node :=
  Dir [("card", Dir [("a.jpg", File "a" 1); ("b.jpg", File "bb" 2);
                     ("c.jpg", File "ccc" 3)]);
       ("out", Dir [("b.jpg", Dir [])])].

(** A home directory with the configuration directory in place, once
    without a configuration file and once with one. *)
Definition home_fs : node :=
  Dir [("home", Dir [("alice", Dir [(".config", Dir [("photo_copy", Dir [])])])])].

Definition configured_fs : node :=
  Dir [("home",
        Dir [("alice",
              Dir [(".config",
                    Dir [("photo_copy",
                          Dir [("config.json", File "{'subfolders': []}" 7)])])])])].

Definition config_json : path := ["home"; "alice"; ".config"; "photo_copy"; "config.json"].

(** A codec that knows one document. *)
Definition dump_sample (v : value) : string := "<json>".

Definition load_sample (text : string) : option value :=
  if String.eqb text "{'subfolders': []}"
  then Some (VDict {[ "subfolders" := VList [] ]})
  else None.

(** Three photos taken on 2024-01-05, 2024-01-02 and 2024-01-09 (UTC). *)
Definition dated_fs : node :=
  Dir [("card",
        Dir [("DCIM",
              Dir [("100CANON",
                    Dir [("IMG_0001.JPG", File "aaaa" 1704450645000000);
                         ("IMG_0002.jpg", File "bb" 1704186000500000);
                         ("notes.txt", File "n" 1600000000000000)]);
                   ("101CANON",
                    Dir [("IMG_0003.jpg", File "cccccc" 1704790800000000)])])]);
       ("photos", Dir [])].

(** A card on which two directories hold a photo of the same name. *)
Definition clash_fs : node :=
  Dir [("card",
        Dir [("DCIM",
              Dir [("100CANON", Dir [("IMG_0001.JPG", File "aaaa" 1704450645000000)]);
                   ("101CANON", Dir [("IMG_0001.JPG", File "bb" 1704790800000000)])])]);
       ("photos", Dir [])].

(** A destination directory that lies inside the source directory. *)
Definition nested_fs : node :=
  Dir [("card", Dir [("IMG_0001.JPG", File "aaaa" 1704450645000000);
                     ("photos", Dir [])])].

(** ** Sample configuration and system answers *)

(** [DEFAULT_CONFIG] as the pipeline reads it. *)
Definition default_cfg : config :=
  {| mount_patterns := ["/media/{user}/{label}"; "/run/media/{user}/{label}"];
     source_patterns := ["DCIM/*"];
     photo_extensions := [".jpg"; ".jpeg"; ".cr2"; ".raw"];
     destination_template := "{date}-canon600d-{name}";
     subfolders := [["selected"]; ["selected"; "exported"]] |}.

(** A system on which the card is mounted below [/run/media] only. *)
Definition mounted_run_media (mount_point : string) : bool :=
  String.eqb mount_point "/run/media/alice/EOS_DIGITAL".

(** A system on which nothing is mounted. *)
Definition nothing_mounted (mount_point : string) : bool := false.

(** A card with two photo directories and a stray file below [DCIM]. *)
Definition glob_card (pattern : string) : list string :=
  if String.eqb pattern "/media/alice/EOS_DIGITAL/DCIM/*"
  then ["/media/alice/EOS_DIGITAL/DCIM/100CANON";
        "/media/alice/EOS_DIGITAL/DCIM/readme.txt";
        "/media/alice/EOS_DIGITAL/DCIM/101CANON"]
  else [].

Definition isdir_card (p : string) : bool :=
  String.eqb p "/media/alice/EOS_DIGITAL/DCIM/100CANON"
  || String.eqb p "/media/alice/EOS_DIGITAL/DCIM/101CANON".

(** ** More samples *)

(** A codec that writes one fixed text and reads it back as the default
    configuration. *)
Definition dump_fixed (v : value) : string := "<defaults>".

Definition load_fixed (text : string) : option value :=
  if String.eqb text "<defaults>" then Some (VDict DEFAULT_CONFIG) else None.

(** A codec that reads every text as the JSON array [[1]]. *)
Definition load_array (text : string) : option value := Some (VList [VInt 1]).

(** A home directory without the configuration directory. *)
Definition bare_home_fs : node := Dir [("home", Dir [("alice", Dir [])])].

(** What [json.load] returned is not an object. *)
Definition not_object (v : value) : Prop :=
  match v with
  | VDict _ => False
  | _ => True
  end.

(** A [str.format] that knows the fields [{user}] and [{label}] and raises
    [KeyError] on a template with the field [{name}]. *)
Definition format_checked (pattern user label : string) : result string :=
  if Py.contains pattern "{name}" then Raise (KeyError "name")
  else format_user_label pattern user label.

(** A configuration with a template that has a field the call does not
    supply. *)
Definition bad_template_cfg : config :=
  {| mount_patterns := ["/mnt/{user}"; "/mnt/{name}"; "/run/media/{user}/{label}"];
     source_patterns := ["DCIM/*"];
     photo_extensions := [".jpg"];
     destination_template := "{date}-{name}";
     subfolders := [] |}.

(** Every file below [directories], selected or not. *)
Definition every_file (fs : node) (directories : list path) : list path :=
  flat_map
    (fun directory =>
       flat_map (fun '(root, _, files) => map (os_path_join root) files)
                (os_walk fs directory))
    directories.

(** The line of a copy that raised [SameFileError]. *)
Definition same_file_line (file : path) : line := CopyFailed file SameFileError.

(** A flat directory of photos, and a destination that already holds a
    photo of one of their names and a file of its own. *)
Definition flat_fs : node :=
  Dir [("photos", Dir [("a.jpg", File "a" 1); ("b.jpg", File "bb" 2)]);
       ("backup", Dir [("b.jpg", File "old" 0); ("keep.txt", File "k" 9)])].

(** A regular file lies at [target] or on the way to it. *)
Definition blocked (fs : node) (target : path) : Prop :=
  exists q, q `prefix_of` target /\ is_file_at fs q.

(** The directories [setup_destination] asks for. *)
Definition targets (dest_path : path) (subfolders : list path) : list path :=
  dest_path :: map (fun folder => dest_path ++ folder) subfolders.

(** A home directory in which [Photos] is a regular file. *)
Definition photos_file_fs : node :=
  Dir [("home", Dir [("alice", Dir [("Photos", File "not a directory" 3);
                                    ("notes.txt", File "n" 4)])])].

(** ** The run *)

(** The command line after parsing. *)
Record args : Type := {
  arg_name : string;
  arg_label : string;
  arg_user : string;
  arg_no_verify : bool
}.

(** What the run asks of the system it runs on: [str.format] on a mount
    template, [os.path.ismount], [glob.glob], [os.path.isdir] on a glob
    result, the components of a path string, [datetime.fromtimestamp],
    [str.format] on the destination template (given the date and the
    name) and [os.path.expanduser]. *)
Record host : Type := {
  h_format : string -> string -> string -> result string;
  h_ismount : string -> bool;
  h_glob : string -> list string;
  h_isdir : string -> bool;
  h_resolve : string -> path;
  h_fromtimestamp : Z -> result datetime;
  h_format_dest : string -> string -> string -> result string;
  h_expanduser : string -> string
}.

(** The lines of a run: those of the functions it calls, its own, and the
    error line it writes before it exits with status 1. *)
Inductive report : Type :=
| Printed (l : line)
| MountFound (mount_point : string)
| DirsFound (count : Z)
| DateFound (date_str : string)
| DestChosen (dest_dir : string)
| Done
| Failed (e : exn).

(** The [try] block of [main], for a configuration whose values have the
    types the pipeline expects and parsed arguments: the file system it
    leaves, what it printed and the exit status. *)
Definition main_try (h : host) (cfg : config) (a : args) (fs : node)
  : node * list report * Z :=
  match find_mount_point (h_format h) (h_ismount h) cfg (arg_label a) (arg_user a) with
  | Raise e => (fs, [Failed e], 1)
  | Ok mount_point =>
      let '(found_lines, found_dirs) :=
        find_photo_directories (h_glob h) (h_isdir h) mount_point (source_patterns cfg) in
      let out1 := MountFound mount_point :: map Printed found_lines in
      match found_dirs with
      | Raise e => (fs, out1 ++ [Failed e], 1)
      | Ok found_dirs =>
          let photo_dirs := map (h_resolve h) found_dirs in
          let out2 := out1 ++ [DirsFound (Z.of_nat (length found_dirs))] in
          match get_earliest_photo_date (h_fromtimestamp h) fs photo_dirs
                  (photo_extensions cfg) with
          | Raise e => (fs, out2 ++ [Failed e], 1)
          | Ok date_str =>
              let out3 := out2 ++ [DateFound date_str] in
              match h_format_dest h (destination_template cfg) date_str (arg_name a) with
              | Raise e => (fs, out3 ++ [Failed e], 1)
              | Ok dest_folder =>
                  let dest_dir_str := h_expanduser h ("~/Photos/" +:+ dest_folder) in
                  let dest_dir := h_resolve h dest_dir_str in
                  let out4 := out3 ++ [DestChosen dest_dir_str] in
                  match setup_destination fs dest_dir (subfolders cfg) with
                  | (fs1, Some e) => (fs1, out4 ++ [Failed e], 1)
                  | (fs1, None) =>
                      let '(fs2, copy_lines, copy_success) :=
                        copy_with_progress fs1 photo_dirs dest_dir (photo_extensions cfg) in
                      let out5 := out4 ++ map Printed copy_lines in
                      if copy_success && negb (arg_no_verify a) then
                        match verify_copy fs2 photo_dirs dest_dir (photo_extensions cfg) with
                        | Raise e => (fs2, out5 ++ [Failed e], 1)
                        | Ok (verify_lines, _) =>
                            (fs2, out5 ++ map Printed verify_lines ++ [Done], 0)
                        end
                      else (fs2, out5 ++ [Done], 0)
                  end
              end
          end
      end
  end.

(** What the run settles before it writes anything: the photo
    directories and the destination directory. *)
Definition plan (h : host) (cfg : config) (a : args) (fs : node)
  : result (list path * path) :=
  let* mount_point :=
    find_mount_point (h_format h) (h_ismount h) cfg (arg_label a) (arg_user a) in
  let* found_dirs :=
    snd (find_photo_directories (h_glob h) (h_isdir h) mount_point (source_patterns cfg)) in
  let photo_dirs := map (h_resolve h) found_dirs in
  let* date_str :=
    get_earliest_photo_date (h_fromtimestamp h) fs photo_dirs (photo_extensions cfg) in
  let* dest_folder :=
    h_format_dest h (destination_template cfg) date_str (arg_name a) in
  Ok (photo_dirs, h_resolve h (h_expanduser h ("~/Photos/" +:+ dest_folder))).

(** ** A sample host and runs *)

(** Path strings are split at the slashes; [skip] drops the empty
    components. *)
Fixpoint split_path (s : string) (component : string) : path :=
  match s with
  | EmptyString =>
      match component with
      | EmptyString => []
      | _ => [component]
      end
  | String c s' =>
      if Ascii.eqb c "/"%char then
        match component with
        | EmptyString => split_path s' EmptyString
        | _ => component :: split_path s' EmptyString
        end
      else split_path s' (component +:+ String c EmptyString)
  end.

(** The destination template of the defaults, filled in. *)
Definition format_date_name (template date name : string) : result string :=
  Ok (date +:+ "-canon600d-" +:+ name).

(** [~] is [/home/alice]. *)
Definition expanduser_alice (s : string) : string :=
  match s with
  | String _ rest => "/home/alice" +:+ rest
  | EmptyString => EmptyString
  end.

Definition card_host : host :=
  {| h_format := format_user_label;
     h_ismount := fun mount_point => String.eqb mount_point "/media/alice/EOS_DIGITAL";
     h_glob := glob_card;
     h_isdir := isdir_card;
     h_resolve := fun s => split_path s EmptyString;
     h_fromtimestamp := fromtimestamp_utc;
     h_format_dest := format_date_name;
     h_expanduser := expanduser_alice |}.

(** The same system with no card in it. *)
Definition no_card_host : host :=
  {| h_format := format_user_label;
     h_ismount := nothing_mounted;
     h_glob := glob_card;
     h_isdir := isdir_card;
     h_resolve := fun s => split_path s EmptyString;
     h_fromtimestamp := fromtimestamp_utc;
     h_format_dest := format_date_name;
     h_expanduser := expanduser_alice |}.

(** The card mounted, with two photos of one name and of different
    sizes, and an empty home directory. *)
Definition mounted_fs : node :=
  Dir [("media",
        Dir [("alice",
              Dir [("EOS_DIGITAL",
                    Dir [("DCIM",
                          Dir [("100CANON",
                                Dir [("IMG_0001.JPG", File "aaaa" 1704450645000000)]);
                               ("101CANON",
                                Dir [("IMG_0001.JPG", File "bb" 1704186000500000)])])])])]);
       ("home", Dir [("alice", Dir [])])].

Definition trip_args (no_verify : bool) : args :=
  {| arg_name := "trip"; arg_label := "EOS_DIGITAL"; arg_user := "alice";
     arg_no_verify := no_verify |}.

(** The rest of the [try] block once the photo directories and the
    destination are known; [said] is what was printed so far. *)
Definition carry_out (cfg : config) (a : args) (fs : node) (said : list report)
  (photo_dirs : list path) (dest_dir : path) : node * list report * Z :=
  match setup_destination fs dest_dir (subfolders cfg) with
  | (fs1, Some e) => (fs1, said ++ [Failed e], 1)
  | (fs1, None) =>
      let '(fs2, copy_lines, copy_success) :=
        copy_with_progress fs1 photo_dirs dest_dir (photo_extensions cfg) in
      let out5 := said ++ map Printed copy_lines in
      if copy_success && negb (arg_no_verify a) then
        match verify_copy fs2 photo_dirs dest_dir (photo_extensions cfg) with
        | Raise e => (fs2, out5 ++ [Failed e], 1)
        | Ok (verify_lines, _) => (fs2, out5 ++ map Printed verify_lines ++ [Done], 0)
        end
      else (fs2, out5 ++ [Done], 0)
  end.

(** The same arguments with [--no-verify]. *)
Definition with_no_verify (a : args) : args :=
  {| arg_name := arg_name a; arg_label := arg_label a; arg_user := arg_user a;
     arg_no_verify := true |}.

(** A line of the verifier. *)
Definition is_verify_line (l : report) : bool :=
  match l with
  | Printed (VerifyHeader | VerifyCounts _ _ | VerifySizes _ _
            | WarnCount _ _ | WarnSize _ _ | VerifyPassed) => true
  | _ => false
  end.

(** What the run prints and settles before it writes anything. *)
Definition prepare (h : host) (cfg : config) (a : args) (fs : node)
  : list report * result (list path * path) :=
  match find_mount_point (h_format h) (h_ismount h) cfg (arg_label a) (arg_user a) with
  | Raise e => ([], Raise e)
  | Ok mount_point =>
      let '(found_lines, found_dirs) :=
        find_photo_directories (h_glob h) (h_isdir h) mount_point (source_patterns cfg) in
      let out1 := MountFound mount_point :: map Printed found_lines in
      match found_dirs with
      | Raise e => (out1, Raise e)
      | Ok found_dirs =>
          let photo_dirs := map (h_resolve h) found_dirs in
          let out2 := out1 ++ [DirsFound (Z.of_nat (length found_dirs))] in
          match get_earliest_photo_date (h_fromtimestamp h) fs photo_dirs
                  (photo_extensions cfg) with
          | Raise e => (out2, Raise e)
          | Ok date_str =>
              let out3 := out2 ++ [DateFound date_str] in
              match h_format_dest h (destination_template cfg) date_str (arg_name a) with
              | Raise e => (out3, Raise e)
              | Ok dest_folder =>
                  let dest_dir_str := h_expanduser h ("~/Photos/" +:+ dest_folder) in
                  (out3 ++ [DestChosen dest_dir_str],
                   Ok (photo_dirs, h_resolve h dest_dir_str))
              end
          end
      end
  end.

(** No regular file lies at [dir] or below it. *)
Definition file_free (fs : node) (dir : path) : Prop :=
  forall q data mtime, lookup fs (dir ++ q) <> Some (File data mtime).

(** A card and a destination that already has its subfolders. *)
Definition prepared_fs : node :=
  Dir [("card", Dir [("a.jpg", File "a" 1); ("sub", Dir [("b.jpg", File "bb" 2)])]);
       ("photos", Dir [("selected", Dir [("exported", Dir [])])])].

(** The card mounted, with one photo in each of its two directories, and
    an empty home directory. *)
Definition trip_fs : node :=
  Dir [("media",
        Dir [("alice",
              Dir [("EOS_DIGITAL",
                    Dir [("DCIM",
                          Dir [("100CANON",
                                Dir [("IMG_0001.JPG", File "aaaa" 1704450645000000)]);
                               ("101CANON",
                                Dir [("IMG_0002.JPG", File "bb" 1704186000500000);
                                     ("notes.txt", File "n" 5)])])])])]);
       ("home", Dir [("alice", Dir [])])].

(** The photo directories of the card and the destination of the trip. *)
Definition card_dirs : list path :=
  [["media"; "alice"; "EOS_DIGITAL"; "DCIM"; "100CANON"];
   ["media"; "alice"; "EOS_DIGITAL"; "DCIM"; "101CANON"]].

Definition trip_dest : path := ["home"; "alice"; "Photos"; "20240102-canon600d-trip"].

(** ** The configuration of a run *)

(** The lines of [main] before it parses its arguments: the
    configuration directory is made, then the configuration is loaded
    from [config.json] in it.  Neither call stands in the [try] block:
    what they raise leaves the program as it is. *)
Definition main_config (json_dump : value -> string) (json_load : string -> option value)
  (fs : node) (now : Z) (config_dir : path) : node * list line * result value :=
  match os_makedirs fs config_dir with
  | Raise e => (fs, [], Raise e)
  | Ok fs1 => load_config json_dump json_load fs1 now (os_path_join config_dir "config.json")
  end.

(** ** The dates of the photos *)

(** A conversion applied to each element in turn; the first one that
    raises ends the run. *)
Fixpoint mapM {A B : Type} (f : A -> result B) (l : list A) : result (list B) :=
  match l with
  | [] => Ok []
  | x :: l' =>
      let* y := f x in
      let* ys := mapM f l' in
      Ok (y :: ys)
  end.

(** The local dates of the files at [ps], as the date deriver reads
    them one after the other. *)
Definition dates_of (fromtimestamp : Z -> result datetime) (fs : node) (ps : list path)
  : result (list datetime) :=
  mapM (fun p => fromtimestamp (file_mtime fs p)) ps.

(** The format YYYYMMDD of the specification: four digits of the year,
    two of the month, two of the day. *)
Definition YYYYMMDD (d : datetime) : string :=
  zfill4 (year d) +:+ zfill2 (month d) +:+ zfill2 (day d).

(** The date of the first day of the year 999, and the years from 1000
    to 9999. *)
Definition new_year_999 : datetime :=
  {| year := 999; month := 1; day := 1;
     hour := 0; minute := 0; second := 0; microsecond := 0 |}.

Definition four_digit_years : list Z := map (fun k => 1000 + Z.of_nat k) (seq 0 (Z.to_nat 9000)).

(** Two photos taken at Casey station on either side of the change of
    2010-03-04 15:00 UTC: the first at 14:30 UTC, the second at 15:30
    UTC. *)
Definition casey_fs : node :=
  Dir [("card", Dir [("a.jpg", File "a" 1267713000000000);
                     ("b.jpg", File "b" 1267716600000000)])].

(** ** Letter case *)

(** An ASCII capital letter, and the small letter that goes with it. *)
Definition is_capital (c : ascii) : bool :=
  let n := nat_of_ascii c in ((65 <=? n)%nat && (n <=? 90)%nat)%bool.

Definition small_of (c : ascii) : ascii := ascii_of_nat (nat_of_ascii c + 32).

(** Two characters that are the same or the two cases of one of the
    letters A to Z, and two strings that are so character by character. *)
Definition same_letter (a b : ascii) : bool :=
  Ascii.eqb a b
  || (is_capital a && Ascii.eqb b (small_of a))
  || (is_capital b && Ascii.eqb a (small_of b)).

Fixpoint same_up_to_case (s t : string) : bool :=
  match s, t with
  | EmptyString, EmptyString => true
  | String a s', String b t' => same_letter a b && same_up_to_case s' t'
  | _, _ => false
  end.

(** A photo last modified on 0999-01-01 at 00:00 UTC, and one last
    modified on 10000-01-01 at 00:00 UTC. *)
Definition ancient_fs : node :=
  Dir [("card", Dir [("a.jpg", File "a" (-30641760000000000))])].

Definition far_fs : node :=
  Dir [("card", Dir [("a.jpg", File "a" 253402300800000000)])].

(** * Properties *)

(** ** Strings *)

Lemma endswith_unfold (s suffix : string) :
  Py.endswith s suffix
  = String.eqb s suffix
    || match s with
       | EmptyString => false
       | String _ s' => Py.endswith s' suffix
       end.
Proof. destruct s; reflexivity. Qed.

Lemma endswith_spec (s suffix : string) :
  Py.endswith s suffix = true <-> exists pre, s = pre +:+ suffix.
Proof.
  induction s as [| c s IH]; rewrite endswith_unfold, orb_true_iff, String.eqb_eq.
  - split.
    + intros [<- | ?]; [now exists EmptyString | discriminate].
    + intros [[| d pre] H]; simpl in H; [now left | discriminate].
  - rewrite IH. split.
    + intros [<- | [pre ->]]; [now exists EmptyString | now exists (String c pre)].
    + intros [[| d pre] H]; simpl in H.
      * now left.
      * injection H as -> ->. right. now exists pre.
Qed.

Lemma selected_spec (extensions : list string) (file : string) :
  selected extensions file = true <->
  exists ext, In ext extensions /\ exists pre, Py.lower file = pre +:+ Py.lower ext.
Proof.
  unfold selected, Py.endswith_tuple. rewrite existsb_exists. split.
  - intros [e [Hin He]]. apply in_map_iff in Hin as [ext [<- Hin]].
    exists ext. split; [exact Hin | now apply endswith_spec].
  - intros [ext [Hin Hpre]]. exists (Py.lower ext). split.
    + now apply in_map.
    + now apply endswith_spec.
Qed.

(** ** Loops *)

Lemma foldM_ext {A S : Type} (f g : S -> A -> result S) (l : list A) (s : S) :
  (forall s x, In x l -> f s x = g s x) -> foldM f l s = foldM g l s.
Proof.
  revert s. induction l as [| x l IH]; intros s H; simpl; [reflexivity |].
  rewrite (H s x) by now left.
  destruct (g s x); simpl; [| reflexivity].
  apply IH. intros. apply H. now right.
Qed.

Lemma foldM_app {A S : Type} (body : S -> A -> result S) (l1 l2 : list A) (s : S) :
  foldM body (l1 ++ l2) s = bind (foldM body l1 s) (foldM body l2).
Proof.
  revert s. induction l1 as [| x l1 IH]; intros s; simpl; [reflexivity |].
  destruct (body s x); simpl; [apply IH | reflexivity].
Qed.

Lemma foldM_flat_map {A B S : Type} (body : S -> B -> result S) (h : A -> list B)
  (l : list A) (s : S) :
  foldM (fun s x => foldM body (h x) s) l s = foldM body (flat_map h l) s.
Proof.
  revert s. induction l as [| x l IH]; intros s; simpl; [reflexivity |].
  rewrite foldM_app. destruct (foldM body (h x) s); simpl; [apply IH | reflexivity].
Qed.

Lemma foldM_filter_map {A B S : Type} (body : S -> B -> result S) (p : A -> bool)
  (k : A -> B) (l : list A) (s : S) :
  foldM (fun s x => if p x then body s (k x) else Ok s) l s
  = foldM body (map k (List.filter p l)) s.
Proof.
  revert s. induction l as [| x l IH]; intros s; simpl; [reflexivity |].
  destruct (p x); simpl; [| apply IH].
  destruct (body s (k x)); simpl; [apply IH | reflexivity].
Qed.

(** The three nested loops of the script visit exactly [photo_paths]. *)
Lemma loop_nest {S : Type} (body : S -> path -> result S) (fs : node)
  (directories : list path) (extensions : list string) (s : S) :
  foldM
    (fun acc directory =>
       foldM
         (fun acc '(root, _, files) =>
            foldM
              (fun acc file =>
                 if Py.endswith_tuple (Py.lower file) (map Py.lower extensions)
                 then body acc (os_path_join root file) else Ok acc)
              files acc)
         (os_walk fs directory) acc)
    directories s
  = foldM body (photo_paths fs directories extensions) s.
Proof.
  unfold photo_paths. rewrite <- foldM_flat_map.
  apply foldM_ext. intros acc directory _.
  rewrite <- foldM_flat_map.
  apply foldM_ext. intros acc' [[root dirs] files] _.
  apply (foldM_filter_map body (selected extensions) (os_path_join root)).
Qed.

Lemma fold_left_snoc_filter {A B : Type} (p : A -> bool) (k : A -> B) (l : list A)
  (acc : list B) :
  fold_left (fun acc x => if p x then acc ++ [k x] else acc) l acc
  = acc ++ map k (List.filter p l).
Proof.
  revert acc. induction l as [| x l IH]; intros acc; simpl.
  - now rewrite app_nil_r.
  - rewrite IH. destruct (p x); simpl; [now rewrite <- app_assoc | reflexivity].
Qed.

Lemma fold_left_extend {A B : Type} (f : list B -> A -> list B) (h : A -> list B)
  (l : list A) (acc : list B) :
  (forall acc x, f acc x = acc ++ h x) ->
  fold_left f l acc = acc ++ flat_map h l.
Proof.
  intros Hf. revert acc. induction l as [| x l IH]; intros acc; simpl.
  - now rewrite app_nil_r.
  - now rewrite IH, Hf, <- app_assoc.
Qed.

Lemma all_files_photo_paths (fs : node) (source_dirs : list path) (extensions : list string) :
  all_files fs source_dirs extensions = photo_paths fs source_dirs extensions.
Proof.
  unfold all_files, photo_paths.
  rewrite (fold_left_extend _
    (fun directory =>
       flat_map
         (fun '(root, _, files) =>
            map (os_path_join root) (List.filter (selected extensions) files))
         (os_walk fs directory))); [reflexivity |].
  intros acc source_dir.
  apply fold_left_extend. intros acc' [[root dirs] files].
  apply (fold_left_snoc_filter (selected extensions) (os_path_join root)).
Qed.

Lemma get_files_info_flat (fs : node) (directories : list path) (extensions : list string) :
  get_files_info fs directories extensions
  = foldM (add_file fs) (photo_paths fs directories extensions) (0, 0).
Proof. exact (loop_nest (add_file fs) fs directories extensions (0, 0)). Qed.

(** ** The tree *)

Lemma node_nested_ind (P : node -> Prop) :
  (forall data mtime, P (File data mtime)) ->
  (forall es, Forall (fun e => P (snd e)) es -> P (Dir es)) ->
  forall n, P n.
Proof.
  intros HF HD. fix IH 1. intros [data mtime | es].
  - apply HF.
  - apply HD. induction es as [| [c ch] es IHes]; constructor.
    + apply IH.
    + exact IHes.
Qed.

Lemma entry_In (c : string) (n : node) (es : list (string * node)) :
  entry c es = Some n -> In (c, n) es.
Proof.
  induction es as [| [c' m] es IH]; simpl; [discriminate |].
  destruct (String.eqb_spec c c') as [-> | Hne].
  - intros [= ->]. now left.
  - intros H. right. now apply IH.
Qed.

Lemma entry_None (c : string) (es : list (string * node)) :
  entry c es = None <-> ~ In c (map fst es).
Proof.
  induction es as [| [c' m] es IH]; simpl; [tauto |].
  destruct (String.eqb_spec c c') as [-> | Hne].
  - split; [discriminate | tauto].
  - rewrite IH. split; [intros H [E | ?]; [congruence | tauto] | tauto].
Qed.

Lemma entry_NoDup (c : string) (n : node) (es : list (string * node)) :
  NoDup (map fst es) -> In (c, n) es -> entry c es = Some n.
Proof.
  induction es as [| [c' m] es IH]; simpl; [tauto |].
  intros Hnd [[= -> ->] | Hin].
  - now rewrite String.eqb_refl.
  - apply NoDup_cons in Hnd as [Hnotin Hnd].
    destruct (String.eqb_spec c c') as [-> | Hne]; [| now apply IH].
    exfalso. apply Hnotin. apply list_elem_of_In.
    change c' with (fst (c', n)). now apply in_map.
Qed.

Lemma wf_Dir (es : list (string * node)) :
  wf (Dir es) = true <->
  NoDup (map fst es) /\ forall e, In e es -> wf (snd e) = true.
Proof.
  simpl. rewrite andb_true_iff, bool_decide_eq_true, forallb_forall. tauto.
Qed.

Lemma lookup_app (n : node) (p q : path) :
  lookup n (p ++ q) = match lookup n p with
                      | Some m => lookup m q
                      | None => None
                      end.
Proof.
  revert n. induction p as [| c p IH]; intros n; simpl; [reflexivity |].
  destruct n as [| es]; [reflexivity |].
  destruct (entry c es); [apply IH | reflexivity].
Qed.

Lemma wf_lookup (n m : node) (p : path) :
  wf n = true -> lookup n p = Some m -> wf m = true.
Proof.
  revert n. induction p as [| c p IH]; intros n Hwf; simpl.
  - now intros [= <-].
  - destruct n as [| es]; [discriminate |].
    destruct (entry c es) as [ch |] eqn:E; [| discriminate].
    apply IH. apply wf_Dir in Hwf as [_ Hwf].
    apply (Hwf (c, ch)). now apply entry_In.
Qed.

Lemma walk_node_sound (n : node) :
  wf n = true ->
  forall root r ds fl, In (r, ds, fl) (walk_node root n) ->
  exists rel es, r = root ++ rel /\ lookup n rel = Some (Dir es)
                 /\ ds = dirnames es /\ fl = filenames es.
Proof.
  induction n as [data mtime | es IH] using node_nested_ind; intros Hwf root r ds fl; simpl.
  - tauto.
  - intros [[= <- <- <-] | Hin].
    + exists [], es. now rewrite app_nil_r.
    + apply wf_Dir in Hwf as [Hnd Hwf].
      apply in_flat_map in Hin as [[c ch] [Hc Hin]]. simpl in Hin.
      rewrite Forall_forall in IH.
      destruct (IH (c, ch) ltac:(now apply list_elem_of_In) (Hwf _ Hc) _ _ _ _ Hin)
        as [rel [es' [-> [Hl [-> ->]]]]].
      exists (c :: rel), es'. unfold os_path_join. rewrite <- app_assoc. simpl.
      now rewrite (entry_NoDup c ch es Hnd Hc).
Qed.

Lemma os_walk_sound (fs : node) (top r : path) (ds fl : list string) :
  wf fs = true -> In (r, ds, fl) (os_walk fs top) ->
  exists es, lookup fs r = Some (Dir es) /\ NoDup (map fst es)
             /\ ds = dirnames es /\ fl = filenames es.
Proof.
  intros Hwf. unfold os_walk. destruct (lookup fs top) as [n |] eqn:E; [| simpl; tauto].
  intros Hin.
  destruct (walk_node_sound n (wf_lookup _ _ _ Hwf E) _ _ _ _ Hin)
    as [rel [es [-> [Hl [-> ->]]]]].
  exists es. rewrite lookup_app, E. repeat split; [exact Hl |].
  assert (Hes : wf (Dir es) = true).
  { apply (wf_lookup fs _ (top ++ rel)); [exact Hwf | now rewrite lookup_app, E]. }
  now apply wf_Dir in Hes.
Qed.

Lemma filenames_entry (es : list (string * node)) (f : string) :
  NoDup (map fst es) -> In f (filenames es) ->
  exists data mtime, entry f es = Some (File data mtime).
Proof.
  intros Hnd Hin. unfold filenames in Hin.
  apply in_map_iff in Hin as [[c n] [Hc Hin]]. simpl in Hc. subst c.
  apply filter_In in Hin as [Hin Hfile].
  destruct n as [data mtime | ?]; [| discriminate].
  exists data, mtime. now apply entry_NoDup.
Qed.

Lemma basename_join (root : path) (file : string) :
  os_path_basename (os_path_join root file) = file.
Proof. unfold os_path_basename, os_path_join. apply last_last. Qed.

Lemma photo_paths_inv (fs : node) (directories : list path) (extensions : list string)
  (p : path) :
  In p (photo_paths fs directories extensions) <->
  exists directory root ds files file,
    In directory directories /\ In (root, ds, files) (os_walk fs directory)
    /\ In file files /\ selected extensions file = true /\ p = os_path_join root file.
Proof.
  unfold photo_paths. rewrite in_flat_map. split.
  - intros [directory [Hd Hin]].
    apply in_flat_map in Hin as [[[root ds] files] [Hw Hin]].
    apply in_map_iff in Hin as [file [<- Hin]].
    apply filter_In in Hin as [Hin Hsel].
    now exists directory, root, ds, files, file.
  - intros (directory & root & ds & files & file & Hd & Hw & Hf & Hsel & ->).
    exists directory. split; [exact Hd |].
    apply in_flat_map. exists (root, ds, files). split; [exact Hw |].
    apply in_map. now apply filter_In.
Qed.

Lemma photo_paths_file (fs : node) (directories : list path) (extensions : list string)
  (p : path) :
  wf fs = true -> In p (photo_paths fs directories extensions) -> is_file_at fs p.
Proof.
  intros Hwf Hin.
  apply photo_paths_inv in Hin
    as (directory & root & ds & files & file & _ & Hw & Hf & _ & ->).
  destruct (os_walk_sound _ _ _ _ _ Hwf Hw) as [es [Hl [Hnd [_ ->]]]].
  destruct (filenames_entry es file Hnd Hf) as [data [mtime He]].
  exists data, mtime. unfold os_path_join. rewrite lookup_app, Hl. simpl. now rewrite He.
Qed.

Lemma photo_paths_selected (fs : node) (directories : list path) (extensions : list string)
  (p : path) :
  In p (photo_paths fs directories extensions) ->
  selected extensions (os_path_basename p) = true.
Proof.
  intros Hin.
  apply photo_paths_inv in Hin as (_ & root & _ & _ & file & _ & _ & _ & Hsel & ->).
  now rewrite basename_join.
Qed.

(** ** The inventory *)

Lemma foldM_add_file (fs : node) (ps : list path) (count size : Z) :
  (forall p, In p ps -> is_file_at fs p) ->
  foldM (add_file fs) ps (count, size)
  = Ok (count + Z.of_nat (length ps), size + total_bytes fs ps).
Proof.
  revert count size. induction ps as [| p ps IH]; intros count size Hfiles.
  - simpl. f_equal. f_equal; lia.
  - destruct (Hfiles p ltac:(now left)) as [data [mtime Hp]].
    cbn [foldM add_file]. unfold os_path_getsize. rewrite Hp. cbn [bind].
    rewrite IH by (intros; apply Hfiles; now right).
    cbn [total_bytes fold_right length]. unfold file_size at 1. rewrite Hp.
    fold (total_bytes fs ps). f_equal. f_equal; lia.
Qed.

(** On a well-formed tree the inventory is the number of selected files
    and the sum of their sizes. *)
Lemma get_files_info_wf (fs : node) (directories : list path) (extensions : list string) :
  wf fs = true ->
  get_files_info fs directories extensions
  = Ok (Z.of_nat (length (photo_paths fs directories extensions)),
        total_bytes fs (photo_paths fs directories extensions)).
Proof.
  intros Hwf. rewrite get_files_info_flat, foldM_add_file.
  - reflexivity.
  - intros p. now apply photo_paths_file.
Qed.

Lemma no_photo_paths (fs : node) (directories : list path) (extensions : list string) :
  no_photo fs directories extensions <-> photo_paths fs directories extensions = [].
Proof.
  split.
  - intros Hno. destruct (photo_paths fs directories extensions) as [| p ps] eqn:E;
      [reflexivity | exfalso].
    assert (Hin : In p (photo_paths fs directories extensions)) by (rewrite E; now left).
    apply photo_paths_inv in Hin
      as (directory & root & ds & files & file & Hd & Hw & Hf & Hsel & _).
    rewrite (Hno _ _ _ _ _ Hd Hw Hf) in Hsel. discriminate.
  - intros E directory root ds files file Hd Hw Hf.
    destruct (selected extensions file) eqn:Hsel; [exfalso | reflexivity].
    assert (Hin : In (os_path_join root file) (photo_paths fs directories extensions)).
    { apply photo_paths_inv. now exists directory, root, ds, files, file. }
    now rewrite E in Hin.
Qed.

(** ** Verifier *)

Lemma verify_copy_cases (fs : node) (source_dirs : list path) (dest_dir : path)
  (extensions : list string) (src_count src_size dst_count dst_size : Z) :
  get_files_info fs source_dirs extensions = Ok (src_count, src_size) ->
  get_files_info fs [dest_dir] extensions = Ok (dst_count, dst_size) ->
  exists out ok,
    verify_copy fs source_dirs dest_dir extensions = Ok (out, ok)
    /\ (ok = true <-> src_count = dst_count /\ src_size = dst_size)
    /\ (src_count <> dst_count ->
        out = verify_head src_count src_size dst_count dst_size
              ++ [WarnCount src_count dst_count])
    /\ (src_count = dst_count -> src_size <> dst_size ->
        out = verify_head src_count src_size dst_count dst_size
              ++ [WarnSize src_size dst_size])
    /\ (src_count = dst_count -> src_size = dst_size ->
        out = verify_head src_count src_size dst_count dst_size ++ [VerifyPassed]).
Proof.
  intros Hsrc Hdst. unfold verify_copy. rewrite Hsrc. cbn [bind]. rewrite Hdst. cbn [bind].
  fold (verify_head src_count src_size dst_count dst_size).
  destruct (Z.eqb_spec src_count dst_count) as [Hc | Hc]; cbn [negb].
  - destruct (Z.eqb_spec src_size dst_size) as [Hs | Hs]; cbn [negb].
    + eexists _, _. split; [reflexivity |]. repeat split; try tauto; congruence.
    + eexists _, _. split; [reflexivity |].
      repeat split; try tauto; try congruence; intros; try discriminate; tauto.
  - eexists _, _. split; [reflexivity |].
    repeat split; try tauto; try congruence; intros; try discriminate; tauto.
Qed.

(** C2, as the code has it: on a well-formed tree [verify_copy] returns,
    and it returns true exactly when the two counts are equal and the
    two byte totals are equal.  Otherwise it returns false after one
    warning: the count warning when the counts differ, and the size
    warning only when the counts agree and the totals differ. *)
Theorem verify_copy_reports (fs : node) (source_dirs : list path) (dest_dir : path)
  (extensions : list string) :
  wf fs = true ->
  exists src_count src_size dst_count dst_size out ok,
    get_files_info fs source_dirs extensions = Ok (src_count, src_size)
    /\ get_files_info fs [dest_dir] extensions = Ok (dst_count, dst_size)
    /\ verify_copy fs source_dirs dest_dir extensions = Ok (out, ok)
    /\ (ok = true <-> src_count = dst_count /\ src_size = dst_size)
    /\ (src_count <> dst_count ->
        out = verify_head src_count src_size dst_count dst_size
              ++ [WarnCount src_count dst_count])
    /\ (src_count = dst_count -> src_size <> dst_size ->
        out = verify_head src_count src_size dst_count dst_size
              ++ [WarnSize src_size dst_size])
    /\ (src_count = dst_count -> src_size = dst_size ->
        out = verify_head src_count src_size dst_count dst_size ++ [VerifyPassed]).
Proof.
  intros Hwf.
  pose proof (get_files_info_wf fs source_dirs extensions Hwf) as Hsrc.
  pose proof (get_files_info_wf fs [dest_dir] extensions Hwf) as Hdst.
  destruct (verify_copy_cases _ _ _ _ _ _ _ _ Hsrc Hdst) as [out [ok H]].
  eexists _, _, _, _, out, ok. split; [exact Hsrc |]. split; [exact Hdst |]. exact H.
Qed.

Lemma verify_copy_reports_witness :
  wf mismatch_fs = true
  /\ exists src_count src_size dst_count dst_size out ok,
    get_files_info mismatch_fs [["card"]] [".jpg"] = Ok (src_count, src_size)
    /\ get_files_info mismatch_fs [["out"]] [".jpg"] = Ok (dst_count, dst_size)
    /\ verify_copy mismatch_fs [["card"]] ["out"] [".jpg"] = Ok (out, ok)
    /\ (ok = true <-> src_count = dst_count /\ src_size = dst_size)
    /\ (src_count <> dst_count ->
        out = verify_head src_count src_size dst_count dst_size
              ++ [WarnCount src_count dst_count])
    /\ (src_count = dst_count -> src_size <> dst_size ->
        out = verify_head src_count src_size dst_count dst_size
              ++ [WarnSize src_size dst_size])
    /\ (src_count = dst_count -> src_size = dst_size ->
        out = verify_head src_count src_size dst_count dst_size ++ [VerifyPassed]).
Proof.
  split; [reflexivity |].
  apply (verify_copy_reports mismatch_fs [["card"]] ["out"] [".jpg"]). reflexivity.
Defined.

(** C2, as the spec words it, fails: with one photo of one byte on the
    card and two photos of five bytes in the destination both the counts
    and the totals differ, yet the size warning is not printed, because
    the size comparison is not reached once the counts differ. *)
Lemma verify_copy_size_warning_skipped :
  get_files_info mismatch_fs [["card"]] [".jpg"] = Ok (1, 1)
  /\ get_files_info mismatch_fs [["out"]] [".jpg"] = Ok (2, 5)
  /\ exists out,
      verify_copy mismatch_fs [["card"]] ["out"] [".jpg"] = Ok (out, false)
      /\ In (WarnCount 1 2) out
      /\ ~ In (WarnSize 1 5) out.
Proof.
  split; [reflexivity |]. split; [reflexivity |].
  exists (verify_head 1 1 2 5 ++ [WarnCount 1 2]).
  split; [reflexivity |]. split.
  - simpl. tauto.
  - simpl. intros [H | [H | [H | [H | []]]]]; discriminate.
Qed.

(** C9: when no file passes the filter below the sources nor below the
    destination (missing and empty directories included), both
    inventories are (0, 0) and [verify_copy] returns true. *)
Theorem verify_copy_vacuous (fs : node) (source_dirs : list path) (dest_dir : path)
  (extensions : list string) :
  no_photo fs source_dirs extensions ->
  no_photo fs [dest_dir] extensions ->
  get_files_info fs source_dirs extensions = Ok (0, 0)
  /\ get_files_info fs [dest_dir] extensions = Ok (0, 0)
  /\ verify_copy fs source_dirs dest_dir extensions
     = Ok (verify_head 0 0 0 0 ++ [VerifyPassed], true).
Proof.
  intros Hsrc Hdst.
  apply no_photo_paths in Hsrc. apply no_photo_paths in Hdst.
  assert (Es : get_files_info fs source_dirs extensions = Ok (0, 0))
    by now rewrite get_files_info_flat, Hsrc.
  assert (Ed : get_files_info fs [dest_dir] extensions = Ok (0, 0))
    by now rewrite get_files_info_flat, Hdst.
  split; [exact Es |]. split; [exact Ed |].
  unfold verify_copy. rewrite Es. cbn [bind]. rewrite Ed. reflexivity.
Qed.

Lemma verify_copy_vacuous_witness :
  no_photo blocked_fs [["card"]; ["missing"]] [".png"]
  /\ no_photo blocked_fs [["out"]] [".png"]
  /\ get_files_info blocked_fs [["card"]; ["missing"]] [".png"] = Ok (0, 0)
  /\ get_files_info blocked_fs [["out"]] [".png"] = Ok (0, 0)
  /\ verify_copy blocked_fs [["card"]; ["missing"]] ["out"] [".png"]
     = Ok (verify_head 0 0 0 0 ++ [VerifyPassed], true).
Proof.
  assert (Hs : no_photo blocked_fs [["card"]; ["missing"]] [".png"])
    by (apply no_photo_paths; reflexivity).
  assert (Hd : no_photo blocked_fs [["out"]] [".png"])
    by (apply no_photo_paths; reflexivity).
  split; [exact Hs |]. split; [exact Hd |].
  exact (verify_copy_vacuous blocked_fs [["card"]; ["missing"]] ["out"] [".png"] Hs Hd).
Defined.

(** ** Copy engine *)

Lemma copy_loop_app (fs : node) (l1 l2 : list path) (dest_dir : path) :
  copy_loop fs (l1 ++ l2) dest_dir
  = (fst (copy_loop (fst (copy_loop fs l1 dest_dir)) l2 dest_dir),
     snd (copy_loop fs l1 dest_dir)
     ++ snd (copy_loop (fst (copy_loop fs l1 dest_dir)) l2 dest_dir)).
Proof.
  revert fs. induction l1 as [| file l1 IH]; intros fs; cbn [app copy_loop].
  - simpl. now destruct (copy_loop fs l2 dest_dir).
  - destruct (shutil_copy2 fs file dest_dir) as [fs' | e].
    + apply IH.
    + rewrite IH. destruct (copy_loop fs l1 dest_dir) as [fs1 out1]. reflexivity.
Qed.

Lemma copy_loop_failure (fs : node) (file : path) (rest : list path) (dest_dir : path)
  (e : exn) :
  shutil_copy2 fs file dest_dir = Raise e ->
  copy_loop fs (file :: rest) dest_dir
  = (fst (copy_loop fs rest dest_dir), CopyFailed file e :: snd (copy_loop fs rest dest_dir)).
Proof.
  intros H. cbn [copy_loop]. rewrite H. now destruct (copy_loop fs rest dest_dir).
Qed.

Lemma copy_with_progress_unfold (fs : node) (source_dirs : list path) (dest_dir : path)
  (extensions : list string) :
  copy_with_progress fs source_dirs dest_dir extensions
  = match all_files fs source_dirs extensions with
    | [] => (fs, [NoFilesToCopy], false)
    | _ :: _ =>
        (fst (copy_loop fs (all_files fs source_dirs extensions) dest_dir),
         snd (copy_loop fs (all_files fs source_dirs extensions) dest_dir), true)
    end.
Proof.
  unfold copy_with_progress.
  destruct (all_files fs source_dirs extensions) as [| file rest]; [reflexivity |].
  now destruct (copy_loop fs (file :: rest) dest_dir).
Qed.

(** C3: [copy_with_progress] returns false exactly when no file below
    the source directories passes the filter, and true otherwise, whatever
    the copies do.  A copy that raises is caught: it changes nothing, its
    line is printed after the lines of the files before it, and the loop
    goes on with the files after it. *)
Theorem copy_with_progress_tolerant (fs : node) (source_dirs : list path) (dest_dir : path)
  (extensions : list string) :
  let r := copy_with_progress fs source_dirs dest_dir extensions in
  (snd r = false <-> all_files fs source_dirs extensions = [])
  /\ (snd r = false <-> no_photo fs source_dirs extensions)
  /\ (snd r = true <-> exists file, In file (all_files fs source_dirs extensions))
  /\ forall (before : list path) (file : path) (after : list path) (e : exn),
      all_files fs source_dirs extensions = before ++ file :: after ->
      shutil_copy2 (fst (copy_loop fs before dest_dir)) file dest_dir = Raise e ->
      let fs1 := fst (copy_loop fs before dest_dir) in
      r = (fst (copy_loop fs1 after dest_dir),
           snd (copy_loop fs before dest_dir)
           ++ CopyFailed file e :: snd (copy_loop fs1 after dest_dir),
           true).
Proof.
  cbv zeta. rewrite copy_with_progress_unfold.
  rewrite no_photo_paths, <- all_files_photo_paths.
  destruct (all_files fs source_dirs extensions) as [| f fl] eqn:E; cbn [snd].
  - repeat split; try tauto; try discriminate.
    + intros [file []].
    + intros before file after e H. now destruct before.
  - repeat split; try discriminate.
    + exists f. now left.
    + intros before file after e -> Hfail.
      rewrite copy_loop_app, (copy_loop_failure _ _ _ _ _ Hfail). reflexivity.
Qed.

Lemma copy_with_progress_tolerant_witness :
  all_files blocked_fs [["card"]] [".jpg"]
  = [["card"; "a.jpg"]] ++ ["card"; "b.jpg"] :: [["card"; "c.jpg"]]
  /\ shutil_copy2 (fst (copy_loop blocked_fs [["card"; "a.jpg"]] ["out"]))
       ["card"; "b.jpg"] ["out"] = Raise IsADirectoryError
  /\ copy_with_progress blocked_fs [["card"]] ["out"] [".jpg"]
     = (Dir [("card", Dir [("a.jpg", File "a" 1); ("b.jpg", File "bb" 2);
                           ("c.jpg", File "ccc" 3)]);
             ("out", Dir [("b.jpg", Dir []); ("a.jpg", File "a" 1);
                          ("c.jpg", File "ccc" 3)])],
        [CopyFailed ["card"; "b.jpg"] IsADirectoryError], true).
Proof.
  split; [reflexivity |]. split; [reflexivity |].
  exact (proj2 (proj2 (proj2
    (copy_with_progress_tolerant blocked_fs [["card"]] ["out"] [".jpg"])))
    [["card"; "a.jpg"]] ["card"; "b.jpg"] [["card"; "c.jpg"]] IsADirectoryError
    eq_refl eq_refl).
Defined.

(** ** Mount resolver *)

Section MountResolverFacts.

Variable str_format : string -> string -> string -> result string.
Variable os_path_ismount : string -> bool.

Lemma find_mount_loop_ok (cfg : config) (label user : string) (patterns : list string)
  (mount_point : string) :
  find_mount_loop str_format os_path_ismount cfg label user patterns = Ok mount_point <->
  exists tried pattern rest,
    patterns = tried ++ pattern :: rest
    /\ Forall (rejected str_format os_path_ismount label user) tried
    /\ str_format pattern user label = Ok mount_point
    /\ os_path_ismount mount_point = true.
Proof.
  induction patterns as [| p patterns IH]; cbn [find_mount_loop].
  - split; [discriminate |]. intros (tried & pattern & rest & H & _). now destruct tried.
  - destruct (str_format p user label) as [c | e] eqn:Ef; cbn [bind].
    + destruct (os_path_ismount c) eqn:Em.
      * split.
        -- intros [= <-]. exists [], p, patterns. repeat split; auto.
        -- intros (tried & pattern & rest & H & Hrej & Hf & Hm).
           destruct tried as [| t tried]; simpl in H; injection H as <- ->.
           ++ congruence.
           ++ apply Forall_cons in Hrej as [[c' [Hc' Hm']] _]. congruence.
      * rewrite IH. split.
        -- intros (tried & pattern & rest & -> & Hrej & Hf & Hm).
           exists (p :: tried), pattern, rest. repeat split; auto.
           constructor; [now exists c | exact Hrej].
        -- intros (tried & pattern & rest & H & Hrej & Hf & Hm).
           destruct tried as [| t tried]; simpl in H; injection H as <- ->.
           ++ congruence.
           ++ apply Forall_cons in Hrej as [_ Hrej].
              now exists tried, pattern, rest.
    + split; [discriminate |].
      intros (tried & pattern & rest & H & Hrej & Hf & Hm).
      destruct tried as [| t tried]; simpl in H; injection H as <- ->.
      * congruence.
      * apply Forall_cons in Hrej as [[c' [Hc' _]] _]. congruence.
Qed.

Lemma find_mount_loop_none (cfg : config) (label user : string) (patterns : list string) :
  Forall (rejected str_format os_path_ismount label user) patterns ->
  find_mount_loop str_format os_path_ismount cfg label user patterns
  = Raise (FileNotFoundError (NoDisk label (mount_patterns cfg))).
Proof.
  induction 1 as [| p patterns [c [Hf Hm]] _ IH]; cbn [find_mount_loop]; [reflexivity |].
  rewrite Hf. cbn [bind]. now rewrite Hm.
Qed.

(** C5, as the code has it: the templates are formatted and tested in
    list order and the first candidate that is a mount point is
    returned; when every template formats to a path that is not a
    mount point, [FileNotFoundError] is raised, and it carries the
    label and the configured templates as they are written, not the
    paths that were tried. *)
Theorem find_mount_point_first_match (cfg : config) (label user : string) :
  (forall mount_point,
      find_mount_point str_format os_path_ismount cfg label user = Ok mount_point <->
      exists tried pattern rest,
        mount_patterns cfg = tried ++ pattern :: rest
        /\ Forall (rejected str_format os_path_ismount label user) tried
        /\ str_format pattern user label = Ok mount_point
        /\ os_path_ismount mount_point = true)
  /\ (Forall (rejected str_format os_path_ismount label user) (mount_patterns cfg) ->
      find_mount_point str_format os_path_ismount cfg label user
      = Raise (FileNotFoundError (NoDisk label (mount_patterns cfg)))).
Proof.
  split.
  - intros mount_point. apply find_mount_loop_ok.
  - apply find_mount_loop_none.
Qed.

End MountResolverFacts.

Lemma find_mount_point_first_match_witness :
  mount_patterns default_cfg
  = ["/media/{user}/{label}"] ++ "/run/media/{user}/{label}" :: []
  /\ format_user_label "/media/{user}/{label}" "alice" "EOS_DIGITAL"
     = Ok "/media/alice/EOS_DIGITAL"
  /\ mounted_run_media "/media/alice/EOS_DIGITAL" = false
  /\ format_user_label "/run/media/{user}/{label}" "alice" "EOS_DIGITAL"
     = Ok "/run/media/alice/EOS_DIGITAL"
  /\ mounted_run_media "/run/media/alice/EOS_DIGITAL" = true
  /\ find_mount_point format_user_label mounted_run_media default_cfg "EOS_DIGITAL" "alice"
     = Ok "/run/media/alice/EOS_DIGITAL"
  /\ Forall (rejected format_user_label nothing_mounted "EOS_DIGITAL" "alice")
            (mount_patterns default_cfg)
  /\ find_mount_point format_user_label nothing_mounted default_cfg "EOS_DIGITAL" "alice"
     = Raise (FileNotFoundError (NoDisk "EOS_DIGITAL" (mount_patterns default_cfg))).
Proof.
  assert (Hnone : Forall (rejected format_user_label nothing_mounted "EOS_DIGITAL" "alice")
                         (mount_patterns default_cfg)).
  { repeat constructor.
    - exists "/media/alice/EOS_DIGITAL". now split.
    - exists "/run/media/alice/EOS_DIGITAL". now split. }
  do 5 (split; [reflexivity |]). split; [| split; [exact Hnone |]].
  - apply (proj1 (find_mount_point_first_match format_user_label mounted_run_media
                    default_cfg "EOS_DIGITAL" "alice")).
    exists ["/media/{user}/{label}"], "/run/media/{user}/{label}", [].
    split; [reflexivity |]. split.
    + constructor; [| constructor]. exists "/media/alice/EOS_DIGITAL". now split.
    + now split.
  - exact (proj2 (find_mount_point_first_match format_user_label nothing_mounted
                    default_cfg "EOS_DIGITAL" "alice") Hnone).
Defined.

(** C5, as the spec words it, fails: with nothing mounted the two default
    templates are tried as [/media/alice/EOS_DIGITAL] and
    [/run/media/alice/EOS_DIGITAL], and the error carries the templates,
    not these two paths. *)
Lemma find_mount_point_error_has_templates :
  map (fun pattern => format_user_label pattern "alice" "EOS_DIGITAL")
      (mount_patterns default_cfg)
  = [Ok "/media/alice/EOS_DIGITAL"; Ok "/run/media/alice/EOS_DIGITAL"]
  /\ find_mount_point format_user_label nothing_mounted default_cfg "EOS_DIGITAL" "alice"
     = Raise (FileNotFoundError
                (NoDisk "EOS_DIGITAL"
                   ["/media/{user}/{label}"; "/run/media/{user}/{label}"]))
  /\ find_mount_point format_user_label nothing_mounted default_cfg "EOS_DIGITAL" "alice"
     <> Raise (FileNotFoundError
                 (NoDisk "EOS_DIGITAL"
                    ["/media/alice/EOS_DIGITAL"; "/run/media/alice/EOS_DIGITAL"])).
Proof.
  split; [reflexivity |]. split; [reflexivity |]. discriminate.
Qed.

(** ** Source discovery *)

Section SourceDiscoveryFacts.

Variable glob_glob : string -> list string.
Variable isdir : string -> bool.

(** C6: every pattern is joined to the mount point and expanded; of
    the matches only the directories are kept, in pattern order and
    then in match order, and one line is printed for each; the call
    raises [FileNotFoundError] exactly when nothing was kept, and
    returns the kept list otherwise. *)
Theorem find_photo_directories_spec (mount_point : string) (source_patterns : list string) :
  find_photo_directories glob_glob isdir mount_point source_patterns
  = (map FoundDir (found glob_glob isdir mount_point source_patterns),
     match found glob_glob isdir mount_point source_patterns with
     | [] => Raise (FileNotFoundError (NoPhotoDirs source_patterns))
     | _ :: _ => Ok (found glob_glob isdir mount_point source_patterns)
     end)
  /\ (forall d, In d (found glob_glob isdir mount_point source_patterns) <->
                exists pattern,
                  In pattern source_patterns
                  /\ In d (glob_glob (Py.os_path_join mount_point pattern))
                  /\ isdir d = true)
  /\ ((exists e, snd (find_photo_directories glob_glob isdir mount_point source_patterns)
                 = Raise e)
      <-> found glob_glob isdir mount_point source_patterns = [])
  /\ (forall e, snd (find_photo_directories glob_glob isdir mount_point source_patterns)
                = Raise e -> e = FileNotFoundError (NoPhotoDirs source_patterns))
  /\ (forall dirs, snd (find_photo_directories glob_glob isdir mount_point source_patterns)
                   = Ok dirs -> dirs = found glob_glob isdir mount_point source_patterns /\ dirs <> []).
Proof.
  assert (E : find_photo_directories glob_glob isdir mount_point source_patterns
              = (map FoundDir (found glob_glob isdir mount_point source_patterns),
                 match found glob_glob isdir mount_point source_patterns with
                 | [] => Raise (FileNotFoundError (NoPhotoDirs source_patterns))
                 | _ :: _ => Ok (found glob_glob isdir mount_point source_patterns)
                 end)).
  { unfold find_photo_directories.
    rewrite (fold_left_extend _
      (fun pattern =>
         List.filter isdir (glob_glob (Py.os_path_join mount_point pattern)))).
    - reflexivity.
    - intros acc pattern.
      rewrite (fold_left_snoc_filter isdir (fun d => d)). now rewrite map_id. }
  split; [exact E |]. rewrite E. cbn [snd]. split; [| split; [| split]].
  - intros d. unfold found. rewrite in_flat_map. split.
    + intros [pattern [Hp Hd]]. apply filter_In in Hd. now exists pattern.
    + intros [pattern [Hp Hd]]. exists pattern. split; [exact Hp |]. now apply filter_In.
  - destruct (found glob_glob isdir mount_point source_patterns); split.
    + reflexivity.
    + intros _. eexists. reflexivity.
    + intros [e He]. discriminate.
    + discriminate.
  - intros e. destruct (found glob_glob isdir mount_point source_patterns); [| discriminate].
    now intros [= <-].
  - intros dirs. destruct (found glob_glob isdir mount_point source_patterns); [discriminate |].
    intros [= <-]. split; [reflexivity | discriminate].
Qed.

End SourceDiscoveryFacts.

(** The card of the spec's example: two directories and a stray file
    below [DCIM]; exactly the two directories are returned. *)
Example find_photo_directories_card :
  find_photo_directories glob_card isdir_card "/media/alice/EOS_DIGITAL" ["DCIM/*"]
  = ([FoundDir "/media/alice/EOS_DIGITAL/DCIM/100CANON";
      FoundDir "/media/alice/EOS_DIGITAL/DCIM/101CANON"],
     Ok ["/media/alice/EOS_DIGITAL/DCIM/100CANON";
         "/media/alice/EOS_DIGITAL/DCIM/101CANON"]).
Proof. reflexivity. Qed.

(** ** The photo filter *)

Lemma get_earliest_photo_date_flat (fromtimestamp : Z -> result datetime) (fs : node)
  (photo_dirs : list path) (extensions : list string) :
  get_earliest_photo_date fromtimestamp fs photo_dirs extensions
  = bind (foldM (keep_earliest fromtimestamp fs)
                (photo_paths fs photo_dirs extensions) None)
         (fun earliest_date =>
            match earliest_date with
            | None => Raise (FileNotFoundError (NoPhotos (map Py.lower extensions)))
            | Some earliest => Ok (strftime_Ymd earliest)
            end).
Proof.
  rewrite <- (loop_nest (keep_earliest fromtimestamp fs) fs photo_dirs extensions None).
  reflexivity.
Qed.

(** C10: the filter is a suffix match on the lowered name against the
    lowered extensions; the date deriver, the copy engine and the
    inventory behind the verifier all run over the files it selects.  An
    extension without a dot selects any name that ends in its letters,
    and a name that is just an extension is selected. *)
Theorem photo_filter_suffix_match :
  (forall extensions file,
      selected extensions file = true <->
      exists ext, In ext extensions /\ exists pre, Py.lower file = pre +:+ Py.lower ext)
  /\ (forall fs directories extensions p,
        In p (photo_paths fs directories extensions) <->
        exists directory root ds files file,
          In directory directories /\ In (root, ds, files) (os_walk fs directory)
          /\ In file files /\ selected extensions file = true
          /\ p = os_path_join root file)
  /\ (forall fromtimestamp fs photo_dirs extensions,
        get_earliest_photo_date fromtimestamp fs photo_dirs extensions
        = bind (foldM (keep_earliest fromtimestamp fs)
                      (photo_paths fs photo_dirs extensions) None)
               (fun earliest_date =>
                  match earliest_date with
                  | None => Raise (FileNotFoundError (NoPhotos (map Py.lower extensions)))
                  | Some earliest => Ok (strftime_Ymd earliest)
                  end))
  /\ (forall fs source_dirs extensions,
        all_files fs source_dirs extensions = photo_paths fs source_dirs extensions)
  /\ (forall fs directories extensions,
        get_files_info fs directories extensions
        = foldM (add_file fs) (photo_paths fs directories extensions) (0, 0))
  /\ selected ["jpg"] "xjpg" = true
  /\ selected [".jpg"] ".jpg" = true
  /\ selected [".jpg"] "IMG_0001.JPG" = true
  /\ selected [".jpg"] "IMG_0001.JPG.bak" = false.
Proof.
  split; [exact selected_spec |].
  split; [exact photo_paths_inv |].
  split; [exact get_earliest_photo_date_flat |].
  split; [exact all_files_photo_paths |].
  split; [exact get_files_info_flat |].
  repeat split; reflexivity.
Qed.

(** ** Updating the tree *)

Lemma replace_entry_same (c : string) (ch : node) (es : list (string * node)) :
  entry c es = Some ch -> replace_entry c ch es = es.
Proof.
  induction es as [| [c' m] es IH]; simpl; [reflexivity |].
  destruct (String.eqb_spec c c') as [-> | Hne].
  - now intros [= ->].
  - intros H. now rewrite IH.
Qed.

Lemma entry_replace_eq (c : string) (new : node) (es : list (string * node)) :
  entry c (replace_entry c new es)
  = match entry c es with
    | Some _ => Some new
    | None => None
    end.
Proof.
  induction es as [| [c' m] es IH]; simpl; [reflexivity |].
  destruct (String.eqb_spec c c') as [-> | Hne]; simpl.
  - now rewrite String.eqb_refl.
  - destruct (String.eqb_spec c c'); [contradiction | exact IH].
Qed.

Lemma entry_replace_ne (c c' : string) (new : node) (es : list (string * node)) :
  c' <> c -> entry c' (replace_entry c new es) = entry c' es.
Proof.
  intros Hne. induction es as [| [d m] es IH]; simpl; [reflexivity |].
  destruct (String.eqb_spec c d) as [-> | Hcd]; simpl.
  - destruct (String.eqb_spec c' d); [contradiction | reflexivity].
  - destruct (String.eqb_spec c' d); [reflexivity | exact IH].
Qed.

Lemma entry_app (c : string) (es es' : list (string * node)) :
  entry c (es ++ es')
  = match entry c es with
    | Some n => Some n
    | None => entry c es'
    end.
Proof.
  induction es as [| [d m] es IH]; simpl; [reflexivity |].
  destruct (String.eqb_spec c d); [reflexivity | exact IH].
Qed.

Lemma entry_put_eq (c : string) (new : node) (es : list (string * node)) :
  entry c (put_entry c new es) = Some new.
Proof.
  unfold put_entry. destruct (entry c es) eqn:E.
  - now rewrite entry_replace_eq, E.
  - rewrite entry_app, E. simpl. now rewrite String.eqb_refl.
Qed.

Lemma entry_put_ne (c c' : string) (new : node) (es : list (string * node)) :
  c' <> c -> entry c' (put_entry c new es) = entry c' es.
Proof.
  intros Hne. unfold put_entry. destruct (entry c es) eqn:E.
  - now apply entry_replace_ne.
  - rewrite entry_app. destruct (entry c' es); [reflexivity |].
    simpl. destruct (String.eqb_spec c' c); [contradiction | reflexivity].
Qed.

Lemma lookup_fresh_dirs (p : path) : lookup (fresh_dirs p) p = Some (Dir []).
Proof.
  induction p as [| c p IH]; simpl; [reflexivity |]. now rewrite String.eqb_refl.
Qed.

(** ** Destination builder *)

Lemma os_makedirs_existing (n : node) (p : path) :
  is_dir_at n p -> os_makedirs n p = Ok n.
Proof.
  revert n. induction p as [| c p IH]; intros n [es' H]; simpl in H.
  - injection H as ->. reflexivity.
  - destruct n as [| es]; [discriminate |]. simpl.
    destruct (entry c es) as [ch |] eqn:E; [| discriminate].
    rewrite (IH ch) by now exists es'. simpl. now rewrite replace_entry_same.
Qed.

Lemma os_makedirs_creates (n n' : node) (p : path) :
  os_makedirs n p = Ok n' -> is_dir_at n' p.
Proof.
  revert n n'. induction p as [| c p IH]; intros n n'.
  - destruct n as [| es]; simpl; [discriminate |]. intros [= <-]. now exists es.
  - destruct n as [| es]; simpl; [discriminate |].
    destruct (entry c es) as [ch |] eqn:E.
    + destruct (os_makedirs ch p) as [ch' |] eqn:Em; simpl; [| discriminate].
      intros [= <-]. destruct (IH _ _ Em) as [es' Hes'].
      exists es'. simpl. now rewrite entry_replace_eq, E.
    + intros [= <-]. exists []. simpl. rewrite entry_app, E. simpl.
      rewrite String.eqb_refl. apply lookup_fresh_dirs.
Qed.

Lemma os_makedirs_keeps_dirs (n n' : node) (p q : path) :
  os_makedirs n p = Ok n' -> is_dir_at n q -> is_dir_at n' q.
Proof.
  revert n n' q. induction p as [| c p IH]; intros n n' q.
  - destruct n as [| es]; simpl; [discriminate |]. now intros [= <-].
  - destruct n as [| es]; simpl; [discriminate |].
    intros Hm [esq Hq]. destruct q as [| c' q].
    + destruct (entry c es) as [ch |].
      * destruct (os_makedirs ch p); simpl in Hm; [| discriminate].
        injection Hm as <-. now eexists.
      * injection Hm as <-. now eexists.
    + simpl in Hq. destruct (entry c' es) as [chq |] eqn:Eq; [| discriminate].
      destruct (entry c es) as [ch |] eqn:E.
      * destruct (os_makedirs ch p) as [ch' |] eqn:Em; simpl in Hm; [| discriminate].
        injection Hm as <-. unfold is_dir_at. simpl.
        destruct (String.eqb_spec c' c) as [-> | Hne].
        -- rewrite entry_replace_eq, E. apply (IH _ _ _ Em).
           exists esq. congruence.
        -- rewrite entry_replace_ne, Eq by exact Hne. now exists esq.
      * injection Hm as <-. unfold is_dir_at. simpl.
        rewrite entry_app, Eq. now exists esq.
Qed.

Lemma makedirs_each_existing (fs : node) (dest_path : path) (folders : list path) :
  (forall folder, In folder folders -> is_dir_at fs (dest_path ++ folder)) ->
  makedirs_each fs dest_path folders = (fs, None).
Proof.
  induction folders as [| folder folders IH]; intros H; simpl; [reflexivity |].
  rewrite os_makedirs_existing by (apply H; now left).
  apply IH. intros. apply H. now right.
Qed.

Lemma makedirs_each_done (fs fs' : node) (dest_path : path) (folders : list path) :
  makedirs_each fs dest_path folders = (fs', None) ->
  (forall q, is_dir_at fs q -> is_dir_at fs' q)
  /\ (forall folder, In folder folders -> is_dir_at fs' (dest_path ++ folder)).
Proof.
  revert fs. induction folders as [| folder folders IH]; intros fs; simpl.
  - intros [= <-]. split; [tauto | intros _ []].
  - destruct (os_makedirs fs (dest_path ++ folder)) as [fs1 |] eqn:Em; [| discriminate].
    intros H. destruct (IH _ H) as [Hkeep Hdone]. split.
    + intros q Hq. apply Hkeep. now apply (os_makedirs_keeps_dirs _ _ _ _ Em).
    + intros f [<- | Hin].
      * apply Hkeep. now apply (os_makedirs_creates _ _ _ Em).
      * now apply Hdone.
Qed.

Lemma makedirs_each_again (fs fs' : node) (dest_path : path) (folders : list path)
  (raised : option exn) :
  makedirs_each fs dest_path folders = (fs', raised) ->
  (forall q, is_dir_at fs q -> is_dir_at fs' q)
  /\ makedirs_each fs' dest_path folders = (fs', raised).
Proof.
  revert fs. induction folders as [| folder folders IH]; intros fs; simpl.
  - intros [= <- <-]. now split.
  - destruct (os_makedirs fs (dest_path ++ folder)) as [fs1 | e] eqn:Em.
    + intros H. destruct (IH _ H) as [Hkeep Hagain]. split.
      * intros q Hq. apply Hkeep. now apply (os_makedirs_keeps_dirs _ _ _ _ Em).
      * rewrite os_makedirs_existing; [exact Hagain |].
        apply Hkeep. now apply (os_makedirs_creates _ _ _ Em).
    + intros [= <- <-]. split; [tauto |]. now rewrite Em.
Qed.

(** C8: a second call of [setup_destination] with the same arguments
    ends as the first one did and leaves the tree exactly as the first
    call left it; so when the first call did not raise, the second does
    not raise either, and then the destination and every subfolder are
    directories.  Directories that exist already are not an error: when
    all of them exist the call changes nothing. *)
Theorem setup_destination_idempotent (fs : node) (dest_path : path)
  (subfolders : list path) :
  let once := setup_destination fs dest_path subfolders in
  setup_destination (fst once) dest_path subfolders = once
  /\ (snd once = None ->
      snd (setup_destination (fst once) dest_path subfolders) = None
      /\ fst (setup_destination (fst once) dest_path subfolders) = fst once
      /\ is_dir_at (fst once) dest_path
      /\ forall folder, In folder subfolders -> is_dir_at (fst once) (dest_path ++ folder))
  /\ (is_dir_at fs dest_path ->
      (forall folder, In folder subfolders -> is_dir_at fs (dest_path ++ folder)) ->
      once = (fs, None)).
Proof.
  cbv zeta.
  assert (Hagain : setup_destination
                     (fst (setup_destination fs dest_path subfolders)) dest_path subfolders
                   = setup_destination fs dest_path subfolders).
  { unfold setup_destination at 2 3.
    destruct (os_makedirs fs dest_path) as [fs1 | e] eqn:Em.
    - destruct (makedirs_each fs1 dest_path subfolders) as [fs' raised] eqn:Eeach.
      destruct (makedirs_each_again _ _ _ _ _ Eeach) as [Hkeep Heach]. cbn [fst].
      unfold setup_destination. rewrite os_makedirs_existing; [exact Heach |].
      apply Hkeep. now apply (os_makedirs_creates _ _ _ Em).
    - cbn [fst]. unfold setup_destination. now rewrite Em. }
  split; [exact Hagain |]. split.
  - intros Hnone. rewrite Hagain. split; [exact Hnone |]. split; [reflexivity |].
    unfold setup_destination in *.
    destruct (os_makedirs fs dest_path) as [fs1 | e] eqn:Em; [| discriminate].
    destruct (makedirs_each fs1 dest_path subfolders) as [fs' raised] eqn:Eeach.
    cbn [fst snd] in *. subst raised.
    destruct (makedirs_each_done _ _ _ _ Eeach) as [Hkeep Hdone].
    split; [| exact Hdone]. apply Hkeep. now apply (os_makedirs_creates _ _ _ Em).
  - intros Hdest Hsub. unfold setup_destination.
    rewrite os_makedirs_existing by exact Hdest.
    now apply makedirs_each_existing.
Qed.

Lemma setup_destination_idempotent_witness :
  let dest := ["home"; "alice"; "Photos"; "20240102-canon600d-trip"] in
  let made :=
    Dir [("home",
          Dir [("alice",
                Dir [(".config", Dir [("photo_copy", Dir [])]);
                     ("Photos",
                      Dir [("20240102-canon600d-trip",
                            Dir [("selected", Dir [("exported", Dir [])])])])])])] in
  setup_destination home_fs dest (subfolders default_cfg) = (made, None)
  /\ setup_destination made dest (subfolders default_cfg) = (made, None)
  /\ is_dir_at made dest
  /\ (forall folder, In folder (subfolders default_cfg) -> is_dir_at made (dest ++ folder)).
Proof.
  cbv zeta.
  pose proof (setup_destination_idempotent home_fs
                ["home"; "alice"; "Photos"; "20240102-canon600d-trip"]
                (subfolders default_cfg)) as [Hagain [Hdone _]].
  split; [reflexivity |]. split; [exact Hagain |].
  destruct (Hdone eq_refl) as (_ & _ & Hdest & Hsub). now split.
Defined.

(** A regular file where the destination should be: the call raises, and
    so does the second one, with the tree untouched. *)
Example setup_destination_on_a_file :
  setup_destination configured_fs config_json (subfolders default_cfg)
  = (configured_fs, Some FileExistsError).
Proof. reflexivity. Qed.

(** ** Writing files *)

Lemma write_file_into (fs : node) (dir : path) (name data : string) (mtime : Z)
  (es : list (string * node)) :
  lookup fs dir = Some (Dir es) ->
  (forall es', entry name es <> Some (Dir es')) ->
  exists fs',
    write_file fs (dir ++ [name]) data mtime = Ok fs'
    /\ lookup fs' dir = Some (Dir (put_entry name (File data mtime) es)).
Proof.
  revert fs. induction dir as [| c dir IH]; intros fs Hdir Hname.
  - injection Hdir as ->. unfold put_entry. simpl.
    destruct (entry name es) as [[d m | es'] |] eqn:E.
    + eexists. split; reflexivity.
    + now destruct (Hname es').
    + eexists. split; reflexivity.
  - simpl in Hdir. destruct fs as [| es0]; [discriminate |].
    destruct (entry c es0) as [ch |] eqn:E; [| discriminate].
    destruct (IH ch Hdir Hname) as [ch' [Hw Hl]].
    exists (Dir (replace_entry c ch' es0)). simpl. rewrite E, Hw. simpl.
    split; [reflexivity |]. now rewrite entry_replace_eq, E.
Qed.

(** A write leaves alone every path that is neither on the way to the
    written file nor below it. *)
Lemma write_file_frame (n n' : node) (p q : path) (data : string) (mtime : Z) :
  write_file n p data mtime = Ok n' ->
  ~ q `prefix_of` p -> ~ p `prefix_of` q ->
  lookup n' q = lookup n q.
Proof.
  revert n n' q. induction p as [| c p IH]; intros n n' q Hw Hqp Hpq.
  - destruct Hpq. apply prefix_nil.
  - destruct q as [| c' q]; [destruct Hqp; apply prefix_nil |].
    destruct n as [| es]; simpl in Hw; [discriminate |].
    destruct (entry c es) as [ch |] eqn:E.
    + destruct (write_file ch p data mtime) as [ch' |] eqn:Ew; simpl in Hw; [| discriminate].
      injection Hw as <-. simpl.
      destruct (String.eqb_spec c' c) as [-> | Hne].
      * rewrite entry_replace_eq, E. apply (IH _ _ _ Ew).
        -- intros H. apply Hqp. now apply prefix_cons.
        -- intros H. apply Hpq. now apply prefix_cons.
      * now rewrite entry_replace_ne.
    + destruct p; [| discriminate]. injection Hw as <-. simpl.
      rewrite entry_app. destruct (entry c' es); [reflexivity |]. simpl.
      destruct (String.eqb_spec c' c) as [-> | Hne]; [| reflexivity].
      destruct Hpq. exists q. reflexivity.
Qed.

(** ** Config loader *)

Lemma backfill_defaults (d : gmap string value) (items : list (string * value)) :
  foldM backfill items (VDict d) = Ok (VDict (d ∪ list_to_map items)).
Proof.
  revert d. induction items as [| [key default] items IH]; intros d.
  - simpl. now rewrite (right_id_L ∅ (∪)).
  - cbn [foldM backfill py_in bind]. rewrite list_to_map_cons.
    destruct (d !! key) as [v |] eqn:E.
    + rewrite bool_decide_eq_true_2 by now exists v. cbn [negb bind].
      rewrite IH. do 2 f_equal. apply map_eq. intros i.
      rewrite !lookup_union. destruct (decide (key = i)) as [<- | Hne].
      * rewrite E. now destruct (list_to_map items !! key), (<[key:=default]> _ !! key).
      * now rewrite lookup_insert_ne.
    + rewrite bool_decide_eq_false_2 by apply is_Some_None.
      cbn [negb py_setitem bind]. rewrite IH.
      now rewrite <- insert_union_l, insert_union_r.
Qed.

Section ConfigLoaderFacts.

Variable json_dump : value -> string.
Variable json_load : string -> option value.

(** C7: when nothing exists at the path (and the directory that is to
    hold the file does), [load_config] writes the dumped default
    configuration there and returns the defaults; when the file holds a
    JSON object, it returns that object with the default keys it lacks
    added at top level, and the keys it has are left as they are. *)
Theorem load_config_spec (fs : node) (now : Z) (config_path : path) :
  (forall dir name,
      config_path = dir ++ [name] -> is_dir_at fs dir -> lookup fs config_path = None ->
      exists fs',
        load_config json_dump json_load fs now config_path
        = (fs', [ConfigCreated config_path], Ok (VDict DEFAULT_CONFIG))
        /\ lookup fs' config_path = Some (File (json_dump (VDict DEFAULT_CONFIG)) now))
  /\ (forall text d,
        read_file fs config_path = Ok text -> json_load text = Some (VDict d) ->
        load_config json_dump json_load fs now config_path
        = (fs, [], Ok (VDict (d ∪ DEFAULT_CONFIG)))
        /\ forall key,
            (d ∪ DEFAULT_CONFIG) !! key
            = match d !! key with
              | Some v => Some v
              | None => DEFAULT_CONFIG !! key
              end).
Proof.
  split.
  - intros dir name -> [es Hdir] Hnone.
    assert (Hname : entry name es = None).
    { rewrite lookup_app, Hdir in Hnone. simpl in Hnone.
      now destruct (entry name es). }
    destruct (write_file_into fs dir name (json_dump (VDict DEFAULT_CONFIG)) now es Hdir)
      as [fs' [Hw Hl]]; [rewrite Hname; discriminate |].
    exists fs'. unfold load_config, os_path_exists. rewrite Hnone. cbn [negb].
    rewrite Hw. split; [reflexivity |].
    rewrite lookup_app, Hl. simpl. now rewrite entry_put_eq.
  - intros text d Hread Hload. split.
    + unfold load_config, os_path_exists. unfold read_file in Hread.
      destruct (lookup fs config_path) as [[data mtime | es] |] eqn:E; try discriminate.
      injection Hread as ->. cbn [negb]. unfold read_file. rewrite E. cbn [bind].
      rewrite Hload. cbn [bind]. do 2 f_equal.
      exact (backfill_defaults d DEFAULT_CONFIG_items).
    + intros key. rewrite lookup_union.
      now destruct (d !! key), (DEFAULT_CONFIG !! key).
Qed.

End ConfigLoaderFacts.

Lemma load_config_spec_witness :
  (exists fs',
      load_config dump_sample load_sample home_fs 42 config_json
      = (fs', [ConfigCreated config_json], Ok (VDict DEFAULT_CONFIG))
      /\ lookup fs' config_json = Some (File (dump_sample (VDict DEFAULT_CONFIG)) 42))
  /\ read_file configured_fs config_json = Ok "{'subfolders': []}"
  /\ load_sample "{'subfolders': []}" = Some (VDict {[ "subfolders" := VList [] ]})
  /\ load_config dump_sample load_sample configured_fs 42 config_json
     = (configured_fs, [], Ok (VDict ({[ "subfolders" := VList [] ]} ∪ DEFAULT_CONFIG))).
Proof.
  pose proof (load_config_spec dump_sample load_sample home_fs 42 config_json) as [Hnew _].
  pose proof (load_config_spec dump_sample load_sample configured_fs 42 config_json)
    as [_ Hold].
  split.
  - apply (Hnew ["home"; "alice"; ".config"; "photo_copy"] "config.json").
    + reflexivity.
    + now exists [].
    + reflexivity.
  - split; [reflexivity |]. split; [reflexivity |].
    apply (Hold "{'subfolders': []}" {[ "subfolders" := VList [] ]}); reflexivity.
Defined.

(** C7, as the spec words it, fails.  In a home directory without
    [.config/photo_copy] nothing exists at the path of the
    configuration file; [load_config] prints that it created the file,
    then [open] raises, nothing is written and no configuration is
    returned. *)
Lemma load_config_without_directory :
  os_path_exists bare_home_fs config_json = false
  /\ load_config dump_sample load_sample bare_home_fs 42 config_json
     = (bare_home_fs, [ConfigCreated config_json], Raise (FileNotFoundError NoSuchFile))
  /\ lookup bare_home_fs config_json = None.
Proof. repeat split; reflexivity. Qed.

(** The merge on the sample document: the empty subfolder list of the
    file is kept, the other keys come from the defaults. *)
Example backfill_sample :
  let config : gmap string value := {[ "subfolders" := VList [] ]} ∪ DEFAULT_CONFIG in
  config !! "subfolders" = Some (VList [])
  /\ config !! "source_patterns" = Some (strs ["DCIM/*"])
  /\ config !! "destination_template" = Some (VStr "{date}-canon600d-{name}")
  /\ config !! "unknown" = None.
Proof. repeat split; vm_compute; reflexivity. Qed.

(** ** Date deriver *)

Lemma tuple_ltb_irrefl (a : list Z) : tuple_ltb a a = false.
Proof.
  induction a as [| x a IH]; simpl; [reflexivity |].
  now rewrite Z.ltb_irrefl, Z.eqb_refl, IH.
Qed.

Lemma tuple_ltb_trans (a b c : list Z) :
  tuple_ltb a b = true -> tuple_ltb b c = true -> tuple_ltb a c = true.
Proof.
  revert b c. induction a as [| x a IH]; intros [| y b] [| z c]; simpl; try discriminate;
    try reflexivity.
  rewrite !orb_true_iff, !andb_true_iff, !Z.ltb_lt, !Z.eqb_eq.
  intros [Hxy | [-> Hab]] [Hyz | [-> Hbc]].
  - left. lia.
  - now left.
  - now left.
  - right. split; [reflexivity | now apply (IH b)].
Qed.

Lemma tuple_ltb_total (a b : list Z) :
  length a = length b -> tuple_ltb a b = false -> tuple_ltb b a = false -> a = b.
Proof.
  revert b. induction a as [| x a IH]; intros [| y b]; simpl; try discriminate;
    [reflexivity |].
  intros [= Hlen]. rewrite !orb_false_iff, !andb_false_iff, !Z.ltb_ge, !Z.eqb_neq.
  intros [Hyx Hab] [Hxy Hba].
  assert (x = y) as -> by lia.
  f_equal. apply IH; [exact Hlen | |]; tauto.
Qed.

Lemma datetime_ltb_irrefl (d : datetime) : datetime_ltb d d = false.
Proof. apply tuple_ltb_irrefl. Qed.

Lemma datetime_ltb_trans (a b c : datetime) :
  datetime_ltb a b = true -> datetime_ltb b c = true -> datetime_ltb a c = true.
Proof. apply tuple_ltb_trans. Qed.

Lemma datetime_ltb_total (a b : datetime) :
  datetime_ltb a b = false -> datetime_ltb b a = false -> a = b.
Proof.
  intros Hab Hba.
  assert (E : datetime_fields a = datetime_fields b)
    by (apply tuple_ltb_total; [reflexivity | exact Hab | exact Hba]).
  destruct a, b. unfold datetime_fields in E. simpl in E. congruence.
Qed.

Lemma earliest_of_Some (dates seen : list datetime) (e : datetime) :
  is_earliest e seen ->
  exists m, earliest_of dates (Some e) = Some m /\ is_earliest m (seen ++ dates).
Proof.
  revert seen e. induction dates as [| d dates IH]; intros seen e [Hin Hmin].
  - exists e. rewrite app_nil_r. now repeat split.
  - replace (seen ++ d :: dates) with ((seen ++ [d]) ++ dates)
      by now rewrite <- app_assoc.
    cbn [earliest_of fold_left]. destruct (datetime_ltb d e) eqn:Ede; apply IH.
    + split; [apply in_or_app; right; now left |].
      intros x Hx. apply in_app_or in Hx as [Hx | [<- | []]].
      * destruct (datetime_ltb x d) eqn:Exd; [| reflexivity].
        rewrite <- (Hmin x Hx). symmetry. now apply (datetime_ltb_trans x d e).
      * apply datetime_ltb_irrefl.
    + split; [apply in_or_app; now left |].
      intros x Hx. apply in_app_or in Hx as [Hx | [<- | []]]; [now apply Hmin | exact Ede].
Qed.

Lemma earliest_of_None (dates : list datetime) :
  dates <> [] -> exists m, earliest_of dates None = Some m /\ is_earliest m dates.
Proof.
  destruct dates as [| d dates]; [congruence | intros _].
  apply (earliest_of_Some dates [d] d). split; [now left |].
  intros x [<- | []]. apply datetime_ltb_irrefl.
Qed.

Lemma foldM_keep_earliest (fromtimestamp : Z -> result datetime) (fs : node)
  (ps : list path) (acc : option datetime) :
  (forall p, In p ps -> is_file_at fs p) ->
  foldM (keep_earliest fromtimestamp fs) ps acc
  = let* dates := dates_of fromtimestamp fs ps in Ok (earliest_of dates acc).
Proof.
  revert acc. induction ps as [| p ps IH]; intros acc Hfiles; [reflexivity |].
  destruct (Hfiles p ltac:(now left)) as [data [mtime Hp]].
  assert (Em : file_mtime fs p = mtime) by (unfold file_mtime; now rewrite Hp).
  assert (Ek : keep_earliest fromtimestamp fs acc p
               = let* file_date := fromtimestamp mtime in
                 Ok match acc with
                    | Some earliest =>
                        if datetime_ltb file_date earliest
                        then Some file_date else Some earliest
                    | None => Some file_date
                    end).
  { unfold keep_earliest, os_path_getmtime. rewrite Hp. cbn [bind].
    destruct (fromtimestamp mtime) as [d | e]; cbn [bind]; [| reflexivity].
    destruct acc as [e |]; [destruct (datetime_ltb _ e) |]; reflexivity. }
  unfold dates_of in *. cbn [foldM mapM]. rewrite Ek, Em.
  destruct (fromtimestamp mtime) as [d | e]; cbn [bind]; [| reflexivity].
  rewrite IH by (intros; apply Hfiles; now right).
  destruct (mapM _ ps) as [dates | e]; reflexivity.
Qed.

Lemma mapM_Ok {A B : Type} (f : A -> result B) (l : list A) :
  (forall x, In x l -> exists y, f x = Ok y) ->
  exists ys, mapM f l = Ok ys /\ Forall2 (fun x y => f x = Ok y) l ys.
Proof.
  induction l as [| x l IH]; intros H; [exists []; split; [reflexivity | constructor] |].
  destruct (H x ltac:(now left)) as [y Hy].
  destruct IH as [ys [E Hys]]; [intros; apply H; now right |].
  exists (y :: ys). cbn [mapM]. rewrite Hy, E. split; [reflexivity | now constructor].
Qed.

Lemma mapM_Raise {A B : Type} (f : A -> result B) (l : list A) (e : exn) :
  mapM f l = Raise e -> exists x, In x l /\ f x = Raise e.
Proof.
  induction l as [| x l IH]; cbn [mapM]; [discriminate |].
  destruct (f x) as [y | e0] eqn:Ex; cbn [bind].
  - destruct (mapM f l) as [ys | e1]; cbn [bind]; [discriminate |].
    intros [= <-]. destruct IH as [x' [Hin Hx']]; [reflexivity |].
    exists x'. split; [now right | exact Hx'].
  - intros [= <-]. exists x. split; [now left | exact Ex].
Qed.

Lemma mapM_In {A B : Type} (f : A -> result B) (l : list A) (e : exn) (x : A) :
  In x l -> f x = Raise e -> exists e', mapM f l = Raise e'.
Proof.
  induction l as [| x' l IH]; [intros [] |]. intros [-> | Hin] Hx; cbn [mapM].
  - rewrite Hx. now exists e.
  - destruct (f x') as [y | e0]; cbn [bind]; [| now exists e0].
    destruct (IH Hin Hx) as [e' ->]. now exists e'.
Qed.

Lemma mapM_map {A B C : Type} (f : B -> result C) (g : A -> B) (l : list A) :
  mapM f (map g l) = mapM (fun x => f (g x)) l.
Proof. induction l as [| x l IH]; cbn [map mapM]; [reflexivity | now rewrite IH]. Qed.

Lemma mapM_ext_in {A B : Type} (f g : A -> result B) (l : list A) :
  (forall x, In x l -> f x = g x) -> mapM f l = mapM g l.
Proof.
  induction l as [| x l IH]; intros H; cbn [mapM]; [reflexivity |].
  rewrite (H x) by now left. rewrite IH; [reflexivity |]. intros. apply H. now right.
Qed.

Lemma mapM_Ok_map {A B : Type} (f : A -> result B) (g : A -> B) (l : list A) :
  (forall x, In x l -> f x = Ok (g x)) -> mapM f l = Ok (map g l).
Proof.
  induction l as [| x l IH]; intros H; cbn [mapM map]; [reflexivity |].
  rewrite (H x) by now left. rewrite IH; [reflexivity |]. intros. apply H. now right.
Qed.

Lemma mapM_Raise_perm {A B : Type} (f : A -> result B) (l l' : list A) (e : exn) :
  Permutation l l' -> mapM f l = Raise e -> exists e', mapM f l' = Raise e'.
Proof.
  intros Hperm H. destruct (mapM_Raise f l e H) as [x [Hin Hx]].
  apply (mapM_In f l' e x); [now apply (Permutation_in _ Hperm) | exact Hx].
Qed.

Lemma Forall2_Ok_In {A B : Type} (f : A -> result B) (l : list A) (ys : list B) :
  Forall2 (fun x y => f x = Ok y) l ys ->
  (forall y, In y ys -> exists x, In x l /\ f x = Ok y)
  /\ (forall x, In x l -> exists y, In y ys /\ f x = Ok y).
Proof.
  induction 1 as [| x y l ys Hxy _ [IH1 IH2]]; split.
  - intros y' Hin. destruct Hin.
  - intros x' Hin. destruct Hin.
  - intros y' [<- | Hin]; [exists x; split; [now left | exact Hxy] |].
    destruct (IH1 y' Hin) as [x' [Hx' E]]. exists x'. split; [now right | exact E].
  - intros x' [<- | Hin]; [exists y; split; [now left | exact Hxy] |].
    destruct (IH2 x' Hin) as [y' [Hy' E]]. exists y'. split; [now right | exact E].
Qed.

Lemma get_earliest_photo_date_dates (fromtimestamp : Z -> result datetime) (fs : node)
  (photo_dirs : list path) (extensions : list string) :
  wf fs = true ->
  get_earliest_photo_date fromtimestamp fs photo_dirs extensions
  = let* dates := dates_of fromtimestamp fs (photo_paths fs photo_dirs extensions) in
    match earliest_of dates None with
    | None => Raise (FileNotFoundError (NoPhotos (map Py.lower extensions)))
    | Some earliest => Ok (strftime_Ymd earliest)
    end.
Proof.
  intros Hwf. rewrite get_earliest_photo_date_flat, foldM_keep_earliest.
  - now destruct (dates_of fromtimestamp fs _).
  - intros p. now apply photo_paths_file.
Qed.

Lemma four_digit_years_printed :
  forallb (fun y => String.eqb (NilZero.string_of_int (Z.to_int y)) (zfill4 y))
          four_digit_years = true.
Proof. vm_compute. reflexivity. Qed.

(** From the year 1000 on the date is printed as YYYYMMDD. *)
Lemma strftime_Ymd_YYYYMMDD (d : datetime) :
  1000 <= year d <= 9999 -> strftime_Ymd d = YYYYMMDD d.
Proof.
  intros Hy. unfold strftime_Ymd, YYYYMMDD. f_equal.
  apply String.eqb_eq.
  apply (proj1 (forallb_forall _ four_digit_years) four_digit_years_printed).
  unfold four_digit_years. apply in_map_iff. exists (Z.to_nat (year d - 1000)).
  split; [lia |]. apply in_seq. lia.
Qed.

(** Before it, the year has fewer digits. *)
Example strftime_Ymd_year_999 :
  strftime_Ymd new_year_999 = "9990101" /\ YYYYMMDD new_year_999 = "09990101".
Proof. split; reflexivity. Qed.

(** C4, as the code has it.  On a well-formed tree:
    - when no file below the directories passes the filter the call
      raises [FileNotFoundError];
    - when [datetime.fromtimestamp] raises for a selected file the call
      raises what one of these conversions raised;
    - otherwise it returns, printed with [%Y%m%d], the local date of a
      selected file that the local date of no selected file precedes;
      this print is YYYYMMDD from the year 1000 on;
    - when moreover local time does not run backwards between the
      selected files (a later timestamp never has an earlier local
      date), that is the local date of the smallest modification
      timestamp. *)
Theorem get_earliest_photo_date_min (fromtimestamp : Z -> result datetime) (fs : node)
  (photo_dirs : list path) (extensions : list string) :
  wf fs = true ->
  let photos := photo_paths fs photo_dirs extensions in
  let local p := fromtimestamp (file_mtime fs p) in
  let run := get_earliest_photo_date fromtimestamp fs photo_dirs extensions in
  (photos = [] ->
   run = Raise (FileNotFoundError (NoPhotos (map Py.lower extensions))))
  /\ (forall p e,
        In p photos -> local p = Raise e ->
        exists q e', In q photos /\ local q = Raise e' /\ run = Raise e')
  /\ (photos <> [] ->
      (forall p, In p photos -> exists d, local p = Ok d) ->
      exists first earliest,
        In first photos /\ local first = Ok earliest
        /\ (forall p d, In p photos -> local p = Ok d -> datetime_ltb d earliest = false)
        /\ run = Ok (strftime_Ymd earliest)
        /\ (1000 <= year earliest <= 9999 -> run = Ok (YYYYMMDD earliest)))
  /\ (forall first earliest,
        In first photos -> local first = Ok earliest ->
        (forall p, In p photos -> file_mtime fs first <= file_mtime fs p) ->
        (forall p, In p photos -> exists d, local p = Ok d) ->
        (forall p q d1 d2,
            In p photos -> In q photos -> file_mtime fs p <= file_mtime fs q ->
            local p = Ok d1 -> local q = Ok d2 -> datetime_ltb d2 d1 = false) ->
        run = Ok (strftime_Ymd earliest)).
Proof.
  intros Hwf photos local run.
  assert (Hflat : run = let* dates := dates_of fromtimestamp fs photos in
                        match earliest_of dates None with
                        | None =>
                            Raise (FileNotFoundError (NoPhotos (map Py.lower extensions)))
                        | Some earliest => Ok (strftime_Ymd earliest)
                        end)
    by now apply get_earliest_photo_date_dates.
  assert (Hsome : photos <> [] ->
                  (forall p, In p photos -> exists d, local p = Ok d) ->
                  exists first earliest,
                    In first photos /\ local first = Ok earliest
                    /\ (forall p d, In p photos -> local p = Ok d ->
                                    datetime_ltb d earliest = false)
                    /\ run = Ok (strftime_Ymd earliest)).
  { intros Hne Hall. destruct (mapM_Ok local photos Hall) as [dates [Ed Hd]].
    destruct (Forall2_Ok_In local photos dates Hd) as [Hback Hforth].
    destruct (earliest_of_None dates) as [m [Em [Hin Hmin]]].
    - intros ->. inversion Hd as [E |]. now apply Hne.
    - destruct (Hback m Hin) as [first [Hfirst Efirst]].
      exists first, m. split; [exact Hfirst |]. split; [exact Efirst |]. split.
      + intros p d Hp Ep. destruct (Hforth p Hp) as [d' [Hd' Ep']].
        rewrite Ep in Ep'. injection Ep' as ->. now apply Hmin.
      + rewrite Hflat. unfold dates_of. fold local. rewrite Ed. cbn [bind]. now rewrite Em. }
  split; [| split; [| split]].
  - intros E. rewrite Hflat, E. reflexivity.
  - intros p e Hp Ep. destruct (mapM_In local photos e p Hp Ep) as [e' E'].
    destruct (mapM_Raise local photos e' E') as [q [Hq Eq]].
    exists q, e'. split; [exact Hq |]. split; [exact Eq |].
    rewrite Hflat. unfold dates_of. fold local. now rewrite E'.
  - intros Hne Hall. destruct (Hsome Hne Hall) as (first & m & Hfirst & Efirst & Hmin & Hrun).
    exists first, m. split; [exact Hfirst |]. split; [exact Efirst |].
    split; [exact Hmin |]. split; [exact Hrun |].
    intros Hy. rewrite Hrun. f_equal. now apply strftime_Ymd_YYYYMMDD.
  - intros first earliest Hfirst Efirst Hleast Hall Hmono.
    destruct (Hsome ltac:(intros E; now rewrite E in Hfirst) Hall)
      as (p & m & Hp & Ep & Hmin & ->).
    do 2 f_equal. apply datetime_ltb_total.
    + now apply (Hmono first p earliest m Hfirst Hp (Hleast p Hp)).
    + now apply (Hmin first earliest).
Qed.

Lemma get_earliest_photo_date_min_witness :
  wf dated_fs = true
  /\ photo_paths dated_fs [["card"; "DCIM"]] [".jpg"]
     = [["card"; "DCIM"; "100CANON"; "IMG_0001.JPG"];
        ["card"; "DCIM"; "100CANON"; "IMG_0002.jpg"];
        ["card"; "DCIM"; "101CANON"; "IMG_0003.jpg"]]
  /\ map (fun p => fromtimestamp_utc (file_mtime dated_fs p))
         (photo_paths dated_fs [["card"; "DCIM"]] [".jpg"])
     = [Ok (civil_at 0 1704450645000000); Ok (civil_at 0 1704186000500000);
        Ok (civil_at 0 1704790800000000)]
  /\ get_earliest_photo_date fromtimestamp_utc dated_fs [["card"; "DCIM"]] [".jpg"]
     = Ok (strftime_Ymd (civil_at 0 1704186000500000))
  /\ strftime_Ymd (civil_at 0 1704186000500000) = "20240102"
  /\ get_earliest_photo_date fromtimestamp_utc dated_fs [["photos"]] [".jpg"]
     = Raise (FileNotFoundError (NoPhotos [".jpg"])).
Proof.
  pose proof (get_earliest_photo_date_min fromtimestamp_utc dated_fs [["card"; "DCIM"]]
                [".jpg"] eq_refl) as (_ & _ & _ & Hmin).
  pose proof (get_earliest_photo_date_min fromtimestamp_utc dated_fs [["photos"]]
                [".jpg"] eq_refl) as (Hnone & _).
  assert (Hphotos : photo_paths dated_fs [["card"; "DCIM"]] [".jpg"]
                    = [["card"; "DCIM"; "100CANON"; "IMG_0001.JPG"];
                       ["card"; "DCIM"; "100CANON"; "IMG_0002.jpg"];
                       ["card"; "DCIM"; "101CANON"; "IMG_0003.jpg"]]) by reflexivity.
  split; [reflexivity |]. split; [exact Hphotos |].
  split; [vm_compute; reflexivity |].
  split; [| split; [vm_compute; reflexivity | apply Hnone; reflexivity]].
  apply (Hmin ["card"; "DCIM"; "100CANON"; "IMG_0002.jpg"]).
  - rewrite Hphotos. right. now left.
  - vm_compute. reflexivity.
  - rewrite Hphotos.
    intros p [<- | [<- | [<- | []]]]; vm_compute; intros H; inversion H.
  - rewrite Hphotos.
    intros p [<- | [<- | [<- | []]]];
      [exists (civil_at 0 1704450645000000) | exists (civil_at 0 1704186000500000)
      | exists (civil_at 0 1704790800000000)]; vm_compute; reflexivity.
  - rewrite Hphotos.
    intros p q d1 d2 [<- | [<- | [<- | []]]] [<- | [<- | [<- | []]]] Hle E1 E2;
      vm_compute in E1; vm_compute in E2; injection E1 as <-; injection E2 as <-;
      ((vm_compute; reflexivity) || (exfalso; vm_compute in Hle; apply Hle; reflexivity)).
Defined.

(** C4, as the spec words it, fails, in three ways.
    - At Casey station the clocks were set back three hours on
      2010-03-05 at 02:00.  Of two photos, one taken half an hour before
      the change (01:30 on the 5th, local time) and one half an hour
      after it (23:30 on the 4th), the first has the smaller timestamp,
      and its date is the 5th; the call compares the local times and
      returns the 4th.
    - For a photo of the year 999 the call returns seven characters,
      not YYYYMMDD.
    - For a photo of the year 10000 [datetime.fromtimestamp] raises
      [ValueError], and so does the call, although there is a matching
      file. *)
Lemma get_earliest_photo_date_not_min_timestamp :
  (wf casey_fs = true
   /\ photo_paths casey_fs [["card"]] [".jpg"] = [["card"; "a.jpg"]; ["card"; "b.jpg"]]
   /\ file_mtime casey_fs ["card"; "a.jpg"] < file_mtime casey_fs ["card"; "b.jpg"]
   /\ (exists d,
         fromtimestamp_casey (file_mtime casey_fs ["card"; "a.jpg"]) = Ok d
         /\ strftime_Ymd d = "20100305")
   /\ get_earliest_photo_date fromtimestamp_casey casey_fs [["card"]] [".jpg"]
      = Ok "20100304")
  /\ (photo_paths ancient_fs [["card"]] [".jpg"] = [["card"; "a.jpg"]]
      /\ get_earliest_photo_date fromtimestamp_utc ancient_fs [["card"]] [".jpg"]
         = Ok "9990101")
  /\ (photo_paths far_fs [["card"]] [".jpg"] = [["card"; "a.jpg"]]
      /\ fromtimestamp_utc (file_mtime far_fs ["card"; "a.jpg"]) = Raise ValueError
      /\ get_earliest_photo_date fromtimestamp_utc far_fs [["card"]] [".jpg"]
         = Raise ValueError).
Proof.
  split; [| split; repeat split; vm_compute; reflexivity].
  split; [reflexivity |]. split; [reflexivity |]. split; [reflexivity |].
  split; [| vm_compute; reflexivity].
  exists (civil_at 39600000000 1267713000000000). split; vm_compute; reflexivity.
Qed.

(** ** Copy, then verify *)

Lemma apart_snoc (q dest : path) (name : string) :
  apart q dest -> apart q (dest ++ [name]).
Proof.
  intros [Hqd Hdq]. split.
  - intros [k Hk]. destruct k as [| x k _] using rev_ind.
    + rewrite app_nil_r in Hk. apply Hdq. exists [name]. now rewrite Hk.
    + rewrite app_assoc in Hk. apply app_inj_tail in Hk as [-> _].
      apply Hqd. now exists k.
  - intros [k Hk]. apply Hdq. exists (name :: k). now rewrite Hk, <- app_assoc.
Qed.

Lemma file_apart_empty_dir (fs : node) (p dest : path) :
  is_file_at fs p -> lookup fs dest = Some (Dir []) -> apart p dest.
Proof.
  intros [data [mtime Hp]] Hd. split; intros [k ->].
  - rewrite lookup_app, Hp in Hd. now destruct k.
  - rewrite lookup_app, Hd in Hp. destruct k; simpl in Hp; discriminate.
Qed.

Lemma copies_app (fs : node) (ps qs : list path) :
  copies fs (ps ++ qs) = copies fs ps ++ copies fs qs.
Proof. apply map_app. Qed.

Lemma map_fst_copies (fs : node) (ps : list path) :
  map fst (copies fs ps) = map os_path_basename ps.
Proof. unfold copies. rewrite map_map. reflexivity. Qed.

(** The copy loop on files that lie apart from the destination and whose
    names are new to it: no copy fails, the destination gains the files
    in order, and nothing apart from the destination changes. *)
Lemma copy_loop_flat (fs0 : node) (dest : path) (ps : list path) :
  forall (fs : node) (es : list (string * node)),
    lookup fs dest = Some (Dir es) ->
    (forall q, apart q dest -> lookup fs q = lookup fs0 q) ->
    (forall p, In p ps -> is_file_at fs0 p /\ apart p dest) ->
    NoDup (map fst es ++ map os_path_basename ps) ->
    exists fs',
      copy_loop fs ps dest = (fs', [])
      /\ lookup fs' dest = Some (Dir (es ++ copies fs0 ps))
      /\ (forall q, apart q dest -> lookup fs' q = lookup fs0 q).
Proof.
  induction ps as [| p ps IH]; intros fs es Hdest Hframe Hps Hnd.
  - exists fs. simpl. now rewrite app_nil_r.
  - destruct (Hps p ltac:(now left)) as [[data [mtime Hp]] Hap].
    set (name := os_path_basename p).
    assert (Hnew : entry name es = None).
    { apply entry_None. intros Hin. simpl in Hnd.
      apply NoDup_app in Hnd as (_ & Hdisj & _).
      apply (Hdisj name); [now apply list_elem_of_In | left]. }
    destruct (write_file_into fs dest name data mtime es Hdest) as [fs1 [Hw Hl]];
      [rewrite Hnew; discriminate |].
    assert (Hcopy : shutil_copy2 fs p dest = Ok fs1).
    { unfold shutil_copy2, os_path_isdir. rewrite Hdest.
      rewrite bool_decide_eq_false_2.
      - cbn [andb]. rewrite (Hframe p Hap), Hp. exact Hw.
      - intros E. destruct Hap as [_ H]. apply H.
        exists [os_path_basename p]. exact E. }
    unfold put_entry in Hl. rewrite Hnew in Hl.
    destruct (IH fs1 (es ++ [(name, File data mtime)])) as [fs' [Hloop [Hl' Hframe']]].
    + exact Hl.
    + intros q Hq. rewrite <- (Hframe q Hq).
      destruct (apart_snoc q dest name Hq) as [H1 H2].
      now apply (write_file_frame _ _ _ _ _ _ Hw).
    + intros q Hq. apply Hps. now right.
    + rewrite map_app, <- app_assoc. exact Hnd.
    + exists fs'. cbn [copy_loop]. rewrite Hcopy. split; [exact Hloop |].
      split; [| exact Hframe'].
      rewrite Hl', <- app_assoc. cbn [copies map app]. fold (copies fs0 ps).
      unfold file_at. now rewrite Hp.
Qed.

Lemma walk_node_files (root : path) (es : list (string * node)) :
  (forall e, In e es -> is_dir (snd e) = false) ->
  walk_node root (Dir es) = [(root, [], map fst es)].
Proof.
  intros Hfiles. cbn [walk_node].
  assert (E : dirnames es = [] /\ filenames es = map fst es
              /\ flat_map (fun e => walk_node (os_path_join root (fst e)) (snd e)) es = []).
  { unfold dirnames, filenames. induction es as [| [c n] es IH]; [now repeat split |].
    destruct IH as [E1 [E2 E3]]; [intros; apply Hfiles; now right |].
    pose proof (Hfiles (c, n) ltac:(now left)) as Hn. simpl in Hn.
    destruct n as [data mtime | ?]; [| discriminate].
    simpl. now rewrite E1, E2, E3. }
  destruct E as [-> [-> ->]]. reflexivity.
Qed.

Lemma filter_all {A : Type} (f : A -> bool) (l : list A) :
  (forall x, In x l -> f x = true) -> List.filter f l = l.
Proof.
  induction l as [| x l IH]; intros H; simpl; [reflexivity |].
  rewrite (H x) by now left. f_equal. apply IH. intros. apply H. now right.
Qed.

Lemma total_bytes_map (fs fs' : node) (g : path -> path) (ps : list path) :
  (forall p, In p ps -> file_size fs' (g p) = file_size fs p) ->
  total_bytes fs' (map g ps) = total_bytes fs ps.
Proof.
  induction ps as [| p ps IH]; intros H; simpl; [reflexivity |].
  rewrite (H p) by now left. f_equal. apply IH. intros. apply H. now right.
Qed.

Lemma copies_are_files (fs : node) (ps : list path) :
  (forall p, In p ps -> is_file_at fs p) ->
  forall e, In e (copies fs ps) -> is_dir (snd e) = false.
Proof.
  intros Hps e He. apply in_map_iff in He as [p [<- Hp]].
  destruct (Hps p Hp) as [data [mtime E]]. unfold file_at. now rewrite E.
Qed.

(** The inventory of a flat destination that holds exactly the copies. *)
Lemma dest_inventory (fs fs' : node) (dest : path) (ps : list path)
  (extensions : list string) :
  lookup fs' dest = Some (Dir (copies fs ps)) ->
  (forall p, In p ps -> is_file_at fs p) ->
  (forall p, In p ps -> selected extensions (os_path_basename p) = true) ->
  NoDup (map os_path_basename ps) ->
  get_files_info fs' [dest] extensions
  = Ok (Z.of_nat (length ps), total_bytes fs ps).
Proof.
  intros Hdest Hfiles Hsel Hnd.
  assert (Hat : forall p, In p ps ->
                          lookup fs' (os_path_join dest (os_path_basename p))
                          = lookup fs p).
  { intros p Hp. destruct (Hfiles p Hp) as [data [mtime E]].
    unfold os_path_join. rewrite lookup_app, Hdest. simpl.
    rewrite (entry_NoDup _ (file_at fs p)).
    - unfold file_at. now rewrite E.
    - now rewrite map_fst_copies.
    - apply (in_map (fun p => (os_path_basename p, file_at fs p))). exact Hp. }
  assert (Hpaths : photo_paths fs' [dest] extensions
                   = map (fun p => os_path_join dest (os_path_basename p)) ps).
  { unfold photo_paths, os_walk. cbn [flat_map]. rewrite Hdest.
    rewrite walk_node_files by now apply copies_are_files.
    cbn [flat_map]. rewrite !app_nil_r, map_fst_copies.
    rewrite filter_all, map_map; [reflexivity |].
    intros name Hname. apply in_map_iff in Hname as [p [<- Hp]]. now apply Hsel. }
  rewrite get_files_info_flat, Hpaths, foldM_add_file.
  - rewrite length_map, (total_bytes_map fs fs'); [reflexivity |].
    intros p Hp. unfold file_size. now rewrite Hat.
  - intros q Hq. apply in_map_iff in Hq as [p [<- Hp]].
    destruct (Hfiles p Hp) as [data [mtime E]].
    exists data, mtime. now rewrite Hat.
Qed.

(** A source directory that does not contain the destination is walked
    after the copy as it was before. *)
Lemma os_walk_after_copy (fs fs' : node) (dest d : path) (es : list (string * node)) :
  lookup fs dest = Some (Dir []) ->
  lookup fs' dest = Some (Dir es) ->
  (forall e, In e es -> is_dir (snd e) = false) ->
  (forall q, apart q dest -> lookup fs' q = lookup fs q) ->
  ~ d `prefix_of` dest ->
  os_walk fs' d = os_walk fs d.
Proof.
  intros Hdest Hdest' Hfiles Hframe Hd. unfold os_walk.
  destruct (decide (dest `prefix_of` d)) as [[k ->] | Hn].
  - destruct k as [| c k]; [destruct Hd; rewrite app_nil_r; reflexivity |].
    rewrite !lookup_app, Hdest, Hdest'. simpl.
    destruct (entry c es) as [ch |] eqn:E; [| reflexivity].
    apply entry_In in E. apply Hfiles in E. simpl in E.
    destruct ch as [data mtime | ?]; [| discriminate].
    now destruct k.
  - now rewrite Hframe.
Qed.

Lemma flat_map_ext_in {A B : Type} (f g : A -> list B) (l : list A) :
  (forall x, In x l -> f x = g x) -> flat_map f l = flat_map g l.
Proof.
  induction l as [| x l IH]; intros H; simpl; [reflexivity |].
  rewrite (H x) by now left. f_equal. apply IH. intros. apply H. now right.
Qed.

Lemma copy_with_progress_flat (fs : node) (source_dirs : list path) (dest_dir : path)
  (extensions : list string) :
  wf fs = true ->
  lookup fs dest_dir = Some (Dir []) ->
  NoDup (map os_path_basename (all_files fs source_dirs extensions)) ->
  exists fs' out ok,
    copy_with_progress fs source_dirs dest_dir extensions = (fs', out, ok)
    /\ (forall file e, ~ In (CopyFailed file e) out)
    /\ lookup fs' dest_dir
       = Some (Dir (copies fs (all_files fs source_dirs extensions)))
    /\ (forall q, apart q dest_dir -> lookup fs' q = lookup fs q).
Proof.
  intros Hwf Hdest Hnd. rewrite copy_with_progress_unfold.
  destruct (all_files fs source_dirs extensions) as [| f fl] eqn:E.
  - exists fs, [NoFilesToCopy], false. split; [reflexivity |].
    split; [| now split]. intros file e [H | []]. discriminate.
  - destruct (copy_loop_flat fs dest_dir (f :: fl) fs []) as [fs' [Hloop [Hl Hframe]]].
    + exact Hdest.
    + reflexivity.
    + intros p Hp.
      assert (Hfile : is_file_at fs p).
      { apply (photo_paths_file fs source_dirs extensions); [exact Hwf |].
        now rewrite <- all_files_photo_paths, E. }
      split; [exact Hfile | now apply (file_apart_empty_dir fs)].
    + exact Hnd.
    + exists fs', [], true. rewrite Hloop. split; [reflexivity |].
      split; [intros file e [] | now split].
Qed.

(** C1, as the code has it: on a well-formed tree, with an empty
    directory as destination that lies in none of the source
    directories, and with selected files whose names are pairwise
    distinct, when [copy_with_progress] has run and printed no copy
    error, the inventory of the sources and the inventory of the
    destination both give the number N and the byte total S that the
    sources gave before the copy, and [verify_copy] returns true. *)
Theorem copy_then_verify (fs : node) (source_dirs : list path) (dest_dir : path)
  (extensions : list string) (fs' : node) (out : list line) (ok : bool) :
  wf fs = true ->
  lookup fs dest_dir = Some (Dir []) ->
  (forall d, In d source_dirs -> ~ d `prefix_of` dest_dir) ->
  NoDup (map os_path_basename (all_files fs source_dirs extensions)) ->
  copy_with_progress fs source_dirs dest_dir extensions = (fs', out, ok) ->
  (forall file e, ~ In (CopyFailed file e) out) ->
  exists N S,
    get_files_info fs source_dirs extensions = Ok (N, S)
    /\ N = Z.of_nat (length (all_files fs source_dirs extensions))
    /\ get_files_info fs' source_dirs extensions = Ok (N, S)
    /\ get_files_info fs' [dest_dir] extensions = Ok (N, S)
    /\ verify_copy fs' source_dirs dest_dir extensions
       = Ok (verify_head N S N S ++ [VerifyPassed], true).
Proof.
  intros Hwf Hdest Hout Hnd Hrun Hclean.
  destruct (copy_with_progress_flat fs source_dirs dest_dir extensions Hwf Hdest Hnd)
    as (fs0 & out0 & ok0 & Hcopy & _ & Hl & Hframe).
  rewrite Hrun in Hcopy. injection Hcopy as <- <- <-.
  rewrite all_files_photo_paths in *.
  set (ps := photo_paths fs source_dirs extensions) in *.
  assert (Hfiles : forall p, In p ps -> is_file_at fs p)
    by (intros p; now apply photo_paths_file).
  assert (Hsame : photo_paths fs' source_dirs extensions = ps).
  { unfold ps, photo_paths. apply flat_map_ext_in. intros d Hd.
    rewrite (os_walk_after_copy fs fs' dest_dir d (copies fs ps)); auto.
    now apply copies_are_files. }
  assert (Hkeep : forall p, In p ps -> lookup fs' p = lookup fs p).
  { intros p Hp. apply Hframe.
    apply (file_apart_empty_dir fs); [now apply Hfiles | exact Hdest]. }
  assert (Hsrc' : get_files_info fs' source_dirs extensions
                  = Ok (Z.of_nat (length ps), total_bytes fs ps)).
  { rewrite get_files_info_flat, Hsame, foldM_add_file.
    - rewrite <- (map_id ps) at 2. rewrite (total_bytes_map fs fs'); [reflexivity |].
      intros p Hp. unfold file_size. now rewrite Hkeep.
    - intros p Hp. destruct (Hfiles p Hp) as [data [mtime E]].
      exists data, mtime. now rewrite Hkeep. }
  assert (Hdst' : get_files_info fs' [dest_dir] extensions
                  = Ok (Z.of_nat (length ps), total_bytes fs ps)).
  { apply (dest_inventory fs fs'); auto.
    intros p. apply photo_paths_selected. }
  exists (Z.of_nat (length ps)), (total_bytes fs ps).
  split; [now apply get_files_info_wf |]. split; [reflexivity |].
  split; [exact Hsrc' |]. split; [exact Hdst' |].
  unfold verify_copy. rewrite Hsrc'. cbn [bind]. rewrite Hdst'. cbn [bind].
  now rewrite !Z.eqb_refl.
Qed.

Lemma copy_then_verify_witness :
  wf dated_fs = true
  /\ lookup dated_fs ["photos"] = Some (Dir [])
  /\ (forall d, In d [["card"; "DCIM"]] -> ~ d `prefix_of` ["photos"])
  /\ NoDup (map os_path_basename (all_files dated_fs [["card"; "DCIM"]] [".jpg"]))
  /\ exists fs',
      copy_with_progress dated_fs [["card"; "DCIM"]] ["photos"] [".jpg"] = (fs', [], true)
      /\ (forall file e, ~ In (CopyFailed file e) [])
      /\ exists N S,
          get_files_info dated_fs [["card"; "DCIM"]] [".jpg"] = Ok (N, S)
          /\ N = Z.of_nat (length (all_files dated_fs [["card"; "DCIM"]] [".jpg"]))
          /\ get_files_info fs' [["card"; "DCIM"]] [".jpg"] = Ok (N, S)
          /\ get_files_info fs' [["photos"]] [".jpg"] = Ok (N, S)
          /\ verify_copy fs' [["card"; "DCIM"]] ["photos"] [".jpg"]
             = Ok (verify_head N S N S ++ [VerifyPassed], true).
Proof.
  assert (Hout : forall d, In d [["card"; "DCIM"]] -> ~ d `prefix_of` ["photos"]).
  { intros d [<- | []] [k Hk]. discriminate. }
  assert (Hnd : NoDup (map os_path_basename
                         (all_files dated_fs [["card"; "DCIM"]] [".jpg"]))).
  { apply (bool_decide_eq_true_1 _). reflexivity. }
  assert (Hclean : forall file e, ~ In (CopyFailed file e) []) by (intros file e []).
  split; [reflexivity |]. split; [reflexivity |]. split; [exact Hout |].
  split; [exact Hnd |].
  eexists. split; [reflexivity |]. split; [exact Hclean |].
  exact (copy_then_verify dated_fs [["card"; "DCIM"]] ["photos"] [".jpg"] _ [] true
           eq_refl eq_refl Hout Hnd eq_refl Hclean).
Defined.

(** The copy of the three dated photos, run: three files and twelve bytes
    on both sides. *)
Example dated_photos_round_trip :
  let '(fs', out, ok) :=
    copy_with_progress dated_fs [["card"; "DCIM"]] ["photos"] [".jpg"] in
  out = [] /\ ok = true
  /\ lookup fs' ["photos"]
     = Some (Dir [("IMG_0001.JPG", File "aaaa" 1704450645000000);
                  ("IMG_0002.jpg", File "bb" 1704186000500000);
                  ("IMG_0003.jpg", File "cccccc" 1704790800000000)])
  /\ verify_copy fs' [["card"; "DCIM"]] ["photos"] [".jpg"]
     = Ok (verify_head 3 12 3 12 ++ [VerifyPassed], true).
Proof. repeat split; reflexivity. Qed.

(** C1, as the spec words it, fails.  Two directories of the card hold a
    photo called [IMG_0001.JPG]: both copies succeed, the second one
    over the first, so the empty destination ends with one file of two
    bytes where the sources have two files of six bytes, and
    [verify_copy] returns false.  And with an empty destination inside
    the source directory the copy itself adds a photo to the sources:
    two files there against one in the destination. *)
Lemma copy_then_verify_name_clash :
  (wf clash_fs = true
   /\ lookup clash_fs ["photos"] = Some (Dir [])
   /\ get_files_info clash_fs [["card"; "DCIM"]] [".jpg"] = Ok (2, 6)
   /\ exists fs',
       copy_with_progress clash_fs [["card"; "DCIM"]] ["photos"] [".jpg"] = (fs', [], true)
       /\ get_files_info fs' [["card"; "DCIM"]] [".jpg"] = Ok (2, 6)
       /\ get_files_info fs' [["photos"]] [".jpg"] = Ok (1, 2)
       /\ verify_copy fs' [["card"; "DCIM"]] ["photos"] [".jpg"]
          = Ok (verify_head 2 6 1 2 ++ [WarnCount 2 1], false))
  /\ (wf nested_fs = true
      /\ lookup nested_fs ["card"; "photos"] = Some (Dir [])
      /\ get_files_info nested_fs [["card"]] [".jpg"] = Ok (1, 4)
      /\ exists fs',
          copy_with_progress nested_fs [["card"]] ["card"; "photos"] [".jpg"]
          = (fs', [], true)
          /\ get_files_info fs' [["card"]] [".jpg"] = Ok (2, 8)
          /\ get_files_info fs' [["card"; "photos"]] [".jpg"] = Ok (1, 4)
          /\ verify_copy fs' [["card"]] ["card"; "photos"] [".jpg"]
             = Ok (verify_head 2 8 1 4 ++ [WarnCount 2 1], false)).
Proof.
  split.
  - split; [reflexivity |]. split; [reflexivity |]. split; [reflexivity |].
    eexists. split; [reflexivity |]. repeat split; reflexivity.
  - split; [reflexivity |]. split; [reflexivity |]. split; [reflexivity |].
    eexists. split; [reflexivity |]. repeat split; reflexivity.
Qed.

(** * Further properties *)

(** ** Config loader: what else the code shows *)

Lemma write_file_lookup (n n' : node) (p : path) (data : string) (mtime : Z) :
  write_file n p data mtime = Ok n' -> lookup n' p = Some (File data mtime).
Proof.
  revert n n'. induction p as [| c p IH]; intros n n'.
  - destruct n; simpl; [| discriminate]. now intros [= <-].
  - destruct n as [| es]; simpl; [discriminate |].
    destruct (entry c es) as [ch |] eqn:E.
    + destruct (write_file ch p data mtime) as [ch' |] eqn:Ew; simpl; [| discriminate].
      intros [= <-]. simpl. rewrite entry_replace_eq, E. now apply (IH ch).
    + destruct p; [| discriminate]. intros [= <-]. simpl.
      rewrite entry_app, E. simpl. now rewrite String.eqb_refl.
Qed.

Lemma write_file_needs_dir (n n' : node) (dir : path) (name data : string) (mtime : Z) :
  write_file n (dir ++ [name]) data mtime = Ok n' -> is_dir_at n dir.
Proof.
  revert n n'. induction dir as [| c dir IH]; intros n n'.
  - destruct n as [| es]; simpl; [discriminate |]. intros _. now exists es.
  - destruct n as [| es]; simpl; [discriminate |].
    destruct (entry c es) as [ch |] eqn:E.
    + destruct (write_file ch (dir ++ [name]) data mtime) as [ch' |] eqn:Ew; simpl;
        [| discriminate].
      intros _. destruct (IH _ _ Ew) as [es' H]. exists es'. simpl. now rewrite E.
    + destruct dir; discriminate.
Qed.

(** A value that is not an object is never changed by the backfill loop:
    the loop returns it as it is or raises [TypeError]. *)
Lemma backfill_non_object (items : list (string * value)) (v : value) :
  not_object v ->
  foldM backfill items v = Ok v \/ foldM backfill items v = Raise TypeError.
Proof.
  intros Hv. induction items as [| [key default] items IH]; [now left |].
  cbn [foldM backfill].
  destruct v as [| b | n | repr | s | l | d]; try (now right); try contradiction.
  - cbn [py_in bind]. destruct (Py.contains s key); cbn [negb bind py_setitem].
    + exact IH.
    + now right.
  - cbn [py_in bind].
    destruct (existsb _ l); cbn [negb bind py_setitem]; [exact IH | now right].
Qed.

Section ConfigLoaderMore.

Variable json_dump : value -> string.
Variable json_load : string -> option value.

(** X1: when anything exists at the path, [load_config] writes nothing
    and prints nothing, whatever it finds there: a directory raises
    [IsADirectoryError], a file that does not decode raises
    [JSONDecodeError], and JSON null, a boolean or a number raises
    [TypeError]. *)
Theorem load_config_keeps_existing (fs : node) (now : Z) (config_path : path) :
  os_path_exists fs config_path = true ->
  fst (load_config json_dump json_load fs now config_path) = (fs, [])
  /\ (is_dir_at fs config_path ->
      snd (load_config json_dump json_load fs now config_path) = Raise IsADirectoryError)
  /\ (forall text,
        read_file fs config_path = Ok text -> json_load text = None ->
        snd (load_config json_dump json_load fs now config_path) = Raise JSONDecodeError)
  /\ (forall text v,
        read_file fs config_path = Ok text -> json_load text = Some v ->
        match v with
        | VNone | VBool _ | VInt _ | VFloat _ => True
        | _ => False
        end ->
        snd (load_config json_dump json_load fs now config_path) = Raise TypeError).
Proof.
  intros Hex. unfold load_config. rewrite Hex. cbn [negb fst snd].
  split; [reflexivity |]. split; [| split].
  - intros [es H]. unfold read_file. now rewrite H.
  - intros text -> Hload. cbn [bind]. now rewrite Hload.
  - intros text v -> Hload Hv. cbn [bind]. rewrite Hload. cbn [bind].
    destruct v; try contradiction; reflexivity.
Qed.

(** X2: a decoded value that is not an object is never modified:
    [load_config] returns it as it is (when every default key is an
    element or a substring of it) or raises [TypeError]. *)
Theorem load_config_non_object (fs : node) (now : Z) (config_path : path)
  (text : string) (v : value) :
  read_file fs config_path = Ok text ->
  json_load text = Some v ->
  not_object v ->
  load_config json_dump json_load fs now config_path = (fs, [], Ok v)
  \/ load_config json_dump json_load fs now config_path = (fs, [], Raise TypeError).
Proof.
  intros Hread Hload Hv. unfold load_config, os_path_exists.
  assert (Hex : exists n, lookup fs config_path = Some n).
  { unfold read_file in Hread. destruct (lookup fs config_path); [eauto | discriminate]. }
  destruct Hex as [n ->]. cbn [negb]. rewrite Hread. cbn [bind]. rewrite Hload. cbn [bind].
  destruct (backfill_non_object DEFAULT_CONFIG_items v Hv) as [E | E].
  - left. do 2 f_equal. exact E.
  - right. do 2 f_equal. exact E.
Qed.

(** X3: whenever [load_config] returns an object, that object has every
    key of [DEFAULT_CONFIG], so the look-ups the pipeline makes in it
    cannot miss. *)
Theorem load_config_has_default_keys (fs : node) (now : Z) (config_path : path)
  (d : gmap string value) :
  snd (load_config json_dump json_load fs now config_path) = Ok (VDict d) ->
  forall key, In key (map fst DEFAULT_CONFIG_items) -> is_Some (d !! key).
Proof.
  assert (Hdef : forall key, In key (map fst DEFAULT_CONFIG_items) ->
                             is_Some (DEFAULT_CONFIG !! key)).
  { intros key [<- | [<- | [<- | [<- | [<- | []]]]]]; vm_compute; eauto. }
  unfold load_config.
  destruct (negb (os_path_exists fs config_path)).
  - destruct (write_file fs config_path _ now); cbn [snd]; [| discriminate].
    intros [= <-]. exact Hdef.
  - cbn [snd]. destruct (read_file fs config_path) as [text |]; cbn [bind]; [| discriminate].
    destruct (json_load text) as [v |]; cbn [bind]; [| discriminate].
    destruct v as [| b | n | repr | s | l | d0];
      try (intros H;
           match type of H with
           | foldM _ _ ?v = _ =>
               destruct (backfill_non_object DEFAULT_CONFIG_items v I) as [E | E];
               change (foldM backfill DEFAULT_CONFIG_items v = Ok (VDict d)) in H;
               rewrite E in H; discriminate
           end).
    intros H. change (foldM backfill DEFAULT_CONFIG_items (VDict d0) = Ok (VDict d)) in H.
    rewrite backfill_defaults in H. injection H as <-.
    intros key Hkey. apply lookup_union_is_Some. right. now apply Hdef.
Qed.

(** X4: with a codec that reads the dumped defaults back, the file a
    first call created is read by the next call as the defaults again,
    and that call writes and prints nothing. *)
Theorem load_config_reload (fs fs1 : node) (now later : Z) (config_path : path) :
  json_load (json_dump (VDict DEFAULT_CONFIG)) = Some (VDict DEFAULT_CONFIG) ->
  load_config json_dump json_load fs now config_path
  = (fs1, [ConfigCreated config_path], Ok (VDict DEFAULT_CONFIG)) ->
  load_config json_dump json_load fs1 later config_path
  = (fs1, [], Ok (VDict DEFAULT_CONFIG)).
Proof.
  intros Hcodec. unfold load_config at 1.
  destruct (negb (os_path_exists fs config_path)); [| discriminate].
  destruct (write_file fs config_path _ now) as [fs' |] eqn:Hw; [| discriminate].
  intros [= ->]. apply write_file_lookup in Hw.
  unfold load_config, os_path_exists, read_file. rewrite Hw. cbn [negb bind].
  rewrite Hcodec. cbn [bind].
  assert (E : foldM backfill DEFAULT_CONFIG_items (VDict DEFAULT_CONFIG)
              = Ok (VDict DEFAULT_CONFIG)).
  { rewrite backfill_defaults. now rewrite (idemp (∪)). }
  exact (f_equal (fun r => (fs1, [], r)) E).
Qed.

(** X5: when nothing exists at the path and the directory that should
    hold the file is not a directory either, the call raises and changes
    nothing, after it has already printed that the file was created. *)
Theorem load_config_missing_directory (fs : node) (now : Z) (dir : path) (name : string) :
  lookup fs (dir ++ [name]) = None ->
  ~ is_dir_at fs dir ->
  exists e,
    load_config json_dump json_load fs now (dir ++ [name])
    = (fs, [ConfigCreated (dir ++ [name])], Raise e).
Proof.
  intros Hnone Hdir. unfold load_config, os_path_exists. rewrite Hnone. cbn [negb].
  destruct (write_file fs (dir ++ [name]) _ now) as [fs' | e] eqn:Hw.
  - destruct Hdir. now apply (write_file_needs_dir _ _ _ _ _ _ Hw).
  - now exists e.
Qed.

End ConfigLoaderMore.

Lemma load_config_keeps_existing_witness :
  os_path_exists configured_fs config_json = true
  /\ fst (load_config dump_sample load_fixed configured_fs 42 config_json)
     = (configured_fs, [])
  /\ snd (load_config dump_sample load_fixed configured_fs 42 config_json)
     = Raise JSONDecodeError
  /\ snd (load_config dump_sample load_fixed home_fs 42
            ["home"; "alice"; ".config"]) = Raise IsADirectoryError.
Proof.
  pose proof (load_config_keeps_existing dump_sample load_fixed configured_fs 42
                config_json eq_refl) as [Hfs [_ [Hbad _]]].
  pose proof (load_config_keeps_existing dump_sample load_fixed home_fs 42
                ["home"; "alice"; ".config"] eq_refl) as [_ [Hdir _]].
  split; [reflexivity |]. split; [exact Hfs |]. split.
  - apply (Hbad "{'subfolders': []}"); reflexivity.
  - apply Hdir. now eexists.
Defined.

Lemma load_config_non_object_witness :
  read_file configured_fs config_json = Ok "{'subfolders': []}"
  /\ load_array "{'subfolders': []}" = Some (VList [VInt 1])
  /\ not_object (VList [VInt 1])
  /\ (load_config dump_sample load_array configured_fs 42 config_json
      = (configured_fs, [], Ok (VList [VInt 1]))
      \/ load_config dump_sample load_array configured_fs 42 config_json
         = (configured_fs, [], Raise TypeError)).
Proof.
  split; [reflexivity |]. split; [reflexivity |]. split; [exact I |].
  apply (load_config_non_object dump_sample load_array configured_fs 42 config_json
           "{'subfolders': []}" (VList [VInt 1])); [reflexivity | reflexivity | exact I].
Defined.

Lemma load_config_has_default_keys_witness :
  snd (load_config dump_sample load_sample configured_fs 42 config_json)
  = Ok (VDict ({[ "subfolders" := VList [] ]} ∪ DEFAULT_CONFIG))
  /\ forall key, In key (map fst DEFAULT_CONFIG_items) ->
                 is_Some (({[ "subfolders" := VList [] ]} ∪ DEFAULT_CONFIG) !! key).
Proof.
  assert (H : snd (load_config dump_sample load_sample configured_fs 42 config_json)
              = Ok (VDict ({[ "subfolders" := VList [] ]} ∪ DEFAULT_CONFIG))).
  { vm_compute. reflexivity. }
  split; [exact H |].
  exact (load_config_has_default_keys dump_sample load_sample configured_fs 42 config_json
           _ H).
Defined.

Lemma load_config_reload_witness :
  load_fixed (dump_fixed (VDict DEFAULT_CONFIG)) = Some (VDict DEFAULT_CONFIG)
  /\ exists fs1,
      load_config dump_fixed load_fixed home_fs 42 config_json
      = (fs1, [ConfigCreated config_json], Ok (VDict DEFAULT_CONFIG))
      /\ load_config dump_fixed load_fixed fs1 43 config_json
         = (fs1, [], Ok (VDict DEFAULT_CONFIG)).
Proof.
  split; [reflexivity |]. eexists.
  assert (H : load_config dump_fixed load_fixed home_fs 42 config_json
              = (Dir [("home",
                       Dir [("alice",
                             Dir [(".config",
                                   Dir [("photo_copy",
                                         Dir [("config.json", File "<defaults>" 42)])])])])],
                 [ConfigCreated config_json], Ok (VDict DEFAULT_CONFIG)))
    by reflexivity.
  split; [exact H |].
  exact (load_config_reload dump_fixed load_fixed home_fs _ 42 43 config_json eq_refl H).
Defined.

Lemma load_config_missing_directory_witness :
  lookup bare_home_fs (["home"; "alice"; ".config"; "photo_copy"] ++ ["config.json"]) = None
  /\ ~ is_dir_at bare_home_fs ["home"; "alice"; ".config"; "photo_copy"]
  /\ exists e,
      load_config dump_sample load_sample bare_home_fs 42
        (["home"; "alice"; ".config"; "photo_copy"] ++ ["config.json"])
      = (bare_home_fs, [ConfigCreated (["home"; "alice"; ".config"; "photo_copy"]
                                         ++ ["config.json"])], Raise e).
Proof.
  assert (Hdir : ~ is_dir_at bare_home_fs ["home"; "alice"; ".config"; "photo_copy"]).
  { intros [es H]. discriminate. }
  split; [reflexivity |]. split; [exact Hdir |].
  exact (load_config_missing_directory dump_sample load_sample bare_home_fs 42
           ["home"; "alice"; ".config"; "photo_copy"] "config.json" eq_refl Hdir).
Defined.

(** ** Mount resolver: a template that does not format *)

Section MountResolverMore.

Variable str_format : string -> string -> string -> result string.
Variable os_path_ismount : string -> bool.

(** X6: when the templates before it format to paths that are not mount
    points and a template does not format, the exception of the
    formatting leaves [find_mount_point], whatever the templates after
    it are: they are not tried. *)
Theorem find_mount_point_format_error (cfg : config) (label user : string)
  (tried : list string) (pattern : string) (rest : list string) (e : exn) :
  mount_patterns cfg = tried ++ pattern :: rest ->
  Forall (rejected str_format os_path_ismount label user) tried ->
  str_format pattern user label = Raise e ->
  find_mount_point str_format os_path_ismount cfg label user = Raise e.
Proof.
  intros Hsplit Htried Hfail. unfold find_mount_point. rewrite Hsplit. clear Hsplit.
  induction Htried as [| p tried [c [Hf Hm]] _ IH]; cbn [app find_mount_loop].
  - now rewrite Hfail.
  - rewrite Hf. cbn [bind]. now rewrite Hm.
Qed.

End MountResolverMore.

Lemma find_mount_point_format_error_witness :
  mount_patterns bad_template_cfg
  = ["/mnt/{user}"] ++ "/mnt/{name}" :: ["/run/media/{user}/{label}"]
  /\ Forall (rejected format_checked mounted_run_media "EOS_DIGITAL" "alice") ["/mnt/{user}"]
  /\ format_checked "/mnt/{name}" "alice" "EOS_DIGITAL" = Raise (KeyError "name")
  /\ format_checked "/run/media/{user}/{label}" "alice" "EOS_DIGITAL"
     = Ok "/run/media/alice/EOS_DIGITAL"
  /\ mounted_run_media "/run/media/alice/EOS_DIGITAL" = true
  /\ find_mount_point format_checked mounted_run_media bad_template_cfg "EOS_DIGITAL" "alice"
     = Raise (KeyError "name").
Proof.
  assert (Htried : Forall (rejected format_checked mounted_run_media "EOS_DIGITAL" "alice")
                          ["/mnt/{user}"]).
  { repeat constructor. exists "/mnt/alice". now split. }
  split; [reflexivity |]. split; [exact Htried |]. do 3 (split; [reflexivity |]).
  exact (find_mount_point_format_error format_checked mounted_run_media bad_template_cfg
           "EOS_DIGITAL" "alice" ["/mnt/{user}"] "/mnt/{name}"
           ["/run/media/{user}/{label}"] (KeyError "name") eq_refl Htried eq_refl).
Defined.

(** ** Source discovery: several patterns *)

Section SourceDiscoveryMore.

Variable glob_glob : string -> list string.
Variable isdir : string -> bool.

Lemma find_photo_directories_found (mount_point : string) (source_patterns : list string) :
  find_photo_directories glob_glob isdir mount_point source_patterns
  = (map FoundDir (found glob_glob isdir mount_point source_patterns),
     match found glob_glob isdir mount_point source_patterns with
     | [] => Raise (FileNotFoundError (NoPhotoDirs source_patterns))
     | _ :: _ => Ok (found glob_glob isdir mount_point source_patterns)
     end).
Proof.
  unfold find_photo_directories.
  rewrite (fold_left_extend _
    (fun pattern =>
       List.filter isdir (glob_glob (Py.os_path_join mount_point pattern)))).
  - reflexivity.
  - intros acc pattern.
    rewrite (fold_left_snoc_filter isdir (fun d => d)). now rewrite map_id.
Qed.

Lemma found_of_result (mount_point : string) (source_patterns : list string) :
  (forall dirs,
      snd (find_photo_directories glob_glob isdir mount_point source_patterns) = Ok dirs ->
      found glob_glob isdir mount_point source_patterns = dirs)
  /\ (forall e,
        snd (find_photo_directories glob_glob isdir mount_point source_patterns) = Raise e ->
        found glob_glob isdir mount_point source_patterns = []).
Proof.
  rewrite find_photo_directories_found. cbn [snd].
  destruct (found glob_glob isdir mount_point source_patterns); split;
    try discriminate; try reflexivity.
  now intros dirs [= <-].
Qed.

(** X7: the directories of two pattern lists put one after the other are
    the directories of the first list followed by those of the second:
    a directory that both lists match is returned, printed (and later
    walked) twice, and patterns that match nothing do no harm as long as
    another pattern matches. *)
Theorem find_photo_directories_app (mount_point : string) (patterns more : list string) :
  (forall dirs dirs',
      snd (find_photo_directories glob_glob isdir mount_point patterns) = Ok dirs ->
      snd (find_photo_directories glob_glob isdir mount_point more) = Ok dirs' ->
      find_photo_directories glob_glob isdir mount_point (patterns ++ more)
      = (map FoundDir (dirs ++ dirs'), Ok (dirs ++ dirs')))
  /\ (forall dirs e,
        snd (find_photo_directories glob_glob isdir mount_point patterns) = Ok dirs ->
        snd (find_photo_directories glob_glob isdir mount_point more) = Raise e ->
        find_photo_directories glob_glob isdir mount_point (patterns ++ more)
        = (map FoundDir dirs, Ok dirs))
  /\ (forall dirs e,
        snd (find_photo_directories glob_glob isdir mount_point patterns) = Raise e ->
        snd (find_photo_directories glob_glob isdir mount_point more) = Ok dirs ->
        find_photo_directories glob_glob isdir mount_point (patterns ++ more)
        = (map FoundDir dirs, Ok dirs))
  /\ (forall e e',
        snd (find_photo_directories glob_glob isdir mount_point patterns) = Raise e ->
        snd (find_photo_directories glob_glob isdir mount_point more) = Raise e' ->
        find_photo_directories glob_glob isdir mount_point (patterns ++ more)
        = ([], Raise (FileNotFoundError (NoPhotoDirs (patterns ++ more))))).
Proof.
  destruct (found_of_result mount_point patterns) as [Hok Hno].
  destruct (found_of_result mount_point more) as [Hok' Hno'].
  assert (Happ : found glob_glob isdir mount_point (patterns ++ more)
                 = found glob_glob isdir mount_point patterns
                   ++ found glob_glob isdir mount_point more)
    by apply flat_map_app.
  assert (Hne : forall dirs,
             snd (find_photo_directories glob_glob isdir mount_point patterns) = Ok dirs ->
             dirs <> []).
  { intros dirs. rewrite find_photo_directories_found. cbn [snd].
    destruct (found glob_glob isdir mount_point patterns); [discriminate |].
    intros [= <-]. discriminate. }
  assert (Hne' : forall dirs,
             snd (find_photo_directories glob_glob isdir mount_point more) = Ok dirs ->
             dirs <> []).
  { intros dirs. rewrite find_photo_directories_found. cbn [snd].
    destruct (found glob_glob isdir mount_point more); [discriminate |].
    intros [= <-]. discriminate. }
  repeat split.
  - intros dirs dirs' H H'. rewrite find_photo_directories_found, Happ.
    rewrite (Hok _ H), (Hok' _ H'). pose proof (Hne _ H).
    destruct dirs; [congruence | reflexivity].
  - intros dirs e H H'. rewrite find_photo_directories_found, Happ.
    rewrite (Hok _ H), (Hno' _ H'), app_nil_r. pose proof (Hne _ H).
    destruct dirs; [congruence | reflexivity].
  - intros dirs e H H'. rewrite find_photo_directories_found, Happ.
    rewrite (Hno _ H), (Hok' _ H'). pose proof (Hne' _ H').
    destruct dirs; [congruence | reflexivity].
  - intros e e' H H'. rewrite find_photo_directories_found, Happ.
    now rewrite (Hno _ H), (Hno' _ H').
Qed.

(** X8: a pattern that starts with a slash is expanded as it stands: the
    mount point plays no part, so with such patterns only the result
    is the same for every mount point. *)
Theorem find_photo_directories_absolute (mount_point other : string)
  (source_patterns : list string) :
  Forall (fun pattern => Py.startswith pattern "/" = true) source_patterns ->
  find_photo_directories glob_glob isdir mount_point source_patterns
  = find_photo_directories glob_glob isdir other source_patterns
  /\ found glob_glob isdir mount_point source_patterns
     = flat_map (fun pattern => List.filter isdir (glob_glob pattern)) source_patterns.
Proof.
  intros Habs.
  assert (E : forall mp, found glob_glob isdir mp source_patterns
                         = flat_map (fun pattern => List.filter isdir (glob_glob pattern))
                                    source_patterns).
  { intros mp. unfold found. apply flat_map_ext_in. intros pattern Hin.
    rewrite Forall_forall in Habs. unfold Py.os_path_join.
    now rewrite (Habs pattern) by now apply list_elem_of_In. }
  split; [| apply E]. now rewrite !find_photo_directories_found, !E.
Qed.

End SourceDiscoveryMore.

Lemma find_photo_directories_app_witness :
  snd (find_photo_directories glob_card isdir_card "/media/alice/EOS_DIGITAL" ["DCIM/*"])
  = Ok ["/media/alice/EOS_DIGITAL/DCIM/100CANON"; "/media/alice/EOS_DIGITAL/DCIM/101CANON"]
  /\ snd (find_photo_directories glob_card isdir_card "/media/alice/EOS_DIGITAL" ["MISC/*"])
     = Raise (FileNotFoundError (NoPhotoDirs ["MISC/*"]))
  /\ find_photo_directories glob_card isdir_card "/media/alice/EOS_DIGITAL"
       (["DCIM/*"] ++ ["DCIM/*"])
     = (map FoundDir
          (["/media/alice/EOS_DIGITAL/DCIM/100CANON";
            "/media/alice/EOS_DIGITAL/DCIM/101CANON"]
           ++ ["/media/alice/EOS_DIGITAL/DCIM/100CANON";
               "/media/alice/EOS_DIGITAL/DCIM/101CANON"]),
        Ok (["/media/alice/EOS_DIGITAL/DCIM/100CANON";
             "/media/alice/EOS_DIGITAL/DCIM/101CANON"]
            ++ ["/media/alice/EOS_DIGITAL/DCIM/100CANON";
                "/media/alice/EOS_DIGITAL/DCIM/101CANON"]))
  /\ find_photo_directories glob_card isdir_card "/media/alice/EOS_DIGITAL"
       (["DCIM/*"] ++ ["MISC/*"])
     = (map FoundDir ["/media/alice/EOS_DIGITAL/DCIM/100CANON";
                      "/media/alice/EOS_DIGITAL/DCIM/101CANON"],
        Ok ["/media/alice/EOS_DIGITAL/DCIM/100CANON";
            "/media/alice/EOS_DIGITAL/DCIM/101CANON"]).
Proof.
  split; [reflexivity |]. split; [reflexivity |]. split.
  - apply (proj1 (find_photo_directories_app glob_card isdir_card
                    "/media/alice/EOS_DIGITAL" ["DCIM/*"] ["DCIM/*"])); reflexivity.
  - apply (proj1 (proj2 (find_photo_directories_app glob_card isdir_card
                           "/media/alice/EOS_DIGITAL" ["DCIM/*"] ["MISC/*"]))
             _ (FileNotFoundError (NoPhotoDirs ["MISC/*"]))); reflexivity.
Defined.

Lemma find_photo_directories_absolute_witness :
  Forall (fun pattern => Py.startswith pattern "/" = true)
         ["/media/alice/EOS_DIGITAL/DCIM/*"]
  /\ find_photo_directories glob_card isdir_card "/media/bob/OTHER"
       ["/media/alice/EOS_DIGITAL/DCIM/*"]
     = find_photo_directories glob_card isdir_card "/nowhere"
         ["/media/alice/EOS_DIGITAL/DCIM/*"]
  /\ found glob_card isdir_card "/media/bob/OTHER" ["/media/alice/EOS_DIGITAL/DCIM/*"]
     = flat_map (fun pattern => List.filter isdir_card (glob_card pattern))
                ["/media/alice/EOS_DIGITAL/DCIM/*"].
Proof.
  assert (H : Forall (fun pattern => Py.startswith pattern "/" = true)
                     ["/media/alice/EOS_DIGITAL/DCIM/*"])
    by (repeat constructor).
  split; [exact H |].
  exact (find_photo_directories_absolute glob_card isdir_card "/media/bob/OTHER" "/nowhere"
           ["/media/alice/EOS_DIGITAL/DCIM/*"] H).
Defined.

(** ** The photo filter: letter case, no extension, the blank extension *)

Lemma lower_char_small (c : ascii) :
  is_capital c = true ->
  Py.lower_char c = small_of c /\ Py.lower_char (small_of c) = small_of c.
Proof. destruct c as [[] [] [] [] [] [] [] []]; try discriminate; now split. Qed.

Lemma same_letter_lower (a b : ascii) :
  same_letter a b = true -> Py.lower_char a = Py.lower_char b.
Proof.
  unfold same_letter. intros H.
  apply orb_true_iff in H as [H | H]; [apply orb_true_iff in H as [H | H] |].
  - apply Ascii.eqb_eq in H. now subst.
  - apply andb_true_iff in H as [Ha Hb]. apply Ascii.eqb_eq in Hb. subst b.
    destruct (lower_char_small a Ha) as [-> ->]. reflexivity.
  - apply andb_true_iff in H as [Hb Ha]. apply Ascii.eqb_eq in Ha. subst a.
    destruct (lower_char_small b Hb) as [-> ->]. reflexivity.
Qed.

Lemma same_up_to_case_lower (s t : string) :
  same_up_to_case s t = true -> Py.lower s = Py.lower t.
Proof.
  revert t. induction s as [| a s IH]; intros [| b t]; simpl; try discriminate;
    [reflexivity |].
  intros H. apply andb_true_iff in H as [Hab Hst].
  now rewrite (same_letter_lower a b Hab), (IH t Hst).
Qed.

Lemma same_up_to_case_lowered (e1 e2 : list string) :
  Forall2 (fun s t => same_up_to_case s t = true) e1 e2 ->
  map Py.lower e1 = map Py.lower e2.
Proof.
  induction 1 as [| s t e1 e2 Hst _ IH]; [reflexivity |]. cbn [map].
  now rewrite (same_up_to_case_lower s t Hst), IH.
Qed.

Lemma photo_paths_lowered (fs : node) (directories : list path) (e1 e2 : list string) :
  map Py.lower e1 = map Py.lower e2 ->
  photo_paths fs directories e1 = photo_paths fs directories e2.
Proof.
  intros H. unfold photo_paths. apply flat_map_ext_in. intros directory _.
  apply flat_map_ext_in. intros [[root ds] files] _. f_equal.
  apply filter_ext. intros file. unfold selected. now rewrite H.
Qed.

(** X9: the case of the letters A to Z in the extensions does not count.
    Two extension lists of one length whose entries are, one by one and
    character by character, the same or the two cases of one ASCII
    letter select the same files and give the same result in the date
    deriver, the inventory, the copy engine and the verifier. *)
Theorem extensions_case_insensitive (e1 e2 : list string) :
  Forall2 (fun s t => same_up_to_case s t = true) e1 e2 ->
  (forall file, selected e1 file = selected e2 file)
  /\ (forall fs source_dirs, all_files fs source_dirs e1 = all_files fs source_dirs e2)
  /\ (forall fs directories,
        get_files_info fs directories e1 = get_files_info fs directories e2)
  /\ (forall fromtimestamp fs photo_dirs,
        get_earliest_photo_date fromtimestamp fs photo_dirs e1
        = get_earliest_photo_date fromtimestamp fs photo_dirs e2)
  /\ (forall fs source_dirs dest_dir,
        copy_with_progress fs source_dirs dest_dir e1
        = copy_with_progress fs source_dirs dest_dir e2)
  /\ (forall fs source_dirs dest_dir,
        verify_copy fs source_dirs dest_dir e1 = verify_copy fs source_dirs dest_dir e2).
Proof.
  intros Hcase. pose proof (same_up_to_case_lowered e1 e2 Hcase) as H.
  assert (Hall : forall fs source_dirs,
             all_files fs source_dirs e1 = all_files fs source_dirs e2).
  { intros. rewrite !all_files_photo_paths. now apply photo_paths_lowered. }
  assert (Hinfo : forall fs directories,
             get_files_info fs directories e1 = get_files_info fs directories e2).
  { intros. rewrite !get_files_info_flat. now rewrite (photo_paths_lowered _ _ e1 e2). }
  split; [intros file; unfold selected; now rewrite H |].
  split; [exact Hall |]. split; [exact Hinfo |]. split; [| split].
  - intros. rewrite !get_earliest_photo_date_flat.
    now rewrite (photo_paths_lowered _ _ e1 e2), H.
  - intros. unfold copy_with_progress. now rewrite Hall.
  - intros. unfold verify_copy. now rewrite !Hinfo.
Qed.

Lemma extensions_case_insensitive_witness :
  Forall2 (fun s t => same_up_to_case s t = true) [".JPG"; ".Cr2"] [".jpg"; ".cr2"]
  /\ get_files_info dated_fs [["card"]] [".JPG"; ".Cr2"]
     = get_files_info dated_fs [["card"]] [".jpg"; ".cr2"]
  /\ copy_with_progress dated_fs [["card"]] ["photos"] [".JPG"; ".Cr2"]
     = copy_with_progress dated_fs [["card"]] ["photos"] [".jpg"; ".cr2"].
Proof.
  assert (Hcase : Forall2 (fun s t => same_up_to_case s t = true)
                          [".JPG"; ".Cr2"] [".jpg"; ".cr2"])
    by (repeat constructor).
  pose proof (extensions_case_insensitive [".JPG"; ".Cr2"] [".jpg"; ".cr2"] Hcase)
    as (_ & _ & Hinfo & _ & Hcopy & _).
  split; [exact Hcase |]. split; [apply Hinfo | apply Hcopy].
Defined.

(** X10: with an empty extension list no file is a photo: the inventory
    is (0, 0), the date deriver raises, the copy engine copies nothing,
    changes nothing and returns false, and the verifier passes. *)
Theorem no_extension_selects_nothing (fromtimestamp : Z -> result datetime) (fs : node)
  (directories : list path) (dest_dir : path) :
  (forall file, selected [] file = false)
  /\ get_files_info fs directories [] = Ok (0, 0)
  /\ get_earliest_photo_date fromtimestamp fs directories []
     = Raise (FileNotFoundError (NoPhotos []))
  /\ copy_with_progress fs directories dest_dir [] = (fs, [NoFilesToCopy], false)
  /\ verify_copy fs directories dest_dir []
     = Ok (verify_head 0 0 0 0 ++ [VerifyPassed], true).
Proof.
  assert (Hnone : forall dirs, photo_paths fs dirs [] = []).
  { intros dirs. apply no_photo_paths. now intros directory root ds files file _ _ _. }
  assert (Hinfo : forall dirs, get_files_info fs dirs [] = Ok (0, 0)).
  { intros dirs. now rewrite get_files_info_flat, Hnone. }
  split; [reflexivity |]. split; [apply Hinfo |]. split; [| split].
  - now rewrite get_earliest_photo_date_flat, Hnone.
  - unfold copy_with_progress. now rewrite all_files_photo_paths, Hnone.
  - unfold verify_copy. now rewrite !Hinfo.
Qed.

Lemma append_empty (s : string) : s +:+ EmptyString = s.
Proof.
  induction s as [| c s IH]; [reflexivity |].
  change (String c (s +:+ EmptyString) = String c s). now rewrite IH.
Qed.

(** X11: a blank entry in the extension list makes every file a photo:
    the copy engine then takes every file below the source directories. *)
Theorem blank_extension_selects_all (extensions : list string) :
  In EmptyString extensions ->
  (forall file, selected extensions file = true)
  /\ (forall fs source_dirs,
        all_files fs source_dirs extensions = every_file fs source_dirs).
Proof.
  intros Hblank.
  assert (Hsel : forall file, selected extensions file = true).
  { intros file. apply selected_spec. exists EmptyString. split; [exact Hblank |].
    exists (Py.lower file). symmetry. apply append_empty. }
  split; [exact Hsel |].
  intros fs source_dirs. rewrite all_files_photo_paths. unfold photo_paths, every_file.
  apply flat_map_ext_in. intros directory _.
  apply flat_map_ext_in. intros [[root ds] files] _.
  now rewrite filter_all.
Qed.

Lemma blank_extension_selects_all_witness :
  In EmptyString [".jpg"; EmptyString]
  /\ selected [".jpg"; EmptyString] "notes.txt" = true
  /\ all_files dated_fs [["card"]] [".jpg"; EmptyString] = every_file dated_fs [["card"]].
Proof.
  pose proof (blank_extension_selects_all [".jpg"; EmptyString] ltac:(right; now left))
    as [Hsel Hall].
  split; [right; now left |]. split; [apply Hsel | apply Hall].
Defined.

(** ** Inventory, verifier and date deriver: several directories *)

Lemma photo_paths_app (fs : node) (directories more : list path) (extensions : list string) :
  photo_paths fs (directories ++ more) extensions
  = photo_paths fs directories extensions ++ photo_paths fs more extensions.
Proof. apply flat_map_app. Qed.

Lemma total_bytes_app (fs : node) (ps qs : list path) :
  total_bytes fs (ps ++ qs) = total_bytes fs ps + total_bytes fs qs.
Proof.
  induction ps as [| p ps IH]; simpl; [reflexivity |].
  fold (total_bytes fs (ps ++ qs)). fold (total_bytes fs ps). lia.
Qed.

Lemma total_bytes_nonneg (fs : node) (ps : list path) : 0 <= total_bytes fs ps.
Proof.
  induction ps as [| p ps IH]; simpl; [lia |]. fold (total_bytes fs ps).
  assert (0 <= file_size fs p); [| lia].
  unfold file_size. destruct (lookup fs p) as [[data mtime | es] |]; lia.
Qed.

Lemma total_bytes_perm (fs : node) (ps qs : list path) :
  Permutation ps qs -> total_bytes fs ps = total_bytes fs qs.
Proof.
  induction 1 as [| p ps qs _ IH | p q ps | ps qs rs _ IH1 _ IH2]; simpl.
  - reflexivity.
  - fold (total_bytes fs ps). fold (total_bytes fs qs). lia.
  - fold (total_bytes fs ps). lia.
  - congruence.
Qed.

Lemma photo_paths_perm (fs : node) (directories directories' : list path)
  (extensions : list string) :
  Permutation directories directories' ->
  Permutation (photo_paths fs directories extensions)
              (photo_paths fs directories' extensions).
Proof. intros H. unfold photo_paths. now apply Permutation_flat_map. Qed.

(** X12: on a well-formed tree the inventory of two directory lists put
    one after the other is the sum of their inventories, count by count
    and byte by byte, and neither number is negative; so a directory
    that is listed twice is counted twice. *)
Theorem get_files_info_app (fs : node) (directories more : list path)
  (extensions : list string) :
  wf fs = true ->
  exists count size count' size',
    get_files_info fs directories extensions = Ok (count, size)
    /\ get_files_info fs more extensions = Ok (count', size')
    /\ get_files_info fs (directories ++ more) extensions
       = Ok (count + count', size + size')
    /\ 0 <= count /\ 0 <= size /\ 0 <= count' /\ 0 <= size'.
Proof.
  intros Hwf.
  exists (Z.of_nat (length (photo_paths fs directories extensions))),
         (total_bytes fs (photo_paths fs directories extensions)),
         (Z.of_nat (length (photo_paths fs more extensions))),
         (total_bytes fs (photo_paths fs more extensions)).
  rewrite !get_files_info_wf by exact Hwf.
  split; [reflexivity |]. split; [reflexivity |]. split.
  - rewrite photo_paths_app, length_app, total_bytes_app, Nat2Z.inj_add. reflexivity.
  - repeat split; try apply total_bytes_nonneg; lia.
Qed.

Lemma get_files_info_app_witness :
  wf dated_fs = true
  /\ exists count size count' size',
      get_files_info dated_fs [["card"]] [".jpg"] = Ok (count, size)
      /\ get_files_info dated_fs [["card"; "DCIM"; "101CANON"]] [".jpg"] = Ok (count', size')
      /\ get_files_info dated_fs ([["card"]] ++ [["card"; "DCIM"; "101CANON"]]) [".jpg"]
         = Ok (count + count', size + size')
      /\ 0 <= count /\ 0 <= size /\ 0 <= count' /\ 0 <= size'.
Proof.
  split; [reflexivity |].
  exact (get_files_info_app dated_fs [["card"]] [["card"; "DCIM"; "101CANON"]] [".jpg"]
           eq_refl).
Defined.

(** A directory and one of its subdirectories listed together: the photo
    of the subdirectory is counted twice. *)
Example get_files_info_counts_twice :
  get_files_info dated_fs [["card"]] [".jpg"] = Ok (3, 12)
  /\ get_files_info dated_fs [["card"]; ["card"; "DCIM"; "101CANON"]] [".jpg"] = Ok (4, 18).
Proof. split; reflexivity. Qed.

(** X13: on a well-formed tree neither the inventory nor the verifier
    depends on the order in which the source directories are listed. *)
Theorem get_files_info_order (fs : node) (directories directories' : list path)
  (dest_dir : path) (extensions : list string) :
  wf fs = true ->
  Permutation directories directories' ->
  get_files_info fs directories extensions = get_files_info fs directories' extensions
  /\ verify_copy fs directories dest_dir extensions
     = verify_copy fs directories' dest_dir extensions.
Proof.
  intros Hwf Hperm.
  assert (E : get_files_info fs directories extensions
              = get_files_info fs directories' extensions).
  { rewrite !get_files_info_wf by exact Hwf.
    pose proof (photo_paths_perm fs _ _ extensions Hperm) as Hp.
    now rewrite (Permutation_length Hp), (total_bytes_perm fs _ _ Hp). }
  split; [exact E |]. unfold verify_copy. now rewrite E.
Qed.

Lemma get_files_info_order_witness :
  wf dated_fs = true
  /\ Permutation [["card"; "DCIM"; "100CANON"]; ["card"; "DCIM"; "101CANON"]]
                 [["card"; "DCIM"; "101CANON"]; ["card"; "DCIM"; "100CANON"]]
  /\ get_files_info dated_fs
       [["card"; "DCIM"; "100CANON"]; ["card"; "DCIM"; "101CANON"]] [".jpg"]
     = get_files_info dated_fs
         [["card"; "DCIM"; "101CANON"]; ["card"; "DCIM"; "100CANON"]] [".jpg"]
  /\ verify_copy dated_fs
       [["card"; "DCIM"; "100CANON"]; ["card"; "DCIM"; "101CANON"]] ["photos"] [".jpg"]
     = verify_copy dated_fs
         [["card"; "DCIM"; "101CANON"]; ["card"; "DCIM"; "100CANON"]] ["photos"] [".jpg"].
Proof.
  assert (Hperm : Permutation
                    [["card"; "DCIM"; "100CANON"]; ["card"; "DCIM"; "101CANON"]]
                    [["card"; "DCIM"; "101CANON"]; ["card"; "DCIM"; "100CANON"]])
    by apply perm_swap.
  split; [reflexivity |]. split; [exact Hperm |].
  exact (get_files_info_order dated_fs _ _ ["photos"] [".jpg"] eq_refl Hperm).
Defined.

Lemma get_earliest_photo_date_wf (fromtimestamp : Z -> result datetime) (fs : node)
  (photo_dirs : list path) (extensions : list string) :
  wf fs = true ->
  get_earliest_photo_date fromtimestamp fs photo_dirs extensions
  = let* dates := dates_of fromtimestamp fs (photo_paths fs photo_dirs extensions) in
    match earliest_of dates None with
    | None => Raise (FileNotFoundError (NoPhotos (map Py.lower extensions)))
    | Some earliest => Ok (strftime_Ymd earliest)
    end.
Proof. exact (get_earliest_photo_date_dates fromtimestamp fs photo_dirs extensions). Qed.

Lemma is_earliest_unique (m m' : datetime) (dates dates' : list datetime) :
  Permutation dates dates' -> is_earliest m dates -> is_earliest m' dates' -> m = m'.
Proof.
  intros Hperm [Hin Hmin] [Hin' Hmin']. apply datetime_ltb_total.
  - apply Hmin'. now apply (Permutation_in _ Hperm).
  - apply Hmin. now apply (Permutation_in _ (Permutation_sym Hperm)).
Qed.

Lemma earliest_of_perm (dates dates' : list datetime) :
  Permutation dates dates' -> earliest_of dates None = earliest_of dates' None.
Proof.
  intros Hperm. destruct dates as [| d dates].
  - apply Permutation_nil in Hperm. now subst.
  - destruct dates' as [| d' dates'];
      [apply Permutation_sym, Permutation_nil in Hperm; discriminate |].
    destruct (earliest_of_None (d :: dates)) as [m [-> Hm]]; [discriminate |].
    destruct (earliest_of_None (d' :: dates')) as [m' [-> Hm']]; [discriminate |].
    f_equal. now apply (is_earliest_unique m m' _ _ Hperm).
Qed.

(** With a photo whose time converts, the outcome is a date or what a
    conversion raised, never the error that there is no photo. *)
Lemma get_earliest_photo_date_raises (fromtimestamp : Z -> result datetime) (fs : node)
  (photo_dirs photo_dirs' : list path) (extensions : list string) (e : exn) :
  wf fs = true ->
  Permutation photo_dirs photo_dirs' ->
  get_earliest_photo_date fromtimestamp fs photo_dirs extensions = Raise e ->
  exists e', get_earliest_photo_date fromtimestamp fs photo_dirs' extensions = Raise e'.
Proof.
  intros Hwf Hperm. rewrite !get_earliest_photo_date_wf by exact Hwf.
  pose proof (photo_paths_perm fs _ _ extensions Hperm) as Hp.
  unfold dates_of.
  destruct (mapM _ (photo_paths fs photo_dirs extensions)) as [dates | e0] eqn:Ed;
    cbn [bind].
  - destruct (photo_paths fs photo_dirs extensions) as [| p ps] eqn:Eps.
    + apply Permutation_nil in Hp. rewrite Hp. cbn. intros _. eauto.
    + cbn [mapM] in Ed.
      destruct (fromtimestamp (file_mtime fs p)) as [d |]; cbn [bind] in Ed;
        [| discriminate].
      destruct (mapM _ ps) as [ds |]; cbn [bind] in Ed; [| discriminate].
      injection Ed as <-.
      destruct (earliest_of_None (d :: ds)) as [m [-> _]]; discriminate.
  - intros _. destruct (mapM_Raise_perm _ _ _ e0 Hp Ed) as [e' ->]. now exists e'.
Qed.

Lemma get_earliest_photo_date_perm (fromtimestamp : Z -> result datetime) (fs : node)
  (photo_dirs photo_dirs' : list path) (extensions : list string) :
  wf fs = true ->
  Permutation photo_dirs photo_dirs' ->
  (forall p, In p (photo_paths fs photo_dirs extensions) ->
             exists d, fromtimestamp (file_mtime fs p) = Ok d) ->
  get_earliest_photo_date fromtimestamp fs photo_dirs extensions
  = get_earliest_photo_date fromtimestamp fs photo_dirs' extensions.
Proof.
  intros Hwf Hperm Hall. rewrite !get_earliest_photo_date_wf by exact Hwf.
  pose proof (photo_paths_perm fs _ _ extensions Hperm) as Hp.
  set (local := fun p => fromtimestamp (file_mtime fs p)) in *.
  set (date := fun p => match local p with
                        | Ok d => d
                        | Raise _ => new_year_999
                        end).
  assert (Hdate : forall p, In p (photo_paths fs photo_dirs extensions) ->
                            local p = Ok (date p)).
  { intros p Hin. unfold date, local. destruct (Hall p Hin) as [d ->]. reflexivity. }
  unfold dates_of. fold local.
  rewrite (mapM_Ok_map local date _ Hdate).
  rewrite (mapM_Ok_map local date (photo_paths fs photo_dirs' extensions)).
  - cbn [bind]. rewrite (earliest_of_perm _ (map date (photo_paths fs photo_dirs'
                                                         extensions))); [reflexivity |].
    now apply Permutation_map.
  - intros p Hin. apply Hdate. now apply (Permutation_in _ (Permutation_sym Hp)).
Qed.

(** X14: on a well-formed tree the outcome of [get_earliest_photo_date]
    does not depend on the order in which the photo directories are
    listed.  With a [datetime.fromtimestamp] that always returns, the
    date, or the error that there is no photo, is the same for both
    orders; so it is with one that may raise, when it returns for every
    selected file; and in any case the call raises for one order
    exactly when it raises for the other. *)
Theorem get_earliest_photo_date_order (fromtimestamp : Z -> result datetime) (fs : node)
  (photo_dirs photo_dirs' : list path) (extensions : list string) :
  wf fs = true ->
  Permutation photo_dirs photo_dirs' ->
  (forall local_time : Z -> datetime,
      get_earliest_photo_date (fun t => Ok (local_time t)) fs photo_dirs extensions
      = get_earliest_photo_date (fun t => Ok (local_time t)) fs photo_dirs' extensions)
  /\ ((forall p, In p (photo_paths fs photo_dirs extensions) ->
                 exists d, fromtimestamp (file_mtime fs p) = Ok d) ->
      get_earliest_photo_date fromtimestamp fs photo_dirs extensions
      = get_earliest_photo_date fromtimestamp fs photo_dirs' extensions)
  /\ ((exists e, get_earliest_photo_date fromtimestamp fs photo_dirs extensions = Raise e)
      <-> (exists e, get_earliest_photo_date fromtimestamp fs photo_dirs' extensions
                     = Raise e)).
Proof.
  intros Hwf Hperm. split; [| split].
  - intros local_time. apply get_earliest_photo_date_perm; auto.
    intros p _. now exists (local_time (file_mtime fs p)).
  - now apply get_earliest_photo_date_perm.
  - split; intros [e He].
    + now apply (get_earliest_photo_date_raises _ fs photo_dirs photo_dirs' _ e).
    + apply (get_earliest_photo_date_raises _ fs photo_dirs' photo_dirs _ e); auto.
      now apply Permutation_sym.
Qed.

Lemma get_earliest_photo_date_order_witness :
  wf dated_fs = true
  /\ Permutation [["card"; "DCIM"; "100CANON"]; ["card"; "DCIM"; "101CANON"]]
                 [["card"; "DCIM"; "101CANON"]; ["card"; "DCIM"; "100CANON"]]
  /\ (forall p,
        In p (photo_paths dated_fs
                [["card"; "DCIM"; "100CANON"]; ["card"; "DCIM"; "101CANON"]] [".jpg"]) ->
        exists d, fromtimestamp_utc (file_mtime dated_fs p) = Ok d)
  /\ get_earliest_photo_date fromtimestamp_utc dated_fs
       [["card"; "DCIM"; "100CANON"]; ["card"; "DCIM"; "101CANON"]] [".jpg"]
     = get_earliest_photo_date fromtimestamp_utc dated_fs
         [["card"; "DCIM"; "101CANON"]; ["card"; "DCIM"; "100CANON"]] [".jpg"].
Proof.
  assert (Hperm : Permutation
                    [["card"; "DCIM"; "100CANON"]; ["card"; "DCIM"; "101CANON"]]
                    [["card"; "DCIM"; "101CANON"]; ["card"; "DCIM"; "100CANON"]])
    by apply perm_swap.
  assert (Hall : forall p,
             In p (photo_paths dated_fs
                     [["card"; "DCIM"; "100CANON"]; ["card"; "DCIM"; "101CANON"]]
                     [".jpg"]) ->
             exists d, fromtimestamp_utc (file_mtime dated_fs p) = Ok d).
  { intros p Hin. vm_compute in Hin.
    destruct Hin as [<- | [<- | [<- | []]]];
      [exists (civil_at 0 1704450645000000) | exists (civil_at 0 1704186000500000)
      | exists (civil_at 0 1704790800000000)]; vm_compute; reflexivity. }
  split; [reflexivity |]. split; [exact Hperm |]. split; [exact Hall |].
  exact (proj1 (proj2 (get_earliest_photo_date_order fromtimestamp_utc dated_fs _ _
                         [".jpg"] eq_refl Hperm)) Hall).
Defined.

(** ** Copy engine: what it touches, what it prints *)

Lemma shutil_copy2_frame (fs fs' : node) (src dst q : path) :
  shutil_copy2 fs src dst = Ok fs' -> apart q dst -> lookup fs' q = lookup fs q.
Proof.
  unfold shutil_copy2. intros H Hq.
  destruct (bool_decide _ && os_path_exists fs src); [discriminate |].
  destruct (lookup fs src) as [[data mtime | es] |]; try discriminate.
  destruct (os_path_isdir fs dst).
  - destruct (apart_snoc q dst (os_path_basename src) Hq) as [H1 H2].
    now apply (write_file_frame _ _ _ _ _ _ H).
  - destruct Hq as [H1 H2]. now apply (write_file_frame _ _ _ _ _ _ H).
Qed.

Lemma copy_loop_frame (files : list path) (dest_dir q : path) :
  apart q dest_dir ->
  forall fs, lookup (fst (copy_loop fs files dest_dir)) q = lookup fs q.
Proof.
  intros Hq. induction files as [| file files IH]; intros fs; cbn [copy_loop]; [reflexivity |].
  destruct (shutil_copy2 fs file dest_dir) as [fs' | e] eqn:E.
  - rewrite IH. now apply (shutil_copy2_frame _ _ _ _ _ E).
  - specialize (IH fs). destruct (copy_loop fs files dest_dir). exact IH.
Qed.

(** X15: whatever the copies do, [copy_with_progress] changes nothing at
    a path that neither leads to the destination nor lies below it; the
    files of a card that does not hold the destination are read, never
    written. *)
Theorem copy_with_progress_frame (fs : node) (source_dirs : list path) (dest_dir : path)
  (extensions : list string) (q : path) :
  apart q dest_dir ->
  lookup (fst (fst (copy_with_progress fs source_dirs dest_dir extensions))) q
  = lookup fs q.
Proof.
  intros Hq. rewrite copy_with_progress_unfold.
  destruct (all_files fs source_dirs extensions); [reflexivity |].
  cbn [fst]. now apply copy_loop_frame.
Qed.

Lemma copy_with_progress_frame_witness :
  apart ["card"; "b.jpg"] ["out"]
  /\ lookup (fst (fst (copy_with_progress blocked_fs [["card"]] ["out"] [".jpg"])))
            ["card"; "b.jpg"]
     = lookup blocked_fs ["card"; "b.jpg"].
Proof.
  assert (H : apart ["card"; "b.jpg"] ["out"]).
  { split; intros [k Hk]; discriminate. }
  split; [exact H |].
  exact (copy_with_progress_frame blocked_fs [["card"]] ["out"] [".jpg"] _ H).
Defined.

Lemma copy_loop_lines (files : list path) (dest_dir : path) :
  forall fs,
    (forall l, In l (snd (copy_loop fs files dest_dir)) ->
               exists file e, l = CopyFailed file e /\ In file files)
    /\ (length (snd (copy_loop fs files dest_dir)) <= length files)%nat.
Proof.
  induction files as [| file files IH]; intros fs; cbn [copy_loop].
  - split; [intros l [] | reflexivity].
  - destruct (shutil_copy2 fs file dest_dir) as [fs' | e].
    + destruct (IH fs') as [Hl Hn]. split.
      * intros l Hin. destruct (Hl l Hin) as [f [e [-> Hf]]]. exists f, e. split; auto.
        now right.
      * simpl. lia.
    + destruct (IH fs) as [Hl Hn]. destruct (copy_loop fs files dest_dir) as [fs'' out].
      cbn [snd] in *. split.
      * intros l [<- | Hin].
        -- exists file, e. split; [reflexivity | now left].
        -- destruct (Hl l Hin) as [f [e' [-> Hf]]]. exists f, e'. split; auto. now right.
      * simpl. lia.
Qed.

(** X16: when [copy_with_progress] returns true, every line it printed
    reports a failed copy of one of the files it listed, and there are
    no more lines than files; when it returns false it printed the one
    line that there is nothing to copy and changed nothing. *)
Theorem copy_with_progress_lines (fs : node) (source_dirs : list path) (dest_dir : path)
  (extensions : list string) :
  let r := copy_with_progress fs source_dirs dest_dir extensions in
  (snd r = true ->
   (forall l, In l (snd (fst r)) ->
              exists file e,
                l = CopyFailed file e /\ In file (all_files fs source_dirs extensions))
   /\ (length (snd (fst r)) <= length (all_files fs source_dirs extensions))%nat)
  /\ (snd r = false -> r = (fs, [NoFilesToCopy], false)).
Proof.
  cbv zeta. rewrite copy_with_progress_unfold.
  destruct (all_files fs source_dirs extensions) as [| f fl]; cbn [fst snd].
  - split; [discriminate | reflexivity].
  - split; [| discriminate]. intros _. apply copy_loop_lines.
Qed.

Lemma copy_loop_same_file (fs : node) (dir : path) (files : list path) :
  is_dir_at fs dir ->
  (forall p, In p files -> is_file_at fs p /\ exists name, p = os_path_join dir name) ->
  copy_loop fs files dir = (fs, map same_file_line files).
Proof.
  intros [es Hdir]. induction files as [| p files IH]; intros Hfiles; [reflexivity |].
  destruct (Hfiles p ltac:(now left)) as [[data [mtime Hp]] [name ->]].
  cbn [copy_loop map]. unfold shutil_copy2, os_path_isdir, os_path_exists.
  rewrite Hdir, basename_join, Hp, bool_decide_eq_true_2 by reflexivity.
  cbn [andb]. rewrite IH by (intros; apply Hfiles; now right). reflexivity.
Qed.

(** X17: copying a directory that holds only files onto itself: every
    copy raises [SameFileError], which is caught and printed; the tree
    is left as it was and the result is still true when there was a
    photo. *)
Theorem copy_with_progress_onto_itself (fs : node) (dir : path)
  (es : list (string * node)) (extensions : list string) :
  wf fs = true ->
  lookup fs dir = Some (Dir es) ->
  (forall e, In e es -> is_dir (snd e) = false) ->
  copy_with_progress fs [dir] dir extensions
  = match all_files fs [dir] extensions with
    | [] => (fs, [NoFilesToCopy], false)
    | _ :: _ => (fs, map same_file_line (all_files fs [dir] extensions), true)
    end.
Proof.
  intros Hwf Hdir Hflat. rewrite copy_with_progress_unfold.
  destruct (all_files fs [dir] extensions) as [| f fl] eqn:E; [reflexivity |].
  rewrite (copy_loop_same_file fs dir (f :: fl)); [reflexivity | now exists es |].
  intros p Hp. rewrite <- E, all_files_photo_paths in Hp. split.
  - now apply (photo_paths_file fs [dir] extensions).
  - apply photo_paths_inv in Hp
      as (directory & root & ds & files & file & [<- | []] & Hw & _ & _ & ->).
    unfold os_walk in Hw. rewrite Hdir, (walk_node_files _ _ Hflat) in Hw.
    destruct Hw as [[= <- _ _] | []]. now exists file.
Qed.

Lemma copy_with_progress_onto_itself_witness :
  wf flat_fs = true
  /\ lookup flat_fs ["photos"] = Some (Dir [("a.jpg", File "a" 1); ("b.jpg", File "bb" 2)])
  /\ copy_with_progress flat_fs [["photos"]] ["photos"] [".jpg"]
     = (flat_fs,
        [CopyFailed ["photos"; "a.jpg"] SameFileError;
         CopyFailed ["photos"; "b.jpg"] SameFileError], true).
Proof.
  split; [reflexivity |]. split; [reflexivity |].
  apply (copy_with_progress_onto_itself flat_fs ["photos"]
           [("a.jpg", File "a" 1); ("b.jpg", File "bb" 2)] [".jpg"]); try reflexivity.
  intros e [<- | [<- | []]]; reflexivity.
Defined.

(** ** Copy engine: a destination that already holds files *)

Lemma in_put_entry (c : string) (new : node) (es : list (string * node))
  (e : string * node) :
  In e (put_entry c new es) -> snd e = new \/ In e es.
Proof.
  unfold put_entry. destruct (entry c es).
  - induction es as [| [c' m] es IH]; simpl; [tauto |].
    destruct (String.eqb c c'); simpl.
    + intros [<- | H]; [now left | right; now right].
    + intros [<- | H]; [right; now left |]. destruct (IH H); [now left | right; now right].
  - intros H. apply in_app_or in H as [H | [<- | []]]; [now right | now left].
Qed.

Lemma walk_node_under (n : node) :
  forall root r ds fl, In (r, ds, fl) (walk_node root n) -> root `prefix_of` r.
Proof.
  induction n as [data mtime | es IH] using node_nested_ind; intros root r ds fl; simpl.
  - tauto.
  - intros [[= <- _ _] | Hin]; [reflexivity |].
    apply in_flat_map in Hin as [[c ch] [Hc Hin]]. simpl in Hin.
    rewrite Forall_forall in IH.
    specialize (IH (c, ch) ltac:(now apply list_elem_of_In) _ _ _ _ Hin).
    unfold os_path_join in IH. destruct IH as [k ->]. exists (c :: k).
    now rewrite <- app_assoc.
Qed.

Lemma photo_paths_under (fs : node) (directories : list path) (extensions : list string)
  (p : path) :
  In p (photo_paths fs directories extensions) ->
  exists directory, In directory directories /\ directory `prefix_of` p.
Proof.
  intros Hp. apply photo_paths_inv in Hp
    as (directory & root & ds & files & file & Hd & Hw & _ & _ & ->).
  exists directory. split; [exact Hd |]. unfold os_walk in Hw.
  destruct (lookup fs directory); [| destruct Hw].
  apply walk_node_under in Hw. unfold os_path_join. now apply prefix_app_r.
Qed.

Lemma photo_apart (fs : node) (directories : list path) (dest : path)
  (extensions : list string) (p : path) :
  wf fs = true ->
  is_dir_at fs dest ->
  (forall d, In d directories -> apart d dest) ->
  In p (photo_paths fs directories extensions) ->
  apart p dest.
Proof.
  intros Hwf [es Hdest] Hsrc Hp.
  destruct (photo_paths_file fs _ _ p Hwf Hp) as [data [mtime Hfile]].
  destruct (photo_paths_under _ _ _ _ Hp) as [d [Hd Hdp]].
  destruct (Hsrc d Hd) as [H1 H2]. split.
  - intros [k ->]. rewrite lookup_app, Hfile in Hdest. now destruct k.
  - intros Hdest_p. destruct (prefix_weak_total _ _ _ Hdp Hdest_p); contradiction.
Qed.

(** The copy loop into a directory of files: no copy fails, a file of
    the same name is replaced, the other files stay. *)
Lemma copy_loop_into (fs0 : node) (dest : path) (ps : list path) :
  forall (fs : node) (es : list (string * node)),
    lookup fs dest = Some (Dir es) ->
    (forall e, In e es -> is_dir (snd e) = false) ->
    (forall q, apart q dest -> lookup fs q = lookup fs0 q) ->
    (forall p, In p ps -> is_file_at fs0 p /\ apart p dest) ->
    NoDup (map os_path_basename ps) ->
    exists fs' es',
      copy_loop fs ps dest = (fs', [])
      /\ lookup fs' dest = Some (Dir es')
      /\ (forall p, In p ps -> entry (os_path_basename p) es' = lookup fs0 p)
      /\ (forall c, ~ In c (map os_path_basename ps) -> entry c es' = entry c es)
      /\ (forall q, apart q dest -> lookup fs' q = lookup fs0 q).
Proof.
  induction ps as [| p ps IH]; intros fs es Hdest Hflat Hframe Hps Hnd.
  - exists fs, es. repeat split; auto. intros p [].
  - destruct (Hps p ltac:(now left)) as [[data [mtime Hp]] Hap].
    set (name := os_path_basename p).
    apply NoDup_cons in Hnd as [Hfresh Hnd].
    destruct (write_file_into fs dest name data mtime es Hdest) as [fs1 [Hw Hl]].
    { intros es' E. apply entry_In, Hflat in E. discriminate. }
    assert (Hcopy : shutil_copy2 fs p dest = Ok fs1).
    { unfold shutil_copy2, os_path_isdir. rewrite Hdest.
      rewrite bool_decide_eq_false_2.
      - cbn [andb]. rewrite (Hframe p Hap), Hp. exact Hw.
      - intros E. destruct Hap as [_ H]. apply H.
        exists [os_path_basename p]. exact E. }
    destruct (IH fs1 (put_entry name (File data mtime) es))
      as (fs' & es' & Hloop & Hl' & Hnew & Hold & Hframe').
    + exact Hl.
    + intros e He. apply in_put_entry in He as [-> | He]; [reflexivity | now apply Hflat].
    + intros q Hq. rewrite <- (Hframe q Hq).
      destruct (apart_snoc q dest name Hq) as [H1 H2].
      now apply (write_file_frame _ _ _ _ _ _ Hw).
    + intros q Hq. apply Hps. now right.
    + exact Hnd.
    + exists fs', es'. cbn [copy_loop]. rewrite Hcopy.
      split; [exact Hloop |]. split; [exact Hl' |]. split; [| split; [| exact Hframe']].
      * intros q [<- | Hq]; [| now apply Hnew].
        rewrite Hold by (intros H; apply Hfresh; now apply list_elem_of_In).
        fold name. now rewrite entry_put_eq, Hp.
      * intros c Hc. rewrite Hold by (intros H; apply Hc; now right).
        apply entry_put_ne. intros ->. apply Hc. now left.
Qed.

(** X18: a destination directory that holds only files, apart from the
    source directories, and selected files with pairwise distinct names:
    no copy fails; afterwards the destination holds under the name of
    every selected file a file with its content and modification time,
    a file that was there under such a name having been replaced without
    a line being printed, and every other entry of the destination is as
    it was. *)
Theorem copy_with_progress_overwrites (fs : node) (source_dirs : list path)
  (dest_dir : path) (extensions : list string) (es : list (string * node)) :
  wf fs = true ->
  lookup fs dest_dir = Some (Dir es) ->
  (forall e, In e es -> is_dir (snd e) = false) ->
  (forall d, In d source_dirs -> apart d dest_dir) ->
  NoDup (map os_path_basename (all_files fs source_dirs extensions)) ->
  let r := copy_with_progress fs source_dirs dest_dir extensions in
  (forall file e, ~ In (CopyFailed file e) (snd (fst r)))
  /\ (forall p, In p (all_files fs source_dirs extensions) ->
                lookup (fst (fst r)) (os_path_join dest_dir (os_path_basename p))
                = lookup fs p)
  /\ (forall c, ~ In c (map os_path_basename (all_files fs source_dirs extensions)) ->
                lookup (fst (fst r)) (os_path_join dest_dir c)
                = lookup fs (os_path_join dest_dir c)).
Proof.
  intros Hwf Hdest Hflat Hsrc Hnd. cbv zeta. rewrite copy_with_progress_unfold.
  destruct (all_files fs source_dirs extensions) as [| f fl] eqn:E; cbn [fst snd].
  - split; [intros file e [H | []]; discriminate |]. split; [intros p [] | reflexivity].
  - destruct (copy_loop_into fs dest_dir (f :: fl) fs es)
      as (fs' & es' & Hloop & Hl' & Hnew & Hold & _); auto.
    { intros p Hp. rewrite <- E, all_files_photo_paths in Hp. split.
      - now apply (photo_paths_file fs source_dirs extensions).
      - apply (photo_apart fs source_dirs dest_dir extensions); auto. now exists es. }
    rewrite Hloop. cbn [fst snd]. split; [intros file e [] |]. split.
    + intros p Hp. unfold os_path_join. rewrite lookup_app, Hl'. simpl.
      rewrite (Hnew p Hp).
      assert (Hfile : is_file_at fs p).
      { apply (photo_paths_file fs source_dirs extensions); [exact Hwf |].
        now rewrite <- all_files_photo_paths, E. }
      destruct Hfile as [data [mtime ->]]. reflexivity.
    + intros c Hc. unfold os_path_join. rewrite !lookup_app, Hl', Hdest. simpl.
      now rewrite (Hold c Hc).
Qed.

Lemma copy_with_progress_overwrites_witness :
  let fs' := fst (fst (copy_with_progress flat_fs [["photos"]] ["backup"] [".jpg"])) in
  wf flat_fs = true
  /\ (forall d, In d [["photos"]] -> apart d ["backup"])
  /\ NoDup (map os_path_basename (all_files flat_fs [["photos"]] [".jpg"]))
  /\ lookup flat_fs ["backup"; "b.jpg"] = Some (File "old" 0)
  /\ lookup fs' (os_path_join ["backup"] (os_path_basename ["photos"; "b.jpg"]))
     = lookup flat_fs ["photos"; "b.jpg"]
  /\ lookup fs' (os_path_join ["backup"] "keep.txt")
     = lookup flat_fs (os_path_join ["backup"] "keep.txt").
Proof.
  cbv zeta.
  assert (Hsrc : forall d, In d [["photos"]] -> apart d ["backup"]).
  { intros d [<- | []]. split; intros [k Hk]; discriminate. }
  assert (Hnd : NoDup (map os_path_basename (all_files flat_fs [["photos"]] [".jpg"]))).
  { apply (bool_decide_eq_true_1 _). reflexivity. }
  pose proof (copy_with_progress_overwrites flat_fs [["photos"]] ["backup"] [".jpg"]
                [("b.jpg", File "old" 0); ("keep.txt", File "k" 9)] eq_refl eq_refl)
    as H.
  destruct H as (_ & Hnew & Hold); auto.
  { intros e [<- | [<- | []]]; reflexivity. }
  split; [reflexivity |]. split; [exact Hsrc |]. split; [exact Hnd |].
  split; [reflexivity |]. split.
  - apply Hnew. right. now left.
  - apply Hold. intros [H | [H | []]]; discriminate.
Defined.

(** ** Copy engine and date deriver together *)

Lemma copies_lookup (fs fs' : node) (dest : path) (ps : list path) :
  lookup fs' dest = Some (Dir (copies fs ps)) ->
  (forall p, In p ps -> is_file_at fs p) ->
  NoDup (map os_path_basename ps) ->
  forall p, In p ps -> lookup fs' (os_path_join dest (os_path_basename p)) = lookup fs p.
Proof.
  intros Hdest Hfiles Hnd p Hp. destruct (Hfiles p Hp) as [data [mtime E]].
  unfold os_path_join. rewrite lookup_app, Hdest. simpl.
  rewrite (entry_NoDup _ (file_at fs p)).
  - unfold file_at. now rewrite E.
  - now rewrite map_fst_copies.
  - apply (in_map (fun p => (os_path_basename p, file_at fs p))). exact Hp.
Qed.

Lemma copies_photo_paths (fs fs' : node) (dest : path) (ps : list path)
  (extensions : list string) :
  lookup fs' dest = Some (Dir (copies fs ps)) ->
  (forall p, In p ps -> is_file_at fs p) ->
  (forall p, In p ps -> selected extensions (os_path_basename p) = true) ->
  photo_paths fs' [dest] extensions
  = map (fun p => os_path_join dest (os_path_basename p)) ps.
Proof.
  intros Hdest Hfiles Hsel. unfold photo_paths, os_walk. cbn [flat_map]. rewrite Hdest.
  rewrite walk_node_files by now apply copies_are_files.
  cbn [flat_map]. rewrite !app_nil_r, map_fst_copies.
  rewrite filter_all, map_map; [reflexivity |].
  intros name Hname. apply in_map_iff in Hname as [p [<- Hp]]. now apply Hsel.
Qed.

(** X19: the copy keeps the modification times, so after a copy into an
    empty directory of selected files with pairwise distinct names, the
    date deriver run on the destination gives what it gave on the
    source directories before the copy: the same day, or the same error
    when there was no photo. *)
Theorem copy_keeps_earliest_date (fromtimestamp : Z -> result datetime) (fs : node)
  (source_dirs : list path) (dest_dir : path) (extensions : list string) :
  wf fs = true ->
  lookup fs dest_dir = Some (Dir []) ->
  NoDup (map os_path_basename (all_files fs source_dirs extensions)) ->
  get_earliest_photo_date fromtimestamp
    (fst (fst (copy_with_progress fs source_dirs dest_dir extensions)))
    [dest_dir] extensions
  = get_earliest_photo_date fromtimestamp fs source_dirs extensions.
Proof.
  intros Hwf Hdest Hnd.
  destruct (copy_with_progress_flat fs source_dirs dest_dir extensions Hwf Hdest Hnd)
    as (fs' & out & ok & -> & _ & Hl & _).
  cbn [fst]. rewrite all_files_photo_paths in *.
  set (ps := photo_paths fs source_dirs extensions) in *.
  assert (Hfiles : forall p, In p ps -> is_file_at fs p)
    by (intros p; now apply photo_paths_file).
  pose proof (copies_lookup fs fs' dest_dir ps Hl Hfiles Hnd) as Hat.
  rewrite (get_earliest_photo_date_wf fromtimestamp fs) by exact Hwf. fold ps.
  rewrite get_earliest_photo_date_flat.
  rewrite (copies_photo_paths fs fs' dest_dir ps); auto;
    [| intros p; apply photo_paths_selected].
  rewrite foldM_keep_earliest.
  - unfold dates_of. rewrite mapM_map.
    rewrite (mapM_ext_in _ (fun p => fromtimestamp (file_mtime fs p)));
      [now destruct (mapM _ ps) |].
    intros p Hp. unfold file_mtime. now rewrite Hat.
  - intros q Hq. apply in_map_iff in Hq as [p [<- Hp]].
    destruct (Hfiles p Hp) as [data [mtime E]]. exists data, mtime. now rewrite Hat.
Qed.

Lemma copy_keeps_earliest_date_witness :
  wf dated_fs = true
  /\ lookup dated_fs ["photos"] = Some (Dir [])
  /\ NoDup (map os_path_basename (all_files dated_fs [["card"; "DCIM"]] [".jpg"]))
  /\ get_earliest_photo_date fromtimestamp_utc
       (fst (fst (copy_with_progress dated_fs [["card"; "DCIM"]] ["photos"] [".jpg"])))
       [["photos"]] [".jpg"]
     = get_earliest_photo_date fromtimestamp_utc dated_fs [["card"; "DCIM"]] [".jpg"].
Proof.
  assert (Hnd : NoDup (map os_path_basename
                         (all_files dated_fs [["card"; "DCIM"]] [".jpg"]))).
  { apply (bool_decide_eq_true_1 _). reflexivity. }
  split; [reflexivity |]. split; [reflexivity |]. split; [exact Hnd |].
  exact (copy_keeps_earliest_date fromtimestamp_utc dated_fs [["card"; "DCIM"]]
           ["photos"] [".jpg"] eq_refl eq_refl Hnd).
Defined.

(** ** Destination builder: what it keeps, when it fails *)

Lemma lookup_fresh_dirs_no_file (p q : path) (data : string) (mtime : Z) :
  lookup (fresh_dirs p) q <> Some (File data mtime).
Proof.
  revert q. induction p as [| c p IH]; intros [| c' q]; simpl; try discriminate.
  destruct (String.eqb c' c); [apply IH | discriminate].
Qed.

(** [os.makedirs] neither alters nor adds a regular file. *)
Lemma os_makedirs_files (n n' : node) (p q : path) (data : string) (mtime : Z) :
  os_makedirs n p = Ok n' ->
  lookup n' q = Some (File data mtime) <-> lookup n q = Some (File data mtime).
Proof.
  revert n n' q. induction p as [| c p IH]; intros n n' q.
  - destruct n as [| es]; simpl; [discriminate |]. now intros [= <-].
  - destruct n as [| es]; simpl; [discriminate |]. intros Hm.
    destruct q as [| c' q].
    + destruct (entry c es) as [ch |].
      * destruct (os_makedirs ch p); simpl in Hm; [| discriminate].
        injection Hm as <-. simpl. split; discriminate.
      * injection Hm as <-. simpl. split; discriminate.
    + destruct (entry c es) as [ch |] eqn:E.
      * destruct (os_makedirs ch p) as [ch' |] eqn:Em; simpl in Hm; [| discriminate].
        injection Hm as <-. simpl.
        destruct (String.eqb_spec c' c) as [-> | Hne].
        -- rewrite entry_replace_eq, E. apply (IH _ _ _ Em).
        -- now rewrite entry_replace_ne.
      * injection Hm as <-. simpl. rewrite entry_app.
        destruct (entry c' es) as [chq |] eqn:Eq; [reflexivity |]. simpl.
        destruct (String.eqb_spec c' c) as [-> | Hne].
        -- split; [| discriminate]. intros H. now apply lookup_fresh_dirs_no_file in H.
        -- split; discriminate.
Qed.

Lemma makedirs_each_files (fs : node) (dest_path : path) (folders : list path) (q : path)
  (data : string) (mtime : Z) :
  lookup (fst (makedirs_each fs dest_path folders)) q = Some (File data mtime)
  <-> lookup fs q = Some (File data mtime).
Proof.
  revert fs. induction folders as [| folder folders IH]; intros fs; simpl; [reflexivity |].
  destruct (os_makedirs fs (dest_path ++ folder)) as [fs1 |] eqn:Em; [| reflexivity].
  rewrite IH. apply (os_makedirs_files _ _ _ _ _ _ Em).
Qed.

Lemma makedirs_each_dirs (fs : node) (dest_path : path) (folders : list path) (q : path) :
  is_dir_at fs q -> is_dir_at (fst (makedirs_each fs dest_path folders)) q.
Proof.
  revert fs. induction folders as [| folder folders IH]; intros fs; simpl; [tauto |].
  destruct (os_makedirs fs (dest_path ++ folder)) as [fs1 |] eqn:Em; [| tauto].
  intros H. apply IH. now apply (os_makedirs_keeps_dirs _ _ _ _ Em).
Qed.

(** X20: whether it raises or not, [setup_destination] leaves every
    regular file as it was, creates no regular file, and every directory
    that existed is still a directory. *)
Theorem setup_destination_keeps (fs : node) (dest_path : path) (subfolders : list path)
  (q : path) :
  let fs' := fst (setup_destination fs dest_path subfolders) in
  (forall data mtime,
      lookup fs' q = Some (File data mtime) <-> lookup fs q = Some (File data mtime))
  /\ (is_dir_at fs q -> is_dir_at fs' q).
Proof.
  cbv zeta. unfold setup_destination.
  destruct (os_makedirs fs dest_path) as [fs1 |] eqn:Em; [| now split].
  split.
  - intros data mtime. rewrite makedirs_each_files.
    apply (os_makedirs_files _ _ _ _ _ _ Em).
  - intros H. apply makedirs_each_dirs. now apply (os_makedirs_keeps_dirs _ _ _ _ Em).
Qed.

Lemma blocked_cons (es : list (string * node)) (c : string) (p : path) :
  blocked (Dir es) (c :: p)
  <-> exists ch, entry c es = Some ch /\ blocked ch p.
Proof.
  split.
  - intros [q [[k Hk] [data [mtime Hq]]]]. destruct q as [| c' q]; [discriminate |].
    simpl in Hk. injection Hk as <- ->. simpl in Hq.
    destruct (entry c es) as [ch |]; [| discriminate].
    exists ch. split; [reflexivity |]. exists q. split; [now exists k | now exists data, mtime].
  - intros [ch [E [q [[k ->] [data [mtime Hq]]]]]]. exists (c :: q). split.
    + now exists k.
    + exists data, mtime. simpl. now rewrite E.
Qed.

Lemma os_makedirs_ok_iff (n : node) (p : path) :
  (exists n', os_makedirs n p = Ok n') <-> ~ blocked n p.
Proof.
  revert n. induction p as [| c p IH]; intros n.
  - destruct n as [data mtime | es]; simpl.
    + split; [intros [n' H]; discriminate |]. intros H. destruct H.
      exists []. split; [reflexivity | now exists data, mtime].
    + split; [| eauto]. intros _ [q [[k Hk] [data [mtime Hq]]]].
      destruct q; [discriminate | discriminate].
  - destruct n as [data mtime | es]; simpl.
    + split; [intros [n' H]; discriminate |]. intros H. destruct H.
      exists []. split; [apply prefix_nil | now exists data, mtime].
    + rewrite blocked_cons. destruct (entry c es) as [ch |] eqn:E.
      * destruct (IH ch) as [H1 H2]. split.
        -- intros [n' H] [ch' [[= <-] Hb]].
           destruct (os_makedirs ch p) as [ch'' |] eqn:Em; [| discriminate].
           apply H1; eauto.
        -- intros Hb. destruct H2 as [ch' ->]; [| simpl; eauto].
           intros Hb'. apply Hb. eauto.
      * split; [| eauto]. intros _ [ch [H _]]. discriminate.
Qed.

Lemma os_makedirs_blocked (n n' : node) (p target : path) :
  os_makedirs n p = Ok n' -> blocked n' target <-> blocked n target.
Proof.
  intros Hm. unfold blocked, is_file_at. split.
  - intros [q [Hq [data [mtime H]]]]. exists q. split; [exact Hq |].
    exists data, mtime. now apply (os_makedirs_files _ _ _ _ _ _ Hm).
  - intros [q [Hq [data [mtime H]]]]. exists q. split; [exact Hq |].
    exists data, mtime. now apply (os_makedirs_files _ _ _ _ _ _ Hm).
Qed.

Lemma makedirs_each_ok_iff (fs : node) (dest_path : path) (folders : list path) :
  snd (makedirs_each fs dest_path folders) = None
  <-> forall folder, In folder folders -> ~ blocked fs (dest_path ++ folder).
Proof.
  revert fs. induction folders as [| folder folders IH]; intros fs; simpl.
  - split; [intros _ f [] | reflexivity].
  - destruct (os_makedirs fs (dest_path ++ folder)) as [fs1 | e] eqn:Em.
    + rewrite IH. split.
      * intros H f [<- | Hf].
        -- apply os_makedirs_ok_iff. eauto.
        -- rewrite <- (os_makedirs_blocked _ _ _ _ Em). now apply H.
      * intros H f Hf. rewrite (os_makedirs_blocked _ _ _ _ Em). apply H. now right.
    + split; [discriminate |]. intros H. exfalso.
      destruct (proj2 (os_makedirs_ok_iff fs (dest_path ++ folder))
                  (H folder (or_introl eq_refl))) as [n' Hn'].
      congruence.
Qed.

Lemma os_makedirs_on_file (n : node) (p : path) :
  is_file_at n p -> os_makedirs n p = Raise FileExistsError.
Proof.
  revert n. induction p as [| c p IH]; intros n [data [mtime H]]; simpl in H.
  - injection H as ->. reflexivity.
  - destruct n as [| es]; [discriminate |]. simpl.
    destruct (entry c es) as [ch |]; [| discriminate].
    rewrite IH by now exists data, mtime. reflexivity.
Qed.

Lemma os_makedirs_below_file (n : node) (q : path) (c : string) (k : path) :
  is_file_at n q -> os_makedirs n (q ++ c :: k) = Raise NotADirectoryError.
Proof.
  revert n. induction q as [| c0 q IH]; intros n [data [mtime H]]; simpl in H.
  - injection H as ->. reflexivity.
  - destruct n as [| es]; [discriminate |]. simpl.
    destruct (entry c0 es) as [ch |]; [| discriminate].
    rewrite IH by now exists data, mtime. reflexivity.
Qed.

(** X21: [setup_destination] returns without raising exactly when no
    regular file lies at or on the way to the destination or one of the
    subfolders.  A regular file at the destination itself raises
    [FileExistsError], one on the way to it [NotADirectoryError], and in
    both cases nothing is created. *)
Theorem setup_destination_ok_iff (fs : node) (dest_path : path) (subfolders : list path) :
  (snd (setup_destination fs dest_path subfolders) = None
   <-> forall target, In target (targets dest_path subfolders) -> ~ blocked fs target)
  /\ (is_file_at fs dest_path ->
      setup_destination fs dest_path subfolders = (fs, Some FileExistsError))
  /\ (forall q c k,
        is_file_at fs q -> dest_path = q ++ c :: k ->
        setup_destination fs dest_path subfolders = (fs, Some NotADirectoryError)).
Proof.
  split; [| split].
  - unfold setup_destination, targets.
    destruct (os_makedirs fs dest_path) as [fs1 | e] eqn:Em.
    + rewrite makedirs_each_ok_iff. split.
      * intros H target [<- | Ht].
        -- apply os_makedirs_ok_iff. eauto.
        -- apply in_map_iff in Ht as [folder [<- Hf]].
           rewrite <- (os_makedirs_blocked _ _ _ _ Em). now apply H.
      * intros H folder Hf. rewrite (os_makedirs_blocked _ _ _ _ Em).
        apply H. right. now apply (in_map (fun folder => dest_path ++ folder)).
    + split; [discriminate |]. intros H. exfalso.
      destruct (proj2 (os_makedirs_ok_iff fs dest_path) (H dest_path (or_introl eq_refl)))
        as [n' Hn'].
      congruence.
  - intros H. unfold setup_destination. now rewrite os_makedirs_on_file.
  - intros q c k H ->. unfold setup_destination. now rewrite os_makedirs_below_file.
Qed.

Lemma setup_destination_ok_iff_witness :
  is_file_at photos_file_fs ["home"; "alice"; "Photos"]
  /\ setup_destination photos_file_fs ["home"; "alice"; "Photos"] (subfolders default_cfg)
     = (photos_file_fs, Some FileExistsError)
  /\ setup_destination photos_file_fs (["home"; "alice"; "Photos"] ++ "trip" :: [])
       (subfolders default_cfg)
     = (photos_file_fs, Some NotADirectoryError)
  /\ ((forall target,
          In target (targets ["home"; "alice"; "Pictures"] (subfolders default_cfg)) ->
          ~ blocked photos_file_fs target)
      -> snd (setup_destination photos_file_fs ["home"; "alice"; "Pictures"]
                (subfolders default_cfg)) = None).
Proof.
  assert (Hfile : is_file_at photos_file_fs ["home"; "alice"; "Photos"])
    by (now eexists _, _).
  split; [exact Hfile |]. split; [| split].
  - exact (proj1 (proj2 (setup_destination_ok_iff photos_file_fs
                           ["home"; "alice"; "Photos"] (subfolders default_cfg))) Hfile).
  - exact (proj2 (proj2 (setup_destination_ok_iff photos_file_fs
                           (["home"; "alice"; "Photos"] ++ "trip" :: [])
                           (subfolders default_cfg)))
             ["home"; "alice"; "Photos"] "trip" [] Hfile eq_refl).
  - exact (proj2 (proj1 (setup_destination_ok_iff photos_file_fs
                           ["home"; "alice"; "Pictures"] (subfolders default_cfg)))).
Defined.

Lemma setup_destination_keeps_witness :
  let fs' := fst (setup_destination photos_file_fs ["home"; "alice"; "Pictures"]
                    (subfolders default_cfg)) in
  is_dir_at photos_file_fs ["home"; "alice"]
  /\ is_dir_at fs' ["home"; "alice"]
  /\ (lookup fs' ["home"; "alice"; "notes.txt"] = Some (File "n" 4)
      <-> lookup photos_file_fs ["home"; "alice"; "notes.txt"] = Some (File "n" 4)).
Proof.
  cbv zeta.
  assert (Hdir : is_dir_at photos_file_fs ["home"; "alice"]) by (now eexists).
  pose proof (setup_destination_keeps photos_file_fs ["home"; "alice"; "Pictures"]
                (subfolders default_cfg)) as H.
  split; [exact Hdir |]. split.
  - apply (proj2 (H ["home"; "alice"])). exact Hdir.
  - apply (proj1 (H ["home"; "alice"; "notes.txt"])).
Defined.

(** ** The tree invariant is kept *)

Lemma map_fst_replace_entry (c : string) (new : node) (es : list (string * node)) :
  map fst (replace_entry c new es) = map fst es.
Proof.
  induction es as [| [c' m] es IH]; simpl; [reflexivity |].
  destruct (String.eqb c c'); simpl; [reflexivity | now rewrite IH].
Qed.

Lemma in_replace_entry (c : string) (new : node) (es : list (string * node))
  (e : string * node) :
  In e (replace_entry c new es) -> snd e = new \/ In e es.
Proof.
  induction es as [| [c' m] es IH]; simpl; [tauto |].
  destruct (String.eqb c c'); simpl.
  - intros [<- | H]; [now left | right; now right].
  - intros [<- | H]; [right; now left |]. destruct (IH H); [now left | right; now right].
Qed.

Lemma wf_replace_entry (c : string) (new : node) (es : list (string * node)) :
  wf (Dir es) = true -> wf new = true -> wf (Dir (replace_entry c new es)) = true.
Proof.
  rewrite !wf_Dir. intros [Hnd Hwf] Hnew. split.
  - now rewrite map_fst_replace_entry.
  - intros e He. apply in_replace_entry in He as [-> | He]; [exact Hnew | now apply Hwf].
Qed.

Lemma wf_append_entry (c : string) (new : node) (es : list (string * node)) :
  wf (Dir es) = true -> entry c es = None -> wf new = true ->
  wf (Dir (es ++ [(c, new)])) = true.
Proof.
  rewrite !wf_Dir. intros [Hnd Hwf] Hc Hnew. split.
  - rewrite map_app. simpl. apply NoDup_app. split; [exact Hnd |]. split.
    + intros x Hx Hx'. apply list_elem_of_In in Hx, Hx'. destruct Hx' as [<- | []].
      now apply entry_None in Hc.
    + apply NoDup_singleton.
  - intros e He. apply in_app_or in He as [He | [<- | []]]; [now apply Hwf | exact Hnew].
Qed.

Lemma wf_entry (c : string) (ch : node) (es : list (string * node)) :
  wf (Dir es) = true -> entry c es = Some ch -> wf ch = true.
Proof.
  intros Hwf E. apply wf_Dir in Hwf as [_ Hwf]. apply (Hwf (c, ch)). now apply entry_In.
Qed.

Lemma wf_fresh_dirs (p : path) : wf (fresh_dirs p) = true.
Proof.
  induction p as [| c p IH]; [reflexivity |].
  apply (wf_append_entry c (fresh_dirs p) []); [reflexivity | reflexivity | exact IH].
Qed.

Lemma os_makedirs_wf (n n' : node) (p : path) :
  wf n = true -> os_makedirs n p = Ok n' -> wf n' = true.
Proof.
  revert n n'. induction p as [| c p IH]; intros n n' Hwf.
  - destruct n; simpl; [discriminate |]. now intros [= <-].
  - destruct n as [| es]; simpl; [discriminate |].
    destruct (entry c es) as [ch |] eqn:E.
    + destruct (os_makedirs ch p) as [ch' |] eqn:Em; simpl; [| discriminate].
      intros [= <-]. apply wf_replace_entry; [exact Hwf |].
      apply (IH ch); [now apply (wf_entry c ch es) | exact Em].
    + intros [= <-]. apply wf_append_entry; [exact Hwf | exact E | apply wf_fresh_dirs].
Qed.

Lemma write_file_wf (n n' : node) (p : path) (data : string) (mtime : Z) :
  wf n = true -> write_file n p data mtime = Ok n' -> wf n' = true.
Proof.
  revert n n'. induction p as [| c p IH]; intros n n' Hwf.
  - destruct n; simpl; [| discriminate]. now intros [= <-].
  - destruct n as [| es]; simpl; [discriminate |].
    destruct (entry c es) as [ch |] eqn:E.
    + destruct (write_file ch p data mtime) as [ch' |] eqn:Ew; simpl; [| discriminate].
      intros [= <-]. apply wf_replace_entry; [exact Hwf |].
      apply (IH ch); [now apply (wf_entry c ch es) | exact Ew].
    + destruct p; [| discriminate]. intros [= <-].
      now apply wf_append_entry.
Qed.

Lemma shutil_copy2_wf (fs fs' : node) (src dst : path) :
  wf fs = true -> shutil_copy2 fs src dst = Ok fs' -> wf fs' = true.
Proof.
  unfold shutil_copy2. intros Hwf.
  destruct (bool_decide _ && os_path_exists fs src); [discriminate |].
  destruct (lookup fs src) as [[data mtime | es] |]; try discriminate.
  now apply write_file_wf.
Qed.

Lemma copy_loop_wf (files : list path) (dest_dir : path) :
  forall fs, wf fs = true -> wf (fst (copy_loop fs files dest_dir)) = true.
Proof.
  induction files as [| file files IH]; intros fs Hwf; cbn [copy_loop]; [exact Hwf |].
  destruct (shutil_copy2 fs file dest_dir) as [fs' | e] eqn:E.
  - apply IH. now apply (shutil_copy2_wf _ _ _ _ Hwf E).
  - specialize (IH fs Hwf). now destruct (copy_loop fs files dest_dir).
Qed.

Lemma makedirs_each_wf (dest_path : path) (folders : list path) :
  forall fs, wf fs = true -> wf (fst (makedirs_each fs dest_path folders)) = true.
Proof.
  induction folders as [| folder folders IH]; intros fs Hwf; simpl; [exact Hwf |].
  destruct (os_makedirs fs (dest_path ++ folder)) as [fs1 |] eqn:Em; [| exact Hwf].
  apply IH. now apply (os_makedirs_wf _ _ _ Hwf Em).
Qed.

Lemma setup_destination_wf (fs : node) (dest_path : path) (subfolders : list path) :
  wf fs = true -> wf (fst (setup_destination fs dest_path subfolders)) = true.
Proof.
  intros Hwf. unfold setup_destination.
  destruct (os_makedirs fs dest_path) as [fs1 |] eqn:Em; [| exact Hwf].
  apply makedirs_each_wf. now apply (os_makedirs_wf _ _ _ Hwf Em).
Qed.

Lemma copy_with_progress_wf (fs : node) (source_dirs : list path) (dest_dir : path)
  (extensions : list string) :
  wf fs = true ->
  wf (fst (fst (copy_with_progress fs source_dirs dest_dir extensions))) = true.
Proof.
  intros Hwf. rewrite copy_with_progress_unfold.
  destruct (all_files fs source_dirs extensions); [exact Hwf |].
  cbn [fst]. now apply copy_loop_wf.
Qed.

(** X22: the operations that write keep the tree well formed: after
    [load_config], [setup_destination] and [copy_with_progress], whether
    they raise, fail in part or succeed, no directory has two entries of
    one name; hence the verifier run after the copy always returns. *)
Theorem writers_keep_wf (fs : node) :
  wf fs = true ->
  (forall json_dump json_load now config_path,
      wf (fst (fst (load_config json_dump json_load fs now config_path))) = true)
  /\ (forall dest_path subfolders,
        wf (fst (setup_destination fs dest_path subfolders)) = true)
  /\ (forall source_dirs dest_dir extensions,
        wf (fst (fst (copy_with_progress fs source_dirs dest_dir extensions))) = true
        /\ exists lines ok,
            verify_copy (fst (fst (copy_with_progress fs source_dirs dest_dir extensions)))
              source_dirs dest_dir extensions = Ok (lines, ok)).
Proof.
  intros Hwf. split; [| split].
  - intros. unfold load_config.
    destruct (negb (os_path_exists fs config_path)); [| exact Hwf].
    destruct (write_file fs config_path _ now) as [fs' |] eqn:Hw; [| exact Hwf].
    now apply (write_file_wf _ _ _ _ _ Hwf Hw).
  - intros. now apply setup_destination_wf.
  - intros. pose proof (copy_with_progress_wf fs source_dirs dest_dir extensions Hwf) as H.
    split; [exact H |].
    destruct (verify_copy_cases _ source_dirs dest_dir extensions _ _ _ _
                (get_files_info_wf _ source_dirs extensions H)
                (get_files_info_wf _ [dest_dir] extensions H))
      as (lines & ok & Hv & _).
    now exists lines, ok.
Qed.

Lemma writers_keep_wf_witness :
  wf clash_fs = true
  /\ wf (fst (setup_destination clash_fs ["photos"; "trip"] (subfolders default_cfg))) = true
  /\ wf (fst (fst (copy_with_progress clash_fs [["card"]] ["photos"] [".jpg"]))) = true.
Proof.
  pose proof (writers_keep_wf clash_fs eq_refl) as (_ & Hsetup & Hcopy).
  split; [reflexivity |]. split; [apply Hsetup | apply Hcopy].
Defined.

(** ** Walking a tree that has grown *)

(** [os.walk] reaches every directory below its top. *)
Lemma walk_node_complete (n : node) (rel : path) (es : list (string * node)) :
  lookup n rel = Some (Dir es) ->
  forall root, In (root ++ rel, dirnames es, filenames es) (walk_node root n).
Proof.
  revert n. induction rel as [| c rel IH]; intros n H root.
  - injection H as ->. rewrite app_nil_r. now left.
  - simpl in H. destruct n as [| es0]; [discriminate |].
    destruct (entry c es0) as [ch |] eqn:E; [| discriminate].
    cbn [walk_node]. right. apply in_flat_map. exists (c, ch).
    split; [now apply entry_In |]. cbn [fst snd].
    replace (root ++ c :: rel) with (os_path_join root c ++ rel)
      by (unfold os_path_join; now rewrite <- app_assoc).
    now apply IH.
Qed.

Lemma entry_filenames (c : string) (data : string) (mtime : Z)
  (es : list (string * node)) :
  entry c es = Some (File data mtime) -> In c (filenames es).
Proof.
  intros E. apply entry_In in E. unfold filenames.
  apply (in_map fst _ (c, File data mtime)). now apply filter_In.
Qed.

(** A photo of a well-formed tree is still a photo of any tree that keeps
    its regular files and its directories. *)
Lemma photo_paths_mono (fs fs' : node) (directories : list path)
  (extensions : list string) (p : path) :
  wf fs = true ->
  (forall q data mtime,
      lookup fs q = Some (File data mtime) -> lookup fs' q = Some (File data mtime)) ->
  (forall q, is_dir_at fs q -> is_dir_at fs' q) ->
  In p (photo_paths fs directories extensions) ->
  In p (photo_paths fs' directories extensions).
Proof.
  intros Hwf Hfiles Hdirs Hp.
  apply photo_paths_inv in Hp
    as (directory & root & ds & files & file & Hd & Hw & Hf & Hsel & ->).
  unfold os_walk in Hw. destruct (lookup fs directory) as [n |] eqn:En; [| destruct Hw].
  destruct (walk_node_sound n (wf_lookup _ _ _ Hwf En) _ _ _ _ Hw)
    as (rel & es & -> & Hl & -> & ->).
  assert (Hroot : lookup fs (directory ++ rel) = Some (Dir es))
    by now rewrite lookup_app, En.
  assert (Hnd : NoDup (map fst es)).
  { apply (wf_lookup _ _ _ Hwf) in Hroot. now apply wf_Dir in Hroot. }
  destruct (filenames_entry es file Hnd Hf) as (data & mtime & Hfile).
  assert (Hfile' : lookup fs' ((directory ++ rel) ++ [file]) = Some (File data mtime)).
  { apply Hfiles. rewrite lookup_app, Hroot. simpl. now rewrite Hfile. }
  destruct (Hdirs (directory ++ rel) ltac:(now exists es)) as [es' Hroot'].
  rewrite lookup_app, Hroot' in Hfile'. simpl in Hfile'.
  destruct (entry file es') as [ch |] eqn:E; [| discriminate].
  destruct ch as [data' mtime' | ?]; [| destruct (_ : list string); discriminate].
  apply photo_paths_inv.
  exists directory, (directory ++ rel), (dirnames es'), (filenames es'), file.
  split; [exact Hd |]. split; [| split; [| now split]].
  - unfold os_walk. rewrite lookup_app in Hroot'.
    destruct (lookup fs' directory) as [n' |]; [| discriminate].
    now apply walk_node_complete.
  - now apply (entry_filenames file data' mtime').
Qed.

(** ** The run *)

Lemma main_try_plan_raise (h : host) (cfg : config) (a : args) (fs : node) (e : exn) :
  plan h cfg a fs = Raise e ->
  exists said, main_try h cfg a fs = (fs, said ++ [Failed e], 1).
Proof.
  unfold plan, main_try.
  destruct (find_mount_point _ _ cfg _ _) as [mount_point | e0]; cbn [bind].
  2: { intros [= <-]. now exists []. }
  destruct (find_photo_directories _ _ mount_point _) as [lines [found | e0]]; cbn [snd bind].
  2: { intros [= <-]. now eexists. }
  destruct (get_earliest_photo_date _ fs _ _) as [date_str | e0]; cbn [bind].
  2: { intros [= <-]. now eexists. }
  destruct (h_format_dest h _ date_str _) as [dest_folder | e0]; cbn [bind].
  2: { intros [= <-]. now eexists. }
  discriminate.
Qed.

Lemma main_try_plan_ok (h : host) (cfg : config) (a : args) (fs : node)
  (photo_dirs : list path) (dest_dir : path) :
  plan h cfg a fs = Ok (photo_dirs, dest_dir) ->
  (exists said, main_try h cfg a fs = carry_out cfg a fs said photo_dirs dest_dir)
  /\ exists date_str,
      get_earliest_photo_date (h_fromtimestamp h) fs photo_dirs (photo_extensions cfg)
      = Ok date_str.
Proof.
  unfold plan, main_try.
  destruct (find_mount_point _ _ cfg _ _) as [mount_point | e0]; cbn [bind];
    [| discriminate].
  destruct (find_photo_directories _ _ mount_point _) as [lines [found | e0]];
    cbn [snd bind]; [| discriminate].
  destruct (get_earliest_photo_date _ fs _ _) as [date_str | e0] eqn:Ed; cbn [bind];
    [| discriminate].
  destruct (h_format_dest h _ date_str _) as [dest_folder | e0]; cbn [bind];
    [| discriminate].
  intros [= <- <-]. split; [| now exists date_str]. eexists. reflexivity.
Qed.

Lemma plan_with_no_verify (h : host) (cfg : config) (a : args) (fs : node) :
  plan h cfg (with_no_verify a) fs = plan h cfg a fs.
Proof. reflexivity. Qed.

(** After a date was found there is a photo, and there still is one
    after [setup_destination]. *)
Lemma photo_after_setup (fromtimestamp : Z -> result datetime) (fs : node)
  (photo_dirs : list path) (dest_dir : path) (folders : list path)
  (extensions : list string) (date_str : string) :
  wf fs = true ->
  get_earliest_photo_date fromtimestamp fs photo_dirs extensions = Ok date_str ->
  all_files (fst (setup_destination fs dest_dir folders)) photo_dirs extensions <> [].
Proof.
  intros Hwf Hdate. rewrite get_earliest_photo_date_wf in Hdate by exact Hwf.
  destruct (photo_paths fs photo_dirs extensions) as [| p ps] eqn:E; [discriminate |].
  assert (Hp : In p (photo_paths (fst (setup_destination fs dest_dir folders))
                       photo_dirs extensions)).
  { apply (photo_paths_mono fs); auto.
    - intros q data mtime H.
      unfold setup_destination.
      destruct (os_makedirs fs dest_dir) as [fs1 |] eqn:Em; [| exact H].
      apply makedirs_each_files. now apply (os_makedirs_files _ _ _ _ _ _ Em).
    - intros q H. unfold setup_destination.
      destruct (os_makedirs fs dest_dir) as [fs1 |] eqn:Em; [| exact H].
      apply makedirs_each_dirs. now apply (os_makedirs_keeps_dirs _ _ _ _ Em).
    - rewrite E. now left. }
  rewrite all_files_photo_paths. intros E'. now rewrite E' in Hp.
Qed.

(** X23: when the mount point, the photo directories, the date or the
    destination name cannot be had, the run writes nothing to the file
    system: it ends with the error line and exit status 1, and no
    directory was created. *)
Theorem main_try_fails_early (h : host) (cfg : config) (a : args) (fs : node) (e : exn) :
  plan h cfg a fs = Raise e ->
  fst (fst (main_try h cfg a fs)) = fs
  /\ snd (main_try h cfg a fs) = 1
  /\ exists said, snd (fst (main_try h cfg a fs)) = said ++ [Failed e].
Proof.
  intros H. destruct (main_try_plan_raise h cfg a fs e H) as [said ->].
  cbn [fst snd]. repeat split. now exists said.
Qed.

Lemma main_try_fails_early_witness :
  plan no_card_host default_cfg (trip_args false) mounted_fs
  = Raise (FileNotFoundError (NoDisk "EOS_DIGITAL" (mount_patterns default_cfg)))
  /\ fst (fst (main_try no_card_host default_cfg (trip_args false) mounted_fs)) = mounted_fs
  /\ snd (main_try no_card_host default_cfg (trip_args false) mounted_fs) = 1
  /\ exists said,
      snd (fst (main_try no_card_host default_cfg (trip_args false) mounted_fs))
      = said ++ [Failed (FileNotFoundError
                           (NoDisk "EOS_DIGITAL" (mount_patterns default_cfg)))].
Proof.
  split; [reflexivity |].
  exact (main_try_fails_early no_card_host default_cfg (trip_args false) mounted_fs _
           eq_refl).
Defined.

(** X24: on a well-formed tree, once the photo directories and the
    destination are known, the exit status depends on
    [setup_destination] alone: when it raises the run ends with status 1
    and nothing is copied; when it does not, the run ends with status 0
    whatever the copies and the verifier find, its file system is the
    one [copy_with_progress] left, [copy_with_progress] returned true
    (there is always a file to copy), and without [--no-verify] the
    verdict lines of [verify_copy] are printed before the last line. *)
Theorem main_try_status (h : host) (cfg : config) (a : args) (fs : node)
  (photo_dirs : list path) (dest_dir : path) :
  wf fs = true ->
  plan h cfg a fs = Ok (photo_dirs, dest_dir) ->
  let r := main_try h cfg a fs in
  let s := setup_destination fs dest_dir (subfolders cfg) in
  let c := copy_with_progress (fst s) photo_dirs dest_dir (photo_extensions cfg) in
  (forall e, snd s = Some e ->
             fst (fst r) = fst s /\ snd r = 1
             /\ exists said, snd (fst r) = said ++ [Failed e])
  /\ (snd s = None ->
      fst (fst r) = fst (fst c) /\ snd r = 0 /\ snd c = true
      /\ (exists said, snd (fst r) = said ++ [Done])
      /\ (arg_no_verify a = false ->
          exists lines ok said,
            verify_copy (fst (fst c)) photo_dirs dest_dir (photo_extensions cfg)
            = Ok (lines, ok)
            /\ snd (fst r) = said ++ map Printed lines ++ [Done])).
Proof.
  intros Hwf Hplan. cbv zeta.
  destruct (main_try_plan_ok h cfg a fs photo_dirs dest_dir Hplan)
    as [[said ->] [date_str Hdate]].
  pose proof (photo_after_setup _ fs photo_dirs dest_dir (subfolders cfg) _ _ Hwf Hdate)
    as Hphoto.
  pose proof (setup_destination_wf fs dest_dir (subfolders cfg) Hwf) as Hwf1.
  unfold carry_out.
  destruct (setup_destination fs dest_dir (subfolders cfg)) as [fs1 [e0 |]];
    cbn [fst snd] in *.
  - split; [| discriminate]. intros e [= <-]. repeat split. now exists said.
  - split; [discriminate |]. intros _.
    pose proof (copy_with_progress_wf fs1 photo_dirs dest_dir (photo_extensions cfg) Hwf1)
      as Hwf2.
    assert (Htrue : snd (copy_with_progress fs1 photo_dirs dest_dir (photo_extensions cfg))
                    = true).
    { rewrite copy_with_progress_unfold.
      destruct (all_files fs1 photo_dirs (photo_extensions cfg)); [congruence | reflexivity]. }
    destruct (copy_with_progress fs1 photo_dirs dest_dir (photo_extensions cfg))
      as [[fs2 copy_lines] copy_success].
    cbn [fst snd] in *. subst copy_success.
    destruct (verify_copy_cases fs2 photo_dirs dest_dir (photo_extensions cfg) _ _ _ _
                (get_files_info_wf _ photo_dirs _ Hwf2)
                (get_files_info_wf _ [dest_dir] _ Hwf2))
      as (lines & ok & Hv & _).
    rewrite Hv. destruct (arg_no_verify a); cbn [andb negb fst snd].
    + repeat split; [now eexists | discriminate].
    + repeat split.
      * exists ((said ++ map Printed copy_lines) ++ map Printed lines).
        now rewrite <- !app_assoc.
      * intros _. now exists lines, ok, (said ++ map Printed copy_lines).
Qed.

Lemma main_try_status_witness :
  let dirs := [["media"; "alice"; "EOS_DIGITAL"; "DCIM"; "100CANON"];
               ["media"; "alice"; "EOS_DIGITAL"; "DCIM"; "101CANON"]] in
  let dest := ["home"; "alice"; "Photos"; "20240102-canon600d-trip"] in
  wf mounted_fs = true
  /\ plan card_host default_cfg (trip_args false) mounted_fs = Ok (dirs, dest)
  /\ snd (setup_destination mounted_fs dest (subfolders default_cfg)) = None
  /\ snd (main_try card_host default_cfg (trip_args false) mounted_fs) = 0
  /\ verify_copy (fst (fst (main_try card_host default_cfg (trip_args false) mounted_fs)))
       dirs dest (photo_extensions default_cfg)
     = Ok (verify_head 2 6 1 2 ++ [WarnCount 2 1], false).
Proof.
  cbv zeta.
  pose proof (main_try_status card_host default_cfg (trip_args false) mounted_fs
                _ _ eq_refl eq_refl) as [_ H].
  destruct (H eq_refl) as (_ & Hexit & _).
  split; [reflexivity |]. split; [reflexivity |]. split; [reflexivity |].
  split; [exact Hexit | reflexivity].
Defined.

Lemma main_try_prepare (h : host) (cfg : config) (a : args) (fs : node) :
  main_try h cfg a fs
  = match prepare h cfg a fs with
    | (said, Raise e) => (fs, said ++ [Failed e], 1)
    | (said, Ok (photo_dirs, dest_dir)) => carry_out cfg a fs said photo_dirs dest_dir
    end.
Proof.
  unfold main_try, prepare.
  destruct (find_mount_point _ _ cfg _ _) as [mount_point | e0]; [| reflexivity].
  destruct (find_photo_directories _ _ mount_point _) as [lines [found | e0]];
    [| reflexivity].
  destruct (get_earliest_photo_date _ fs _ _) as [date_str | e0]; [| reflexivity].
  destruct (h_format_dest h _ date_str _) as [dest_folder | e0]; reflexivity.
Qed.

Lemma carry_out_no_verify (cfg : config) (a : args) (fs : node) (said : list report)
  (photo_dirs : list path) (dest_dir : path) :
  wf fs = true ->
  let quiet := carry_out cfg (with_no_verify a) fs said photo_dirs dest_dir in
  let r := carry_out cfg a fs said photo_dirs dest_dir in
  fst (fst quiet) = fst (fst r)
  /\ snd quiet = snd r
  /\ (snd (fst quiet) = snd (fst r)
      \/ exists before lines,
          snd (fst quiet) = before ++ [Done]
          /\ snd (fst r) = before ++ map Printed lines ++ [Done]).
Proof.
  intros Hwf. cbv zeta. unfold carry_out. cbn [with_no_verify arg_no_verify negb].
  pose proof (setup_destination_wf fs dest_dir (subfolders cfg) Hwf) as Hwf1.
  destruct (setup_destination fs dest_dir (subfolders cfg)) as [fs1 [e0 |]];
    cbn [fst snd] in *; [repeat split; now left |].
  pose proof (copy_with_progress_wf fs1 photo_dirs dest_dir (photo_extensions cfg) Hwf1)
    as Hwf2.
  destruct (copy_with_progress fs1 photo_dirs dest_dir (photo_extensions cfg))
    as [[fs2 copy_lines] copy_success].
  cbn [fst snd] in *. rewrite andb_false_r.
  destruct (verify_copy_cases fs2 photo_dirs dest_dir (photo_extensions cfg) _ _ _ _
              (get_files_info_wf _ photo_dirs _ Hwf2)
              (get_files_info_wf _ [dest_dir] _ Hwf2))
    as (lines & ok & Hv & _).
  rewrite Hv.
  destruct (copy_success && negb (arg_no_verify a)); cbn [fst snd].
  - repeat split. right. now exists (said ++ map Printed copy_lines), lines.
  - repeat split. now left.
Qed.

(** X25: on a well-formed tree [--no-verify] changes neither the file
    system the run leaves nor its exit status; what is printed is the
    same, or the same without the lines of the verifier before the last
    line. *)
Theorem main_try_no_verify (h : host) (cfg : config) (a : args) (fs : node) :
  wf fs = true ->
  let quiet := main_try h cfg (with_no_verify a) fs in
  let r := main_try h cfg a fs in
  fst (fst quiet) = fst (fst r)
  /\ snd quiet = snd r
  /\ (snd (fst quiet) = snd (fst r)
      \/ exists before lines,
          snd (fst quiet) = before ++ [Done]
          /\ snd (fst r) = before ++ map Printed lines ++ [Done]).
Proof.
  intros Hwf. cbv zeta. rewrite !main_try_prepare.
  change (prepare h cfg (with_no_verify a) fs) with (prepare h cfg a fs).
  destruct (prepare h cfg a fs) as [said [[photo_dirs dest_dir] | e]].
  - now apply carry_out_no_verify.
  - repeat split. now left.
Qed.

Lemma main_try_no_verify_witness :
  wf mounted_fs = true
  /\ fst (fst (main_try card_host default_cfg (with_no_verify (trip_args false)) mounted_fs))
     = fst (fst (main_try card_host default_cfg (trip_args false) mounted_fs))
  /\ snd (main_try card_host default_cfg (with_no_verify (trip_args false)) mounted_fs)
     = snd (main_try card_host default_cfg (trip_args false) mounted_fs).
Proof.
  pose proof (main_try_no_verify card_host default_cfg (trip_args false) mounted_fs eq_refl)
    as (Hfs & Hexit & _).
  split; [reflexivity |]. split; [exact Hfs | exact Hexit].
Defined.

(** ** Copy, then verify, with subfolders in the destination *)

Lemma no_files_no_photos (extensions : list string)
  (triples : list (path * list string * list string)) :
  (forall root ds files, In (root, ds, files) triples -> files = []) ->
  flat_map (fun '(root, _, files) =>
              map (os_path_join root) (List.filter (selected extensions) files))
           triples = [].
Proof.
  induction triples as [| [[root ds] files] triples IH]; intros H; [reflexivity |].
  cbn [flat_map]. rewrite (H root ds files) by now left. simpl.
  apply IH. intros r d f Hin. apply (H r d f). now right.
Qed.

Lemma flat_map_nil {A B : Type} (f : A -> list B) (l : list A) :
  (forall x, In x l -> f x = []) -> flat_map f l = [].
Proof.
  induction l as [| x l IH]; intros H; [reflexivity |]. simpl.
  rewrite (H x) by now left. apply IH. intros. apply H. now right.
Qed.

(** The walk of a directory entry below which there is no regular file
    reports no file. *)
Lemma walk_file_free (fs : node) (dir : path) (es : list (string * node))
  (c : string) (ch : node) :
  wf fs = true ->
  lookup fs dir = Some (Dir es) ->
  file_free fs dir ->
  In (c, ch) es ->
  forall root ds files,
    In (root, ds, files) (walk_node (os_path_join dir c) ch) -> files = [].
Proof.
  intros Hwf Hdir Hfree Hc root ds files Hw.
  assert (Hes : wf (Dir es) = true) by now apply (wf_lookup fs _ dir).
  pose proof Hes as Hes'. apply wf_Dir in Hes' as [Hnd Hch].
  assert (Hentry : entry c es = Some ch) by now apply entry_NoDup.
  destruct (walk_node_sound ch (Hch _ Hc) _ _ _ _ Hw) as (rel & es' & -> & Hl & -> & ->).
  destruct (filenames es') as [| f fl] eqn:Ef; [reflexivity | exfalso].
  assert (Hes'' : wf (Dir es') = true)
    by (apply (wf_lookup ch _ rel); [apply (Hch _ Hc) | exact Hl]).
  apply wf_Dir in Hes'' as [Hnd' _].
  destruct (filenames_entry es' f Hnd') as (data & mtime & Hf); [rewrite Ef; now left |].
  apply (Hfree (c :: rel ++ [f]) data mtime).
  rewrite lookup_app, Hdir. cbn [lookup]. rewrite Hentry, lookup_app, Hl. simpl.
  now rewrite Hf.
Qed.

Lemma filenames_app (es es' : list (string * node)) :
  filenames (es ++ es') = filenames es ++ filenames es'.
Proof. unfold filenames. now rewrite List.filter_app, map_app. Qed.

Lemma filenames_file_free (fs : node) (dir : path) (es : list (string * node)) :
  wf fs = true -> lookup fs dir = Some (Dir es) -> file_free fs dir -> filenames es = [].
Proof.
  intros Hwf Hdir Hfree.
  assert (Hes : wf (Dir es) = true) by now apply (wf_lookup fs _ dir).
  apply wf_Dir in Hes as [Hnd _].
  destruct (filenames es) as [| f fl] eqn:Ef; [reflexivity | exfalso].
  destruct (filenames_entry es f Hnd) as (data & mtime & Hf); [rewrite Ef; now left |].
  apply (Hfree [f] data mtime). rewrite lookup_app, Hdir. simpl. now rewrite Hf.
Qed.

Lemma filenames_copies (fs : node) (ps : list path) :
  (forall p, In p ps -> is_file_at fs p) ->
  filenames (copies fs ps) = map os_path_basename ps.
Proof.
  intros Hfiles. unfold filenames. rewrite filter_all.
  - apply map_fst_copies.
  - intros e He. now rewrite (copies_are_files fs ps Hfiles e He).
Qed.

(** The photos of a destination that held no regular file and now holds
    the copies next to what it held. *)
Lemma photo_paths_beside (fs fs' : node) (dest : path) (es : list (string * node))
  (ps : list path) (extensions : list string) :
  wf fs = true ->
  lookup fs dest = Some (Dir es) ->
  file_free fs dest ->
  lookup fs' dest = Some (Dir (es ++ copies fs ps)) ->
  (forall p, In p ps -> is_file_at fs p) ->
  (forall p, In p ps -> selected extensions (os_path_basename p) = true) ->
  photo_paths fs' [dest] extensions
  = map (fun p => os_path_join dest (os_path_basename p)) ps.
Proof.
  intros Hwf Hdest Hfree Hdest' Hfiles Hsel.
  unfold photo_paths, os_walk. cbn [flat_map]. rewrite Hdest', app_nil_r.
  cbn [walk_node flat_map].
  rewrite filenames_app, (filenames_file_free fs dest es), (filenames_copies fs ps);
    auto.
  cbn [app]. rewrite filter_all, map_map.
  - rewrite no_files_no_photos; [now rewrite app_nil_r |].
    intros root ds files Hin. apply in_flat_map in Hin as [[c ch] [Hc Hw]].
    cbn [fst snd] in Hw. apply in_app_or in Hc as [Hc | Hc].
    + now apply (walk_file_free fs dest es c ch Hwf Hdest Hfree Hc root ds files).
    + apply (copies_are_files fs ps Hfiles) in Hc. cbn [snd] in Hc.
      destruct ch; [destruct Hw | discriminate].
  - intros name Hname. apply in_map_iff in Hname as [p [<- Hp]]. now apply Hsel.
Qed.

Lemma lookup_beside (fs fs' : node) (dest : path) (es : list (string * node))
  (ps : list path) :
  lookup fs' dest = Some (Dir (es ++ copies fs ps)) ->
  (forall p, In p ps -> is_file_at fs p) ->
  (forall p, In p ps -> entry (os_path_basename p) es = None) ->
  NoDup (map os_path_basename ps) ->
  forall p, In p ps -> lookup fs' (os_path_join dest (os_path_basename p)) = lookup fs p.
Proof.
  intros Hdest Hfiles Hfresh Hnd p Hp. destruct (Hfiles p Hp) as [data [mtime E]].
  unfold os_path_join. rewrite lookup_app, Hdest. simpl.
  rewrite entry_app, (Hfresh p Hp), (entry_NoDup _ (file_at fs p)).
  - unfold file_at. now rewrite E.
  - now rewrite map_fst_copies.
  - apply (in_map (fun p => (os_path_basename p, file_at fs p))). exact Hp.
Qed.

Lemma os_walk_apart (fs fs' : node) (dest d : path) :
  (forall q, apart q dest -> lookup fs' q = lookup fs q) ->
  apart d dest -> os_walk fs' d = os_walk fs d.
Proof. intros Hframe Hd. unfold os_walk. now rewrite Hframe. Qed.

(** The round trip with entries beside the copies. *)
Lemma copy_beside (fs : node) (source_dirs : list path) (dest_dir : path)
  (extensions : list string) (es : list (string * node)) :
  wf fs = true ->
  lookup fs dest_dir = Some (Dir es) ->
  file_free fs dest_dir ->
  (forall d, In d source_dirs -> apart d dest_dir) ->
  NoDup (map os_path_basename (all_files fs source_dirs extensions)) ->
  (forall p, In p (all_files fs source_dirs extensions) ->
             entry (os_path_basename p) es = None) ->
  exists N S fs' (ok : bool),
    get_files_info fs source_dirs extensions = Ok (N, S)
    /\ copy_with_progress fs source_dirs dest_dir extensions
       = (fs', if ok then [] else [NoFilesToCopy], ok)
    /\ (ok = false <-> all_files fs source_dirs extensions = [])
    /\ (forall p, In p (all_files fs source_dirs extensions) ->
                  lookup fs' (os_path_join dest_dir (os_path_basename p)) = lookup fs p)
    /\ verify_copy fs' source_dirs dest_dir extensions
       = Ok (verify_head N S N S ++ [VerifyPassed], true).
Proof.
  intros Hwf Hdest Hfree Hsrc Hnd Hfresh.
  rewrite all_files_photo_paths in Hnd, Hfresh.
  set (ps := photo_paths fs source_dirs extensions) in *.
  assert (Hfiles : forall p, In p ps -> is_file_at fs p)
    by (intros p; now apply photo_paths_file).
  assert (Hap : forall p, In p ps -> apart p dest_dir).
  { intros p Hp. apply (photo_apart fs source_dirs dest_dir extensions); auto.
    now exists es. }
  assert (Hcopy : exists fs' (ok : bool),
             copy_with_progress fs source_dirs dest_dir extensions
             = (fs', if ok then [] else [NoFilesToCopy], ok)
             /\ (ok = false <-> ps = [])
             /\ lookup fs' dest_dir = Some (Dir (es ++ copies fs ps))
             /\ (forall q, apart q dest_dir -> lookup fs' q = lookup fs q)).
  { rewrite copy_with_progress_unfold, all_files_photo_paths. fold ps.
    destruct ps as [| p0 ps0] eqn:Eps.
    - exists fs, false. rewrite app_nil_r. repeat split; auto.
    - rewrite <- Eps in *.
      destruct (copy_loop_flat fs dest_dir ps fs es) as (fs' & Hloop & Hl & Hframe); auto.
      { apply NoDup_app. split; [| split; [| exact Hnd]].
        - assert (Hes : wf (Dir es) = true) by now apply (wf_lookup fs _ dest_dir).
          now apply wf_Dir in Hes.
        - intros c Hc Hc'. apply list_elem_of_In in Hc, Hc'.
          apply in_map_iff in Hc' as [p [<- Hp]].
          now apply (proj1 (entry_None _ es) (Hfresh p Hp)). }
      exists fs', true. rewrite Hloop. cbn [fst snd]. rewrite Eps at 1.
      repeat split; auto; [discriminate | intros E; rewrite E in Eps; discriminate]. }
  destruct Hcopy as (fs' & ok & Hc & Hok & Hl & Hframe).
  pose proof (lookup_beside fs fs' dest_dir es ps Hl Hfiles Hfresh Hnd) as Hat.
  assert (Hsame : photo_paths fs' source_dirs extensions = ps).
  { unfold ps, photo_paths. apply flat_map_ext_in. intros d Hd.
    now rewrite (os_walk_apart fs fs' dest_dir d Hframe (Hsrc d Hd)). }
  assert (Hkeep : forall p, In p ps -> lookup fs' p = lookup fs p)
    by (intros p Hp; now apply Hframe, Hap).
  assert (Hsrc' : get_files_info fs' source_dirs extensions
                  = Ok (Z.of_nat (length ps), total_bytes fs ps)).
  { rewrite get_files_info_flat, Hsame, foldM_add_file.
    - rewrite <- (map_id ps) at 2. rewrite (total_bytes_map fs fs'); [reflexivity |].
      intros p Hp. unfold file_size. now rewrite Hkeep.
    - intros p Hp. destruct (Hfiles p Hp) as [data [mtime E]].
      exists data, mtime. now rewrite Hkeep. }
  assert (Hdst' : get_files_info fs' [dest_dir] extensions
                  = Ok (Z.of_nat (length ps), total_bytes fs ps)).
  { rewrite get_files_info_flat, (photo_paths_beside fs fs' dest_dir es ps); auto;
      [| intros p; apply photo_paths_selected].
    rewrite foldM_add_file.
    - rewrite length_map, (total_bytes_map fs fs'); [reflexivity |].
      intros p Hp. unfold file_size. now rewrite Hat.
    - intros q Hq. apply in_map_iff in Hq as [p [<- Hp]].
      destruct (Hfiles p Hp) as [data [mtime E]]. exists data, mtime. now rewrite Hat. }
  exists (Z.of_nat (length ps)), (total_bytes fs ps), fs', ok.
  split; [now apply get_files_info_wf |]. split; [exact Hc |].
  rewrite all_files_photo_paths. fold ps. split; [exact Hok |]. split; [exact Hat |].
  unfold verify_copy. rewrite Hsrc'. cbn [bind]. rewrite Hdst'. cbn [bind].
  now rewrite !Z.eqb_refl.
Qed.

(** X26: copy then verify with a destination as the run prepares it.  On
    a well-formed tree, let the destination be a directory at or below
    which there is no regular file (it may hold subfolders), apart from
    the source directories, and let the selected files have pairwise
    distinct names, none of them the name of an entry of the
    destination.  Then no copy fails, every selected file is in the
    destination under its name with its content and modification time,
    and [verify_copy] finds the count and the byte total of the sources
    on both sides and returns true. *)
Theorem copy_then_verify_beside (fs : node) (source_dirs : list path) (dest_dir : path)
  (extensions : list string) (es : list (string * node)) :
  wf fs = true ->
  lookup fs dest_dir = Some (Dir es) ->
  file_free fs dest_dir ->
  (forall d, In d source_dirs -> apart d dest_dir) ->
  NoDup (map os_path_basename (all_files fs source_dirs extensions)) ->
  (forall p, In p (all_files fs source_dirs extensions) ->
             entry (os_path_basename p) es = None) ->
  exists N S fs' (ok : bool),
    get_files_info fs source_dirs extensions = Ok (N, S)
    /\ copy_with_progress fs source_dirs dest_dir extensions
       = (fs', if ok then [] else [NoFilesToCopy], ok)
    /\ (ok = false <-> all_files fs source_dirs extensions = [])
    /\ (forall p, In p (all_files fs source_dirs extensions) ->
                  lookup fs' (os_path_join dest_dir (os_path_basename p)) = lookup fs p)
    /\ verify_copy fs' source_dirs dest_dir extensions
       = Ok (verify_head N S N S ++ [VerifyPassed], true).
Proof. exact (copy_beside fs source_dirs dest_dir extensions es). Qed.

Lemma copy_then_verify_beside_witness :
  wf prepared_fs = true
  /\ lookup prepared_fs ["photos"] = Some (Dir [("selected", Dir [("exported", Dir [])])])
  /\ file_free prepared_fs ["photos"]
  /\ (forall d, In d [["card"]] -> apart d ["photos"])
  /\ NoDup (map os_path_basename (all_files prepared_fs [["card"]] [".jpg"]))
  /\ exists N S fs' (ok : bool),
      get_files_info prepared_fs [["card"]] [".jpg"] = Ok (N, S)
      /\ copy_with_progress prepared_fs [["card"]] ["photos"] [".jpg"]
         = (fs', if ok then [] else [NoFilesToCopy], ok)
      /\ (ok = false <-> all_files prepared_fs [["card"]] [".jpg"] = [])
      /\ (forall p, In p (all_files prepared_fs [["card"]] [".jpg"]) ->
                    lookup fs' (os_path_join ["photos"] (os_path_basename p))
                    = lookup prepared_fs p)
      /\ verify_copy fs' [["card"]] ["photos"] [".jpg"]
         = Ok (verify_head N S N S ++ [VerifyPassed], true).
Proof.
  assert (Hfree : file_free prepared_fs ["photos"]).
  { intros q data mtime. destruct q as [| c q]; simpl; [discriminate |].
    destruct (String.eqb c "selected"); [| discriminate].
    destruct q as [| c' q]; simpl; [discriminate |].
    destruct (String.eqb c' "exported"); [| discriminate].
    destruct q; simpl; discriminate. }
  assert (Hsrc : forall d, In d [["card"]] -> apart d ["photos"]).
  { intros d [<- | []]. split; intros [k Hk]; discriminate. }
  assert (Hnd : NoDup (map os_path_basename (all_files prepared_fs [["card"]] [".jpg"]))).
  { apply (bool_decide_eq_true_1 _). reflexivity. }
  split; [reflexivity |]. split; [reflexivity |]. split; [exact Hfree |].
  split; [exact Hsrc |]. split; [exact Hnd |].
  apply (copy_then_verify_beside prepared_fs [["card"]] ["photos"] [".jpg"]
           [("selected", Dir [("exported", Dir [])])]); auto.
  intros p [<- | [<- | []]]; reflexivity.
Defined.

(** ** The run, from the card to the verdict *)

Lemma apart_app (q dest k : path) : apart q dest -> apart q (dest ++ k).
Proof.
  intros [Hqd Hdq]. split.
  - intros H.
    assert (Hdest : dest `prefix_of` dest ++ k) by now apply prefix_app_r.
    destruct (prefix_weak_total q dest (dest ++ k) H Hdest); tauto.
  - intros [k' Hk]. apply Hdq. exists (k ++ k'). now rewrite Hk, <- app_assoc.
Qed.

Lemma lookup_fresh_dirs_prefix (p q : path) (m : node) :
  lookup (fresh_dirs p) q = Some m -> q `prefix_of` p.
Proof.
  revert q. induction p as [| c p IH]; intros [| c' q]; simpl.
  - intros _. reflexivity.
  - discriminate.
  - intros _. apply prefix_nil.
  - destruct (String.eqb_spec c' c) as [-> | ?]; [| discriminate].
    intros H. apply prefix_cons. now apply IH.
Qed.

(** [os.makedirs] leaves alone every path that is neither on the way to
    the directory it makes nor below it. *)
Lemma os_makedirs_frame (n n' : node) (p q : path) :
  os_makedirs n p = Ok n' -> apart q p -> lookup n' q = lookup n q.
Proof.
  revert n n' q. induction p as [| c p IH]; intros n n' q Hm [Hqp Hpq].
  - destruct Hpq. apply prefix_nil.
  - destruct q as [| c' q]; [destruct Hqp; apply prefix_nil |].
    destruct n as [| es]; simpl in Hm; [discriminate |].
    destruct (entry c es) as [ch |] eqn:E.
    + destruct (os_makedirs ch p) as [ch' |] eqn:Em; simpl in Hm; [| discriminate].
      injection Hm as <-. simpl.
      destruct (String.eqb_spec c' c) as [-> | Hne].
      * rewrite entry_replace_eq, E. apply (IH _ _ _ Em). split.
        -- intros H. apply Hqp. now apply prefix_cons.
        -- intros H. apply Hpq. now apply prefix_cons.
      * now rewrite entry_replace_ne.
    + injection Hm as <-. simpl. rewrite entry_app.
      destruct (entry c' es) as [chq |] eqn:Eq; [reflexivity |]. simpl.
      destruct (String.eqb_spec c' c) as [-> | Hne]; [| reflexivity].
      destruct (lookup (fresh_dirs p) q) as [m |] eqn:El; [| reflexivity].
      destruct Hqp. apply prefix_cons. now apply (lookup_fresh_dirs_prefix p q m).
Qed.

(** What exists after [os.makedirs] existed before or lies on the way to
    the directory it made. *)
Lemma os_makedirs_new (n n' : node) (p q : path) (m : node) :
  os_makedirs n p = Ok n' -> lookup n' q = Some m ->
  (exists m0, lookup n q = Some m0) \/ q `prefix_of` p.
Proof.
  revert n n' q m. induction p as [| c p IH]; intros n n' q m Hm Hq.
  - destruct n; simpl in Hm; [discriminate |]. injection Hm as <-. left. eauto.
  - destruct n as [| es]; simpl in Hm; [discriminate |].
    destruct q as [| c' q]; [right; apply prefix_nil |].
    destruct (entry c es) as [ch |] eqn:E.
    + destruct (os_makedirs ch p) as [ch' |] eqn:Em; simpl in Hm; [| discriminate].
      injection Hm as <-. simpl in Hq |- *.
      destruct (String.eqb_spec c' c) as [-> | Hne].
      * rewrite entry_replace_eq, E in Hq. rewrite E.
        destruct (IH _ _ _ _ Em Hq) as [H | H]; [now left | right; now apply prefix_cons].
      * rewrite entry_replace_ne in Hq by exact Hne. left.
        destruct (entry c' es); [eauto | discriminate].
    + injection Hm as <-. simpl in Hq |- *. rewrite entry_app in Hq.
      destruct (entry c' es) as [chq |] eqn:Eq; [left; eauto |]. simpl in Hq.
      destruct (String.eqb_spec c' c) as [-> | Hne]; [| discriminate].
      right. apply prefix_cons. now apply (lookup_fresh_dirs_prefix p q m).
Qed.

Lemma makedirs_each_frame (dest_path : path) (folders : list path) (q : path) :
  apart q dest_path ->
  forall fs, lookup (fst (makedirs_each fs dest_path folders)) q = lookup fs q.
Proof.
  intros Hq. induction folders as [| folder folders IH]; intros fs; simpl; [reflexivity |].
  destruct (os_makedirs fs (dest_path ++ folder)) as [fs1 |] eqn:Em; [| reflexivity].
  rewrite IH. apply (os_makedirs_frame _ _ _ _ Em). now apply apart_app.
Qed.

Lemma setup_destination_frame (fs : node) (dest_path : path) (subfolders : list path)
  (q : path) :
  apart q dest_path ->
  lookup (fst (setup_destination fs dest_path subfolders)) q = lookup fs q.
Proof.
  intros Hq. unfold setup_destination.
  destruct (os_makedirs fs dest_path) as [fs1 |] eqn:Em; [| reflexivity].
  rewrite makedirs_each_frame by exact Hq. now apply (os_makedirs_frame _ _ _ _ Em).
Qed.

Lemma makedirs_each_new (dest_path : path) (folders : list path) (q : path) (m : node) :
  forall fs,
    lookup (fst (makedirs_each fs dest_path folders)) q = Some m ->
    (exists m0, lookup fs q = Some m0)
    \/ exists folder, In folder folders /\ q `prefix_of` dest_path ++ folder.
Proof.
  induction folders as [| folder folders IH]; intros fs; simpl; [eauto |].
  destruct (os_makedirs fs (dest_path ++ folder)) as [fs1 |] eqn:Em; [| eauto].
  intros H. destruct (IH _ H) as [[m1 H1] | [f [Hf Hq]]].
  - destruct (os_makedirs_new _ _ _ _ _ Em H1) as [H0 | H0]; [now left |].
    right. exists folder. split; [now left | exact H0].
  - right. exists f. split; [now right | exact Hq].
Qed.

Lemma setup_destination_new (fs : node) (dest_path : path) (subfolders : list path)
  (q : path) (m : node) :
  lookup (fst (setup_destination fs dest_path subfolders)) q = Some m ->
  (exists m0, lookup fs q = Some m0)
  \/ exists target, In target (targets dest_path subfolders) /\ q `prefix_of` target.
Proof.
  unfold setup_destination, targets.
  destruct (os_makedirs fs dest_path) as [fs1 |] eqn:Em; [| eauto].
  intros H. destruct (makedirs_each_new _ _ _ _ _ H) as [[m1 H1] | [f [Hf Hq]]].
  - destruct (os_makedirs_new _ _ _ _ _ Em H1) as [H0 | H0]; [now left |].
    right. exists dest_path. split; [now left | exact H0].
  - right. exists (dest_path ++ f). split; [| exact Hq].
    right. now apply (in_map (fun folder => dest_path ++ folder)).
Qed.

Lemma setup_destination_files (fs : node) (dest_path : path) (subfolders : list path)
  (q : path) (data : string) (mtime : Z) :
  lookup (fst (setup_destination fs dest_path subfolders)) q = Some (File data mtime)
  <-> lookup fs q = Some (File data mtime).
Proof.
  unfold setup_destination.
  destruct (os_makedirs fs dest_path) as [fs1 |] eqn:Em; [| reflexivity].
  rewrite makedirs_each_files. apply (os_makedirs_files _ _ _ _ _ _ Em).
Qed.

Lemma setup_destination_made (fs : node) (dest_path : path) (subfolders : list path) :
  snd (setup_destination fs dest_path subfolders) = None ->
  is_dir_at (fst (setup_destination fs dest_path subfolders)) dest_path.
Proof.
  unfold setup_destination.
  destruct (os_makedirs fs dest_path) as [fs1 |] eqn:Em; [| discriminate].
  intros _. apply makedirs_each_dirs. now apply (os_makedirs_creates _ _ _ Em).
Qed.

Lemma setup_destination_photos (fs : node) (dest_dir : path) (folders : list path)
  (photo_dirs : list path) (extensions : list string) :
  (forall d, In d photo_dirs -> apart d dest_dir) ->
  photo_paths (fst (setup_destination fs dest_dir folders)) photo_dirs extensions
  = photo_paths fs photo_dirs extensions.
Proof.
  intros Hsrc. unfold photo_paths. apply flat_map_ext_in. intros d Hd.
  rewrite (os_walk_apart fs (fst (setup_destination fs dest_dir folders)) dest_dir d);
    auto.
  intros q Hq. now apply setup_destination_frame.
Qed.

(** [setup_destination] puts no entry into the destination whose name
    is not the first component of a subfolder. *)
Lemma setup_destination_no_entry (fs : node) (dest_dir : path) (folders : list path)
  (name : string) (es : list (string * node)) :
  lookup fs (dest_dir ++ [name]) = None ->
  (forall folder, In folder folders -> ~ [name] `prefix_of` folder) ->
  lookup (fst (setup_destination fs dest_dir folders)) dest_dir = Some (Dir es) ->
  entry name es = None.
Proof.
  intros Habsent Hname Hdest.
  destruct (entry name es) as [ch |] eqn:E; [exfalso | reflexivity].
  assert (Hl : lookup (fst (setup_destination fs dest_dir folders)) (dest_dir ++ [name])
               = Some ch).
  { rewrite lookup_app, Hdest. simpl. now rewrite E. }
  destruct (setup_destination_new _ _ _ _ _ Hl) as [[m0 H0] | [target [Ht Hpre]]].
  - rewrite Habsent in H0. discriminate.
  - destruct Ht as [<- | Ht].
    + destruct Hpre as [k Hk]. apply (f_equal (@length string)) in Hk.
      rewrite !length_app in Hk. simpl in Hk. lia.
    + apply in_map_iff in Ht as [folder [<- Hf]].
      apply (Hname folder Hf). destruct Hpre as [k Hk].
      exists k. rewrite <- app_assoc in Hk. now apply app_inv_head in Hk.
Qed.

Lemma file_free_absent (fs : node) (dir : path) :
  lookup fs dir = None -> file_free fs dir.
Proof. intros H q data mtime. now rewrite lookup_app, H. Qed.

(** X27: the whole run.  On a well-formed tree, let the mount point, the
    photo directories, the date and the destination be found, let
    [--no-verify] be absent, let the destination hold no regular file at
    or below it, let its directories be creatable, let it lie apart from
    the photo directories, and let the photos have pairwise distinct
    names, none of them a name already in the destination or the first
    component of a subfolder.  Then the run ends with the three lines of
    the verifier, with the count and the byte total of the card on both
    sides, the line that the verification passed and the closing line,
    with exit status 0, and every photo is in the destination under its
    name with its content and modification time. *)
Theorem main_try_verified (h : host) (cfg : config) (a : args) (fs : node)
  (photo_dirs : list path) (dest_dir : path) :
  wf fs = true ->
  plan h cfg a fs = Ok (photo_dirs, dest_dir) ->
  arg_no_verify a = false ->
  file_free fs dest_dir ->
  snd (setup_destination fs dest_dir (subfolders cfg)) = None ->
  (forall d, In d photo_dirs -> apart d dest_dir) ->
  NoDup (map os_path_basename (all_files fs photo_dirs (photo_extensions cfg))) ->
  (forall p, In p (all_files fs photo_dirs (photo_extensions cfg)) ->
             lookup fs (os_path_join dest_dir (os_path_basename p)) = None
             /\ forall folder, In folder (subfolders cfg) ->
                               ~ [os_path_basename p] `prefix_of` folder) ->
  exists N S fs' said,
    get_files_info fs photo_dirs (photo_extensions cfg) = Ok (N, S)
    /\ 0 < N
    /\ main_try h cfg a fs
       = (fs', said ++ map Printed (verify_head N S N S ++ [VerifyPassed]) ++ [Done], 0)
    /\ forall p, In p (all_files fs photo_dirs (photo_extensions cfg)) ->
                 lookup fs' (os_path_join dest_dir (os_path_basename p)) = lookup fs p.
Proof.
  intros Hwf Hplan Hverify Hfree Hsetup Hsrc Hnd Hnames.
  destruct (main_try_plan_ok h cfg a fs photo_dirs dest_dir Hplan)
    as [[said Hmain] [date_str Hdate]].
  pose proof (photo_after_setup _ fs photo_dirs dest_dir (subfolders cfg) _ _ Hwf Hdate)
    as Hsome.
  pose proof (setup_destination_wf fs dest_dir (subfolders cfg) Hwf) as Hwf1.
  pose proof (setup_destination_made fs dest_dir (subfolders cfg) Hsetup) as Hdir.
  pose proof (setup_destination_photos fs dest_dir (subfolders cfg) photo_dirs
                (photo_extensions cfg) Hsrc) as Hsame.
  destruct (setup_destination fs dest_dir (subfolders cfg)) as [fs1 e] eqn:Es.
  cbn [fst snd] in *. subst e. destruct Hdir as [es Hdest].
  assert (Hall : all_files fs1 photo_dirs (photo_extensions cfg)
                 = all_files fs photo_dirs (photo_extensions cfg))
    by now rewrite !all_files_photo_paths.
  assert (Hkeep : forall p, In p (all_files fs photo_dirs (photo_extensions cfg)) ->
                            lookup fs1 p = lookup fs p).
  { intros p Hp. change fs1 with (fst (fs1, @None exn)). rewrite <- Es.
    apply setup_destination_frame.
    apply (photo_apart fs1 photo_dirs dest_dir (photo_extensions cfg)); auto.
    - now exists es.
    - now rewrite <- all_files_photo_paths, Hall. }
  destruct (copy_beside fs1 photo_dirs dest_dir (photo_extensions cfg) es)
    as (N & S & fs' & ok & Hinfo & Hcopy & Hok & Hat & Hver); auto.
  { intros q data mtime H. apply (Hfree q data mtime).
    apply (setup_destination_files fs dest_dir (subfolders cfg)). now rewrite Es. }
  { now rewrite Hall. }
  { intros p Hp. rewrite Hall in Hp. destruct (Hnames p Hp) as [Habsent Hfolders].
    apply (setup_destination_no_entry fs dest_dir (subfolders cfg)); auto.
    now rewrite Es. }
  destruct ok.
  2: { destruct Hsome. now apply Hok. }
  assert (Hinfo0 : get_files_info fs photo_dirs (photo_extensions cfg) = Ok (N, S)).
  { rewrite get_files_info_wf in Hinfo |- * by assumption.
    rewrite Hsame in Hinfo. rewrite <- Hinfo. do 2 f_equal.
    rewrite <- (map_id (photo_paths fs photo_dirs (photo_extensions cfg))) at 2.
    symmetry. apply total_bytes_map. intros p Hp. unfold file_size.
    rewrite Hkeep; [reflexivity | now rewrite all_files_photo_paths]. }
  exists N, S, fs', said. split; [exact Hinfo0 |]. split.
  { rewrite get_files_info_wf in Hinfo0 by exact Hwf. injection Hinfo0 as HN _.
    rewrite Hall, all_files_photo_paths in Hsome.
    destruct (photo_paths fs photo_dirs (photo_extensions cfg));
      [now destruct Hsome | simpl in HN; lia]. }
  split.
  - rewrite Hmain. unfold carry_out. rewrite Es, Hcopy, Hverify, Hver. cbn [andb negb map].
    now rewrite app_nil_r.
  - intros p Hp. rewrite <- Hkeep by exact Hp. apply Hat. now rewrite Hall.
Qed.

Lemma main_try_verified_witness :
  wf trip_fs = true
  /\ plan card_host default_cfg (trip_args false) trip_fs = Ok (card_dirs, trip_dest)
  /\ file_free trip_fs trip_dest
  /\ snd (setup_destination trip_fs trip_dest (subfolders default_cfg)) = None
  /\ (forall d, In d card_dirs -> apart d trip_dest)
  /\ exists N S fs' said,
      get_files_info trip_fs card_dirs (photo_extensions default_cfg) = Ok (N, S)
      /\ 0 < N
      /\ main_try card_host default_cfg (trip_args false) trip_fs
         = (fs', said ++ map Printed (verify_head N S N S ++ [VerifyPassed]) ++ [Done], 0)
      /\ forall p, In p (all_files trip_fs card_dirs (photo_extensions default_cfg)) ->
                   lookup fs' (os_path_join trip_dest (os_path_basename p))
                   = lookup trip_fs p.
Proof.
  assert (Hfree : file_free trip_fs trip_dest) by now apply file_free_absent.
  assert (Hsrc : forall d, In d card_dirs -> apart d trip_dest).
  { intros d [<- | [<- | []]]; split; intros [k Hk]; discriminate. }
  split; [reflexivity |]. split; [vm_compute; reflexivity |]. split; [exact Hfree |].
  split; [reflexivity |]. split; [exact Hsrc |].
  apply (main_try_verified card_host default_cfg (trip_args false) trip_fs
           card_dirs trip_dest);
    [reflexivity | vm_compute; reflexivity | reflexivity | exact Hfree | reflexivity
    | exact Hsrc | |].
  - apply (bool_decide_eq_true_1 _). vm_compute. reflexivity.
  - intros p Hp.
    assert (Hps : all_files trip_fs card_dirs (photo_extensions default_cfg)
                  = [["media"; "alice"; "EOS_DIGITAL"; "DCIM"; "100CANON"; "IMG_0001.JPG"];
                     ["media"; "alice"; "EOS_DIGITAL"; "DCIM"; "101CANON"; "IMG_0002.JPG"]])
      by (vm_compute; reflexivity).
    rewrite Hps in Hp.
    destruct Hp as [<- | [<- | []]]; (split; [reflexivity |]);
      intros folder [<- | [<- | []]] [k Hk]; discriminate.
Defined.

(** ** The configuration of a run *)

(** X28: the first lines of [main] on a system without a configuration
    file.  When a regular file lies on the way to the configuration
    directory, the run ends there: [os.makedirs] raises, nothing is
    printed and nothing is written.  Otherwise the directory is made,
    the dumped defaults are written to [config.json] in it, the run goes
    on with the defaults, and every regular file of the system is still
    where it was, with its content. *)
Theorem main_config_first_run (json_dump : value -> string)
  (json_load : string -> option value) (fs : node) (now : Z) (config_dir : path) :
  lookup fs (os_path_join config_dir "config.json") = None ->
  (blocked fs config_dir ->
   exists e, main_config json_dump json_load fs now config_dir = (fs, [], Raise e))
  /\ (~ blocked fs config_dir ->
      exists fs',
        main_config json_dump json_load fs now config_dir
        = (fs', [ConfigCreated (os_path_join config_dir "config.json")],
           Ok (VDict DEFAULT_CONFIG))
        /\ lookup fs' (os_path_join config_dir "config.json")
           = Some (File (json_dump (VDict DEFAULT_CONFIG)) now)
        /\ forall q data mtime,
            lookup fs q = Some (File data mtime) -> lookup fs' q = Some (File data mtime)).
Proof.
  intros Hnone. unfold main_config. split.
  - intros Hb. destruct (os_makedirs fs config_dir) as [fs1 | e] eqn:Em; [| now exists e].
    destruct (proj1 (os_makedirs_ok_iff fs config_dir)); [now exists fs1 | exact Hb].
  - intros Hfree. destruct (proj2 (os_makedirs_ok_iff fs config_dir) Hfree) as [fs1 Em].
    rewrite Em. destruct (os_makedirs_creates _ _ _ Em) as [es Hdir].
    assert (Hnone1 : lookup fs1 (os_path_join config_dir "config.json") = None).
    { destruct (lookup fs1 (os_path_join config_dir "config.json")) as [m |] eqn:E;
        [exfalso | reflexivity].
      destruct (os_makedirs_new _ _ _ _ _ Em E) as [[m0 H0] | [k Hk]].
      - rewrite Hnone in H0. discriminate.
      - apply (f_equal (@length string)) in Hk. unfold os_path_join in Hk.
        rewrite !length_app in Hk. simpl in Hk. lia. }
    assert (Hname : entry "config.json" es = None).
    { unfold os_path_join in Hnone1. rewrite lookup_app, Hdir in Hnone1.
      simpl in Hnone1. now destruct (entry "config.json" es). }
    destruct (write_file_into fs1 config_dir "config.json"
                (json_dump (VDict DEFAULT_CONFIG)) now es Hdir) as [fs' [Hw Hl]];
      [rewrite Hname; discriminate |].
    exists fs'. unfold load_config, os_path_exists. rewrite Hnone1. cbn [negb].
    unfold os_path_join at 1. rewrite Hw. split; [reflexivity |].
    split; [now apply (write_file_lookup fs1) |].
    intros q data mtime Hq.
    rewrite (write_file_frame fs1 fs' (config_dir ++ ["config.json"]) q _ _ Hw).
    + now apply (os_makedirs_files _ _ _ _ _ _ Em).
    + intros [k Hk]. destruct k as [| c k].
      * rewrite app_nil_r in Hk. subst q. unfold os_path_join in Hnone.
        rewrite Hnone in Hq. discriminate.
      * apply Hfree. exists q. split; [| now exists data, mtime].
        exists (removelast (c :: k)).
        assert (Hlast : c :: k = removelast (c :: k) ++ [List.last (c :: k) c])
          by now apply app_removelast_last.
        rewrite Hlast, app_assoc in Hk. now apply app_inj_tail in Hk as [-> _].
    + intros [k Hk]. subst q. unfold os_path_join in Hnone.
      rewrite lookup_app, Hnone in Hq. discriminate.
Qed.

Lemma main_config_first_run_witness :
  lookup bare_home_fs (os_path_join ["home"; "alice"; ".config"; "photo_copy"] "config.json")
  = None
  /\ ~ blocked bare_home_fs ["home"; "alice"; ".config"; "photo_copy"]
  /\ exists fs',
      main_config dump_sample load_sample bare_home_fs 7
        ["home"; "alice"; ".config"; "photo_copy"]
      = (fs', [ConfigCreated config_json], Ok (VDict DEFAULT_CONFIG))
      /\ lookup fs' config_json = Some (File "<json>" 7)
      /\ forall q data mtime,
          lookup bare_home_fs q = Some (File data mtime) ->
          lookup fs' q = Some (File data mtime).
Proof.
  assert (Hfree : ~ blocked bare_home_fs ["home"; "alice"; ".config"; "photo_copy"]).
  { apply os_makedirs_ok_iff. eexists. reflexivity. }
  split; [reflexivity |]. split; [exact Hfree |].
  exact (proj2 (main_config_first_run dump_sample load_sample bare_home_fs 7
                  ["home"; "alice"; ".config"; "photo_copy"] eq_refl) Hfree).
Defined.
